(** * crossover-managed: rate limiter, plan resolver, response cache,
    activity recorder and request gatekeeper

  A shallow embedding of the Go sources of kotalco/crossover-managed and
  the properties its design document states about them.

  Conventions of the embedding:
  - a Go [int] is a [Z]; where the 64-bit range matters it is written out;
  - a Go [string] or [[]byte] is a [string], a sequence of bytes;
  - a Go [error] is an [option string]: [None] is [nil], [Some m] is an
    error whose text is [m];
  - a Go function returning [(T, error)] returns a pair, and one that can
    panic returns an [outcome];
  - the key-value store, the process log, the response writer and the
    channel are explicit states threaded through the calls; times are in
    milliseconds;
  - the libraries the code calls ([net/url], [regexp], [uuid],
    [encoding/json], [encoding/gob]) are type classes; the network is the
    function that answers a request;
  - a [context.Context] carries nothing the code reads and is left out.

  The file has three parts: the embedding, package by package; sample
  collaborators on which it can be run; the properties. *)

From Stdlib Require Import ZArith Lia Bool Ascii String.
From Stdlib Require Import DecimalString DecimalPos DecimalZ.
From stdpp Require Import base tactics option list gmap strings.

Local Open Scope string_scope.
Local Open Scope Z_scope.

(** ** Go values *)

Definition error : Type := option string.

Inductive outcome (A : Type) : Type :=
| Returned (a : A)
| Panicked (reason : string).
Arguments Returned {A} a.
Arguments Panicked {A} reason.

Definition max_int : Z := 9223372036854775807.
Definition min_int : Z := -9223372036854775808.

Definition in_int_range (z : Z) : bool := (min_int <=? z) && (z <=? max_int).

Module strconv.

(** [strconv.Itoa]: canonical decimal text of an integer. *)
Definition Itoa (z : Z) : string := NilZero.string_of_int (Z.to_int z).

(** [strconv.Atoi]: optional sign, then one or more decimal digits, the
    value within the range of [int]; anything else is an error. *)
Definition Atoi (s : string) : Z * error :=
  match s with
  | EmptyString => (0, Some "strconv.Atoi: invalid syntax")
  | String a rest =>
      let '(negative, digits) :=
        if Ascii.eqb a "-"%char then (true, rest)
        else if Ascii.eqb a "+"%char then (false, rest)
        else (false, s) in
      match NilZero.uint_of_string digits with
      | Some d =>
          let z := if negative : bool then - Z.of_uint d else Z.of_uint d in
          if in_int_range z then (z, None)
          else (0, Some "strconv.Atoi: value out of range")
      | None => (0, Some "strconv.Atoi: invalid syntax")
      end
  end.

End strconv.

(** ** The key-value store behind [resp.IClient]

  The client library is an external collaborator; what the code relies on
  is the store's command semantics.  An entry is a string with an optional
  absolute deadline in milliseconds; an entry whose deadline has passed is
  gone.  Every command is appended to [issued].  A command can fail with a
  backend error: [faults] is the schedule of failures, consumed one flag
  per command ([true]: this command fails and leaves the store as it is);
  an exhausted schedule means no further failure. *)

Module resp.

Record entry : Type := Entry { value : string; deadline : option Z }.

Inductive command : Type :=
| CGet (key : string)
| CSet (key value : string)
| CSetWithTTL (key value : string) (ttl : Z)
| CIncr (key : string)
| CExpire (key : string) (seconds : Z)
| CDelete (key : string).

Record Client : Type := MkClient {
  store : gmap string entry;
  now : Z;
  faults : list bool;
  issued : list command
}.

Definition backend_error : string := "resp: backend error".

Definition with_store (m : gmap string entry) (c : Client) : Client :=
  {| store := m; now := now c; faults := faults c; issued := issued c |}.

(** The environment moves the clock. *)
Definition at_time (t : Z) (c : Client) : Client :=
  {| store := store c; now := t; faults := faults c; issued := issued c |}.

Definition live (t : Z) (e : entry) : bool :=
  match deadline e with
  | None => true
  | Some d => t <? d
  end.

Definition find (key : string) (c : Client) : option entry :=
  match store c !! key with
  | Some e => if live (now c) e then Some e else None
  | None => None
  end.

(** Record the command and draw its failure flag. *)
Definition issue (cmd : command) (c : Client) : bool * Client :=
  match faults c with
  | [] =>
      (false, {| store := store c; now := now c; faults := [];
                 issued := (issued c ++ [cmd])%list |})
  | f :: fs =>
      (f, {| store := store c; now := now c; faults := fs;
             issued := (issued c ++ [cmd])%list |})
  end.

(** The store's integers are canonical decimal strings in 64-bit range. *)
Definition parse_int (s : string) : option Z :=
  match NilZero.int_of_string s with
  | Some d =>
      let z := Z.of_int d in
      if String.eqb (strconv.Itoa z) s && in_int_range z then Some z else None
  | None => None
  end.

(** The integer held at [key]: 0 when the key is absent or expired. *)
Definition counter (key : string) (c : Client) : Z :=
  match find key c with
  | Some e => default 0 (parse_int (value e))
  | None => 0
  end.

Definition Get (key : string) (c : Client) : (string * error) * Client :=
  let '(failed, c1) := issue (CGet key) c in
  if failed then (("", Some backend_error), c1)
  else match find key c1 with
       | Some e => ((value e, None), c1)
       | None => (("", None), c1)
       end.

Definition Set_ (key val : string) (c : Client) : error * Client :=
  let '(failed, c1) := issue (CSet key val) c in
  if failed then (Some backend_error, c1)
  else (None, with_store (<[key := Entry val None]> (store c1)) c1).

Definition SetWithTTL (key val : string) (ttl : Z) (c : Client)
  : error * Client :=
  let '(failed, c1) := issue (CSetWithTTL key val ttl) c in
  if failed then (Some backend_error, c1)
  else if ttl <=? 0 then (Some "ERR invalid expire time", c1)
  else (None,
        with_store (<[key := Entry val (Some (now c1 + 1000 * ttl))]> (store c1)) c1).

Definition Incr (key : string) (c : Client) : (Z * error) * Client :=
  let '(failed, c1) := issue (CIncr key) c in
  if failed then ((0, Some backend_error), c1)
  else match find key c1 with
       | None =>
           ((1, None), with_store (<[key := Entry "1" None]> (store c1)) c1)
       | Some e =>
           match parse_int (value e) with
           | Some n =>
               if n <? max_int then
                 ((n + 1, None),
                  with_store
                    (<[key := Entry (strconv.Itoa (n + 1)) (deadline e)]> (store c1)) c1)
               else ((0, Some "ERR increment or decrement would overflow"), c1)
           | None =>
               ((0, Some "ERR value is not an integer or out of range"), c1)
           end
       end.

Definition Expire (key : string) (seconds : Z) (c : Client)
  : (bool * error) * Client :=
  let '(failed, c1) := issue (CExpire key seconds) c in
  if failed then ((false, Some backend_error), c1)
  else match find key c1 with
       | Some e =>
           ((true, None),
            with_store
              (<[key := Entry (value e) (Some (now c1 + 1000 * seconds))]> (store c1)) c1)
       | None => ((false, None), c1)
       end.

Definition Delete (key : string) (c : Client) : error * Client :=
  let '(failed, c1) := issue (CDelete key) c in
  if failed then (Some backend_error, c1)
  else (None, with_store (delete key (store c1)) c1).

End resp.


(** ** io: a readable stream

  [pending] is what is still to be read; once it is exhausted a read
  returns [io.EOF] when [failure] is [None] and otherwise an error with
  the given text. *)

Module io.

(** The errors of a read: the [io.EOF] sentinel or any other error. *)
Inductive read_error : Type :=
| EOF
| Failure (msg : string).

Record ReadCloser : Type := MkReadCloser {
  pending : string;
  failure : option string;
  closed : bool
}.

(** [io.NopCloser(bytes.NewReader(b))] *)
Definition of_bytes (b : string) : ReadCloser :=
  {| pending := b; failure := None; closed := false |}.

Definition Close (r : ReadCloser) : ReadCloser :=
  {| pending := pending r; failure := failure r; closed := true |}.

(** The first [n] bytes of [s], counted in [Z]. *)
Fixpoint take (n : Z) (s : string) : string :=
  match s with
  | EmptyString => EmptyString
  | String a rest => if n <=? 0 then EmptyString else String a (take (n - 1) rest)
  end.

Fixpoint drop (n : Z) (s : string) : string :=
  match s with
  | EmptyString => EmptyString
  | String a rest => if n <=? 0 then s else drop (n - 1) rest
  end.

Definition len (s : string) : Z := Z.of_nat (String.length s).

(** [io.CopyN(dst, src, n)] into an empty buffer: the bytes written, the
    error, and the source after the copy.  [n] bytes available: no error.
    Fewer: everything is copied and the error is the one that ended the
    stream, [EOF] for a clean end. *)
Definition CopyN (src : ReadCloser) (n : Z)
  : (string * option read_error) * ReadCloser :=
  let rest := {| pending := drop n (pending src); failure := failure src;
                 closed := closed src |} in
  if n <=? len (pending src) then ((take n (pending src), None), rest)
  else match failure src with
       | None => ((pending src, Some EOF), rest)
       | Some e => ((pending src, Some (Failure e)), rest)
       end.

End io.

(** ** net/url *)

Module url.

Record URL : Type := MkURL {
  Scheme : string;
  Host : string;
  Path : string;
  RawQuery : string
}.

Definition with_RawQuery (q : string) (u : URL) : URL :=
  {| Scheme := Scheme u; Host := Host u; Path := Path u; RawQuery := q |}.

(** The [String] method of a URL: [scheme://host/path?query], each part
    only if it is there. *)
Definition String_ (u : URL) : string :=
  (if String.eqb (Scheme u) "" then "" else Scheme u +:+ ":") +:+
  (if String.eqb (Host u) "" then "" else "//" +:+ Host u) +:+
  Path u +:+
  (if String.eqb (RawQuery u) "" then "" else "?" +:+ RawQuery u).

(** The parser and the query escaping of the library. *)
Class Lib : Type := {
  Parse : string -> URL * error;
  QueryEscape : string -> string
}.

End url.

(** ** net/http *)

Module http.

Definition StatusOK : Z := 200.
Definition StatusBadRequest : Z := 400.
Definition StatusTooManyRequests : Z := 429.
Definition StatusInternalServerError : Z := 500.

Definition StatusText (code : Z) : string :=
  if code =? StatusOK then "OK"
  else if code =? StatusBadRequest then "Bad Request"
  else if code =? StatusTooManyRequests then "Too Many Requests"
  else if code =? StatusInternalServerError then "Internal Server Error"
  else "".

Definition MethodGet : string := "GET".
Definition MethodPost : string := "POST".

(** [http.Header]: header name to the list of its values. *)
Abbreviation Header := (gmap string (list string)).

Definition is_lower (n : N) : bool := ((97 <=? n) && (n <=? 122))%N.
Definition is_upper (n : N) : bool := ((65 <=? n) && (n <=? 90))%N.
Definition is_digit (n : N) : bool := ((48 <=? n) && (n <=? 57))%N.

(** The bytes allowed in a header field name. *)
Definition validHeaderFieldByte (a : ascii) : bool :=
  let n := N_of_ascii a in
  is_lower n || is_upper n || is_digit n ||
  existsb (N.eqb n) [33; 35; 36; 37; 38; 39; 42; 43; 45; 46; 94; 95; 96; 124; 126]%N.

Fixpoint all_bytes (p : ascii -> bool) (s : string) : bool :=
  match s with
  | EmptyString => true
  | String a rest => p a && all_bytes p rest
  end.

Fixpoint canonical_from (upper : bool) (s : string) : string :=
  match s with
  | EmptyString => EmptyString
  | String a rest =>
      let n := N_of_ascii a in
      let a' :=
        if upper && is_lower n then ascii_of_N (n - 32)
        else if negb upper && is_upper n then ascii_of_N (n + 32)
        else a in
      String a' (canonical_from (Ascii.eqb a "-"%char) rest)
  end.

(** [textproto.CanonicalMIMEHeaderKey] *)
Definition CanonicalHeaderKey (s : string) : string :=
  if all_bytes validHeaderFieldByte s then canonical_from true s else s.

Definition Header_Set (key val : string) (h : Header) : Header :=
  <[CanonicalHeaderKey key := [val]]> h.

Definition Header_Add (key val : string) (h : Header) : Header :=
  let k := CanonicalHeaderKey key in
  <[k := (default [] (h !! k) ++ [val])%list]> h.

Definition Header_Get (key : string) (h : Header) : string :=
  match h !! CanonicalHeaderKey key with
  | Some (v :: _) => v
  | _ => ""
  end.

Definition Header_Del (key : string) (h : Header) : Header :=
  delete (CanonicalHeaderKey key) h.

Record Request : Type := MkRequest {
  Method : string;
  URL : url.URL;
  Header_ : Header;
  Body : io.ReadCloser
}.

Definition with_Header (h : Header) (r : Request) : Request :=
  {| Method := Method r; URL := URL r; Header_ := h; Body := Body r |}.

Definition with_Body (b : io.ReadCloser) (r : Request) : Request :=
  {| Method := Method r; URL := URL r; Header_ := Header_ r; Body := b |}.

Definition validMethod (m : string) : bool :=
  negb (String.eqb m "") && all_bytes validHeaderFieldByte m.

(** [http.NewRequest]: fails on a bad method or an unparsable URL. *)
Definition NewRequest `{url.Lib} (method rawurl body : string)
  : Request * error :=
  let empty := {| Method := ""; URL := url.MkURL "" "" "" "";
                  Header_ := ∅; Body := io.of_bytes "" |} in
  if negb (validMethod method) then (empty, Some "net/http: invalid method")
  else match url.Parse rawurl with
       | (_, Some e) => (empty, Some e)
       | (u, None) =>
           ({| Method := method; URL := u; Header_ := ∅;
               Body := io.of_bytes body |}, None)
       end.

Record Response : Type := MkResponse {
  StatusCode : Z;
  RespBody : string
}.

(** [http.Client]: [Do] is what the network answers.  The response
    pointer can be [nil] ([None]); it is [nil] whenever the transport
    itself failed. *)
Record Client : Type := MkClient {
  Timeout : Z;
  Do : Request -> option Response * error
}.

(** The response writer handed to the middleware by the server: its
    header map and the calls made on it, oldest first. *)
Inductive call : Type :=
| WriteHeaderCall (statusCode : Z)
| WriteCall (data : string).

Record ResponseWriter : Type := MkResponseWriter {
  header : Header;
  calls : list call
}.

(** The [http.ResponseWriter] interface. *)
Class Writer (W : Type) : Type := {
  update_Header : (Header -> Header) -> W -> W;
  WriteHeader : Z -> W -> W;
  Write : string -> W -> W
}.

#[global] Instance ResponseWriter_Writer : Writer ResponseWriter := {
  update_Header f w := {| header := f (header w); calls := calls w |};
  WriteHeader code w :=
    {| header := header w; calls := (calls w ++ [WriteHeaderCall code])%list |};
  Write data w :=
    {| header := header w; calls := (calls w ++ [WriteCall data])%list |}
}.

(** What a handler does to the writer it is given. *)
Inductive action : Type :=
| SetHeader (key val : string)
| AddHeader (key val : string)
| DelHeader (key : string)
| SendStatus (statusCode : Z)
| SendBody (data : string).

Definition perform {W} `{Writer W} (a : action) (w : W) : W :=
  match a with
  | SetHeader k v => update_Header (Header_Set k v) w
  | AddHeader k v => update_Header (Header_Add k v) w
  | DelHeader k => update_Header (Header_Del k) w
  | SendStatus code => WriteHeader code w
  | SendBody data => Write data w
  end.

(** [http.Handler]: the actions it takes on its writer for a request. *)
Definition Handler : Type := Request -> list action.

Definition ServeHTTP {W} `{Writer W} (h : Handler) (w : W) (req : Request) : W :=
  fold_left (fun w a => perform a w) (h req) w.

End http.

(** ** package limiter: plan resolver and fixed-window counter *)

Module limiter.

(** *** The plan proxy *)

Definition DefaultTimeout : Z := 5.

Record PlanData : Type := MkPlanData { RequestLimit : Z }.
Record PlanProxyResponse : Type := MkPlanProxyResponse { Data : PlanData }.

(** [encoding/json] decoding a response body into a [PlanProxyResponse]. *)
Class PlanDecoder : Type := {
  Decode : string -> PlanProxyResponse * error
}.

Record PlanProxy : Type := MkPlanProxy {
  httpClient : http.Client;
  requestUrl : url.URL;
  apiKey : string
}.

Definition something_went_wrong : string := "something went wrong".

Definition nil_dereference : string :=
  "runtime error: invalid memory address or nil pointer dereference".

(** [NewPlanProxy]; [network] is what the default transport answers. *)
Definition NewPlanProxy `{url.Lib} (apiKey rawUrl : string)
    (network : http.Request -> option http.Response * error)
  : outcome PlanProxy :=
  match url.Parse rawUrl with
  | (_, Some e) =>
      Panicked ("invalid raw plan proxy url " +:+ rawUrl +:+ ": " +:+ e)
  | (requestUrl, None) =>
      Returned {| httpClient := {| http.Timeout := DefaultTimeout;
                                   http.Do := network |};
                  requestUrl := requestUrl;
                  apiKey := apiKey |}
  end.

(** The URL that [fetch] asks for the plan of [userId]. *)
Definition plan_url `{url.Lib} (proxy : PlanProxy) (userId : string) : string :=
  url.String_
    (url.with_RawQuery ("userId=" +:+ url.QueryEscape userId) (requestUrl proxy)).

(** [PlanProxy.fetch].  The proxy is returned because the call rewrites
    the query of its URL in place; the log is the process log. *)
Definition fetch `{url.Lib} `{PlanDecoder} (proxy : PlanProxy)
    (userId : string) (log : list string)
  : outcome ((string * error) * PlanProxy * list string) :=
  let queryParams := "userId=" +:+ url.QueryEscape userId in
  let proxy :=
    {| httpClient := httpClient proxy;
       requestUrl := url.with_RawQuery queryParams (requestUrl proxy);
       apiKey := apiKey proxy |} in
  let '(httpReq, err) :=
    http.NewRequest http.MethodGet (url.String_ (requestUrl proxy)) "" in
  match err with
  | Some e =>
      Returned (("", Some something_went_wrong), proxy,
                (log ++ ["FetchUserPlan:NewRequest, " +:+ e])%list)
  | None =>
      let httpReq :=
        http.with_Header
          (http.Header_Set "X-Api-Key" (apiKey proxy)
             (http.Header_Set "Content-Type" "application/json"
                (http.Header_ httpReq)))
          httpReq in
      let '(httpRes, err) := http.Do (httpClient proxy) httpReq in
      (* defer httpRes.Body.Close(): the operand is evaluated here, before
         the error is looked at *)
      match httpRes with
      | None => Panicked nil_dereference
      | Some httpRes =>
          match err with
          | Some e =>
              Returned (("", Some something_went_wrong), proxy,
                        (log ++ ["FetchUserPlan:Do, " +:+ e])%list)
          | None =>
              if negb (http.StatusCode httpRes =? http.StatusOK) then
                Returned (("", Some something_went_wrong), proxy,
                          (log ++ ["FetchUserPlan:InvalidStatusCode: " +:+
                                   strconv.Itoa (http.StatusCode httpRes)])%list)
              else
                let '(response, err) := Decode (http.RespBody httpRes) in
                match err with
                | Some e =>
                    Returned (("", Some something_went_wrong), proxy,
                              (log ++ ["FetchUserPlan:UNMARSHAERPlan, " +:+ e])%list)
                | None =>
                    Returned ((strconv.Itoa (RequestLimit (Data response)), None),
                              proxy, log)
                end
          end
      end
  end.

(** *** The limiter *)

Definition UserRateKeySuffix : string := "-rate".
Definition UserRateLimitingWindow : Z := 1.

Record limiter : Type := MkLimiter { planProxy : PlanProxy }.

Definition NewLimiter `{url.Lib} (apiKey remoteAddress : string)
    (network : http.Request -> option http.Response * error)
  : outcome limiter :=
  match NewPlanProxy apiKey remoteAddress network with
  | Panicked r => Panicked r
  | Returned p => Returned {| planProxy := p |}
  end.

(** The conversion at the end of [getUserPlan]. *)
Definition parse_plan (userPlan : string) : Z * error :=
  match strconv.Atoi userPlan with
  | (n, None) => (n, None)
  | (_, Some e) =>
      (0, Some ("can't parse userPlan: " +:+ userPlan +:+ ", got error: " +:+ e))
  end.

(** [limiter.getUserPlan] *)
Definition getUserPlan `{url.Lib} `{PlanDecoder} (l : limiter)
    (respClint : resp.Client) (userId : string) (log : list string)
  : outcome ((Z * error) * limiter * resp.Client * list string) :=
  let '((userPlan, err), c1) := resp.Get userId respClint in
  match err with
  | Some e => Returned ((0, Some e), l, c1, log)
  | None =>
      if String.eqb userPlan "" then
        match fetch (planProxy l) userId log with
        | Panicked r => Panicked r
        | Returned ((_, Some e), p, log1) =>
            Returned ((0, Some e), {| planProxy := p |}, c1, log1)
        | Returned ((userPlan, None), p, log1) =>
            let '(err, c2) := resp.Set_ userId userPlan c1 in
            match err with
            | Some e => Returned ((0, Some e), {| planProxy := p |}, c2, log1)
            | None => Returned (parse_plan userPlan, {| planProxy := p |}, c2, log1)
            end
        end
      else Returned (parse_plan userPlan, l, c1, log)
  end.

Definition rate_key (userId : string) : string :=
  userId +:+ UserRateKeySuffix.

(** [limiter.allow] *)
Definition allow (respClint : resp.Client) (userId : string) (limit : Z)
  : (bool * error) * resp.Client :=
  let key := rate_key userId in
  let '((count, err), c1) := resp.Incr key respClint in
  match err with
  | Some e => ((false, Some e), c1)
  | None =>
      if count =? 1 then
        let '((_, err), c2) := resp.Expire key UserRateLimitingWindow c1 in
        match err with
        | Some e => ((false, Some e), c2)
        | None => ((bool_decide (count <= limit), None), c2)
        end
      else ((bool_decide (count <= limit), None), c1)
  end.

(** [limiter.Limit] *)
Definition Limit `{url.Lib} `{PlanDecoder} (l : limiter) (userId : string)
    (respClint : resp.Client) (log : list string)
  : outcome ((bool * error) * limiter * resp.Client * list string) :=
  match getUserPlan l respClint userId log with
  | Panicked r => Panicked r
  | Returned ((_, Some e), l1, c1, log1) =>
      Returned ((false, Some e), l1, c1, log1)
  | Returned ((userPlan, None), l1, c1, log1) =>
      let '((ok, err), c2) := allow c1 userId userPlan in
      match err with
      | Some e => Returned ((false, Some e), l1, c2, log1)
      | None =>
          if negb ok then
            Returned ((false, Some (http.StatusText http.StatusTooManyRequests)),
                      l1, c2, log1)
          else Returned ((true, None), l1, c2, log1)
      end
  end.

(** Successive [allow] calls of one tenant, the i-th made when the clock
    shows the i-th time of [arrivals]. *)
Fixpoint requests (userId : string) (limit : Z) (arrivals : list Z)
    (c : resp.Client) : list (bool * error) * resp.Client :=
  match arrivals with
  | [] => ([], c)
  | t :: ts =>
      let '(r, c1) := allow (resp.at_time t c) userId limit in
      let '(rs, c2) := requests userId limit ts c1 in
      (r :: rs, c2)
  end.

(** Successive [Limit] calls of one tenant, the i-th made when the clock
    shows the i-th time of [arrivals]. *)
Fixpoint limits `{url.Lib} `{PlanDecoder} (l : limiter) (userId : string)
    (arrivals : list Z) (c : resp.Client) (log : list string)
  : outcome (list (bool * error) * limiter * resp.Client * list string) :=
  match arrivals with
  | [] => Returned ([], l, c, log)
  | t :: ts =>
      match Limit l userId (resp.at_time t c) log with
      | Panicked r => Panicked r
      | Returned (r, l1, c1, log1) =>
          match limits l1 userId ts c1 log1 with
          | Panicked r => Panicked r
          | Returned (rs, l2, c2, log2) => Returned (r :: rs, l2, c2, log2)
          end
      end
  end.

(** The store in the window of [userId] opened at [t0], after [n] requests
    and with no failure scheduled: the counter holds [n] and expires one
    window length after [t0]. *)
Definition counting (userId : string) (t0 n : Z) (c : resp.Client) : Prop :=
  resp.faults c = [] /\
  resp.store c !! rate_key userId =
    Some (resp.Entry (strconv.Itoa n) (Some (t0 + 1000 * UserRateLimitingWindow))).

(** The store of a tenant whose counter has no deadline: it holds [n] and
    nothing is scheduled to remove it. *)
Definition stuck (userId : string) (n : Z) (c : resp.Client) : Prop :=
  resp.faults c = [] /\
  resp.store c !! rate_key userId = Some (resp.Entry (strconv.Itoa n) None).

End limiter.

(** ** package cache: the cache-aside response cache *)

Module cache.

Record CachedResponse : Type := MkCachedResponse {
  StatusCode : Z;
  Headers : http.Header;
  Body : string
}.

(** [encoding/gob] on a [CachedResponse]: [Encode] gives what the buffer
    holds after the call and the error of the call. *)
Class Codec : Type := {
  Encode : CachedResponse -> string * error;
  Decode : string -> CachedResponse * error
}.

(** Modelled from the spec: the [responseRecorder] type of this package,
    which is not among the sources.  It wraps the response writer and
    "captures status code, headers, and body while delegating to the
    upstream handler": the status and the body are kept in the recorder,
    nothing is written to the wrapped writer, and the headers are those of
    the wrapped writer [rw], the one field the constructor call gives. *)
Record responseRecorder : Type := MkResponseRecorder {
  rw : http.ResponseWriter;
  status : Z;
  body : string
}.

#[global] Instance responseRecorder_Writer : http.Writer responseRecorder := {
  update_Header f r :=
    {| rw := http.update_Header f (rw r); status := status r; body := body r |};
  WriteHeader code r :=
    {| rw := rw r; status := code; body := body r |};
  Write data r :=
    {| rw := rw r; status := status r; body := body r +:+ data |}
}.

Record cache : Type := MkCache { cacheExpiry : Z }.

Definition NewCache (cacheExpiry : Z) : cache :=
  {| cacheExpiry := cacheExpiry |}.

(** The two nested loops of the hit path, over the stored header map.
    The order in which the keys of a map are visited is not fixed in Go;
    here it is the order of the map's fold. *)
Definition add_headers (hs : http.Header) (w : http.ResponseWriter)
  : http.ResponseWriter :=
  map_fold
    (fun key values w =>
       fold_left (fun w value => http.update_Header (http.Header_Add key value) w)
                 values w)
    w hs.

(** The recorder after the upstream handler has run on it. *)
Definition recorded (w : http.ResponseWriter) (req : http.Request)
    (next : http.Handler) : responseRecorder :=
  http.ServeHTTP next {| rw := w; status := 0; body := "" |} req.

(** The envelope built from a recorder. *)
Definition envelope (recorder : responseRecorder) : CachedResponse :=
  {| StatusCode := status recorder;
     Headers := http.header (rw recorder);
     Body := body recorder |}.

(** The writer after the miss path: the handler's headers, and after the
    calls already made the recorded status and body, once each. *)
Definition replayed (w : http.ResponseWriter) (recorder : responseRecorder)
  : http.ResponseWriter :=
  {| http.header := http.header (rw recorder);
     http.calls :=
       (http.calls w ++
          [http.WriteHeaderCall (status recorder); http.WriteCall (body recorder)])%list |}.

(** The miss path of [ServeHTTP], from the store as the read path left
    it: record the handler's response, store it, write it out. *)
Definition serve_miss `{Codec} (c : cache) (w : http.ResponseWriter)
    (req : http.Request) (next : http.Handler) (cacheKey : string)
    (respClient : resp.Client) (log : list string)
  : http.ResponseWriter * resp.Client * list string :=
  let recorder := recorded w req next in
  let cachedResponse := envelope recorder in
  let '(buffer, err) := Encode cachedResponse in
  let log1 :=
    match err with
    | Some e =>
        (log ++ ["Failed to serialize response for caching: " +:+ e])%list
    | None => log
    end in
  let '(_, c1) := resp.SetWithTTL cacheKey buffer (cacheExpiry c) respClient in
  let w1 := http.WriteHeader (status recorder) (rw recorder) in
  let w2 := http.Write (body recorder) w1 in
  (w2, c1, log1).

(** [cache.ServeHTTP] *)
Definition ServeHTTP `{Codec} (c : cache) (w : http.ResponseWriter)
    (req : http.Request) (next : http.Handler) (respClient : resp.Client)
    (log : list string)
  : http.ResponseWriter * resp.Client * list string :=
  let cacheKey := url.Path (http.URL req) in
  let '((cachedData, err), c1) := resp.Get cacheKey respClient in
  match err with
  | None =>
      if negb (String.eqb cachedData "") then
        match Decode cachedData with
        | (cachedResponse, None) =>
            let w1 := add_headers (Headers cachedResponse) w in
            let w2 := http.WriteHeader (StatusCode cachedResponse) w1 in
            let w3 := http.Write (Body cachedResponse) w2 in
            (w3, c1, log)
        | (_, Some _) =>
            let '(_, c2) := resp.Delete cacheKey c1 in
            serve_miss c w req next cacheKey c2 log
        end
      else serve_miss c w req next cacheKey c1 log
  | Some _ => serve_miss c w req next cacheKey c1 log
  end.

(** The request is a cache hit: the lookup succeeds with a non-empty
    value that decodes. *)
Definition is_hit `{Codec} (req : http.Request) (respClient : resp.Client)
  : bool :=
  match resp.Get (url.Path (http.URL req)) respClient with
  | ((cachedData, None), _) =>
      negb (String.eqb cachedData "") &&
      match Decode cachedData with
      | (_, None) => true
      | (_, Some _) => false
      end
  | ((_, Some _), _) => false
  end.

(** The stored value for the request is there, not empty, and does not
    decode. *)
Definition is_corrupted `{Codec} (req : http.Request) (respClient : resp.Client)
  : bool :=
  match resp.Get (url.Path (http.URL req)) respClient with
  | ((cachedData, None), _) =>
      negb (String.eqb cachedData "") &&
      match Decode cachedData with
      | (_, None) => false
      | (_, Some _) => true
      end
  | ((_, Some _), _) => false
  end.

(** The reading of the cache in which the read that finds a corrupted entry
    heals it: once [ServeHTTP] has read a value that is not empty and does
    not decode, the next read of the key does not find that value. *)
Definition self_healing `{Codec} : Prop :=
  forall (c : cache) (w : http.ResponseWriter) (req : http.Request)
         (next : http.Handler) (cl c1 : resp.Client) (log : list string)
         (data e : string),
    resp.Get (url.Path (http.URL req)) cl = ((data, None), c1) ->
    data <> "" ->
    (Decode data).2 = Some e ->
    (resp.Get (url.Path (http.URL req)) (ServeHTTP c w req next cl log).1.2).1 <>
      (data, None).

End cache.

(** ** package activity: the usage-telemetry recorder and its batcher *)

Module activity.

Definition DefaultTimeout : Z := 10.

Record activityRequestDto : Type := MkActivityRequestDto {
  RequestId : string;
  Count : Z
}.

(** [encoding/json] encoding a batch: the buffer after the call and the
    error of the call. *)
Class BatchEncoder : Type := {
  Encode : list activityRequestDto -> string * error
}.

(** A buffered channel: its capacity and the values waiting in it, oldest
    first.  The batcher is its only receiver and takes from the head; a
    value handed to the batcher while it waits is a value that enters the
    queue and leaves it at the batcher's next turn.  [New] refuses a buffer
    size of zero and [make] a negative one, so the capacity is positive;
    a channel without buffer, where a send succeeds only while the
    receiver waits, is not covered by this record. *)
Record chan : Type := MkChan {
  capacity : Z;
  queue : list activityRequestDto
}.

Record activity : Type := MkActivity {
  client : http.Client;
  logsChannel : chan;
  remoteAddress : string;
  apiKey : string;
  batchSize : Z;
  flushInterval : Z
}.

Definition with_queue (q : list activityRequestDto) (a : activity) : activity :=
  {| client := client a;
     logsChannel := {| capacity := capacity (logsChannel a); queue := q |};
     remoteAddress := remoteAddress a;
     apiKey := apiKey a;
     batchSize := batchSize a;
     flushInterval := flushInterval a |}.

(** [NewActivity]; [make] panics on a negative buffer size. *)
Definition NewActivity (remoteAddress apiKey : string)
    (bufferSize batchSize flushInterval : Z)
    (network : http.Request -> option http.Response * error)
  : outcome activity :=
  if bufferSize <? 0 then Panicked "makechan: size out of range"
  else
    Returned {| client := {| http.Timeout := DefaultTimeout; http.Do := network |};
                logsChannel := {| capacity := bufferSize; queue := [] |};
                remoteAddress := remoteAddress;
                apiKey := apiKey;
                batchSize := batchSize;
                flushInterval := flushInterval |}.

Definition dropped_warning : string :=
  "Dropped some log entries due to full buffer channel".

(** [activity.LogActivity]: a [select] with one send case and a
    [default].  The send is taken when the buffer has room, the default
    otherwise; neither waits.  The scratch buffer the function takes from
    the pool and gives back is not used in between. *)
Definition LogActivity (a : activity) (requestId : string) (count : Z)
    (log : list string) : activity * list string :=
  let logEntry := {| RequestId := requestId; Count := count |} in
  if Z.of_nat (length (queue (logsChannel a))) <? capacity (logsChannel a)
  then (with_queue (queue (logsChannel a) ++ [logEntry])%list a, log)
  else (a, (log ++ [dropped_warning])%list).

Definition nil_dereference : string :=
  "runtime error: invalid memory address or nil pointer dereference".

(** [activity.FlushLogs]: the process log after the call. *)
Definition FlushLogs `{url.Lib} `{BatchEncoder} (a : activity)
    (batch : list activityRequestDto) (log : list string)
  : outcome (list string) :=
  let '(buffer, err) := Encode batch in
  match err with
  | Some e => Returned (log ++ ["FLUSH_LOGS: " +:+ e])%list
  | None =>
      let '(httpReq, err) :=
        http.NewRequest http.MethodPost (remoteAddress a) buffer in
      match err with
      | Some e => Returned (log ++ ["FLUSH_LOGS: " +:+ e])%list
      | None =>
          let httpReq :=
            http.with_Header
              (http.Header_Set "X-Api-Key" (apiKey a)
                 (http.Header_Set "Content-Type" "application/json"
                    (http.Header_ httpReq)))
              httpReq in
          let '(httpRes, err) := http.Do (client a) httpReq in
          (* defer httpRes.Body.Close() *)
          match httpRes with
          | None => Panicked nil_dereference
          | Some httpRes =>
              match err with
              | Some e => Returned (log ++ ["FLUSH_LOGS: " +:+ e])%list
              | None =>
                  if negb (http.StatusCode httpRes =? http.StatusOK) then
                    Returned
                      (log ++ ["unexpected status code: " +:+
                               strconv.Itoa (http.StatusCode httpRes) +:+
                               ", body: " +:+ http.RespBody httpRes])%list
                  else Returned log
              end
          end
      end
  end.

(** [time.Timer]: once [armed], its channel delivers a value when the
    clock reaches [deadline]; receiving that value disarms it until the
    next [Reset].  Times are in milliseconds. *)
Record Timer : Type := MkTimer {
  armed : bool;
  deadline : Z
}.

Definition NewTimer (now d : Z) : Timer := {| armed := true; deadline := now + d |}.
Definition Reset (now d : Z) (t : Timer) : Timer :=
  {| armed := true; deadline := now + d |}.

Definition Second : Z := 1000.

(** The state of [BatchProcessor]: the recorder it serves (with its
    channel), the loop variables [batch] and [flushTimer], the clock, the
    process log, and the calls of [FlushLogs] made so far, each with the
    time of the call. *)
Record processor : Type := MkProcessor {
  self : activity;
  batch : list activityRequestDto;
  flushTimer : Timer;
  now : Z;
  log : list string;
  flushed : list (Z * list activityRequestDto)
}.

(** The statements of [BatchProcessor] before the loop. *)
Definition start (a : activity) (now : Z) (log : list string) : processor :=
  {| self := a;
     batch := [];
     flushTimer := NewTimer now (flushInterval a * Second);
     now := now;
     log := log;
     flushed := [] |}.

(** The two cases of the [select] of the loop. *)
Inductive select_case : Type :=
| Receive
| Tick.

Definition ready (k : select_case) (s : processor) : bool :=
  match k with
  | Receive =>
      match queue (logsChannel (self s)) with
      | [] => false
      | _ :: _ => true
      end
  | Tick => armed (flushTimer s) && (deadline (flushTimer s) <=? now s)
  end.

(** One turn of the loop of [BatchProcessor], taking case [k] of the
    [select]; [None] when that case is not ready. *)
Definition iteration `{url.Lib} `{BatchEncoder} (k : select_case) (s : processor)
  : option (outcome processor) :=
  match k with
  | Receive =>
      match queue (logsChannel (self s)) with
      | [] => None
      | logEntry :: rest =>
          let a := with_queue rest (self s) in
          let batch := (batch s ++ [logEntry])%list in
          if batchSize a <=? Z.of_nat (length batch) then
            match FlushLogs a batch (log s) with
            | Panicked r => Some (Panicked r)
            | Returned log1 =>
                Some (Returned
                  {| self := a; batch := []; flushTimer := flushTimer s;
                     now := now s; log := log1;
                     flushed := (flushed s ++ [(now s, batch)])%list |})
            end
          else
            Some (Returned
              {| self := a; batch := batch; flushTimer := flushTimer s;
                 now := now s; log := log s; flushed := flushed s |})
      end
  | Tick =>
      if armed (flushTimer s) && (deadline (flushTimer s) <=? now s) then
        let fired := {| armed := false; deadline := deadline (flushTimer s) |} in
        if 0 <? Z.of_nat (length (batch s)) then
          match FlushLogs (self s) (batch s) (log s) with
          | Panicked r => Some (Panicked r)
          | Returned log1 =>
              Some (Returned
                {| self := self s; batch := [];
                   flushTimer := Reset (now s) (flushInterval (self s) * Second) fired;
                   now := now s; log := log1;
                   flushed := (flushed s ++ [(now s, batch s)])%list |})
          end
        else
          Some (Returned
            {| self := self s; batch := batch s;
               flushTimer := Reset (now s) (flushInterval (self s) * Second) fired;
               now := now s; log := log s; flushed := flushed s |})
      else None
  end.

(** What happens around the loop: a producer calls [LogActivity], the
    clock moves, or the loop takes a turn. *)
Inductive event : Type :=
| Record_ (requestId : string) (count : Z)
| Clock (t : Z)
| Turn (k : select_case).

Definition handle `{url.Lib} `{BatchEncoder} (e : event) (s : processor)
  : option (outcome processor) :=
  match e with
  | Record_ requestId count =>
      let '(a, log1) := LogActivity (self s) requestId count (log s) in
      Some (Returned
        {| self := a; batch := batch s; flushTimer := flushTimer s;
           now := now s; log := log1; flushed := flushed s |})
  | Clock t =>
      Some (Returned
        {| self := self s; batch := batch s; flushTimer := flushTimer s;
           now := t; log := log s; flushed := flushed s |})
  | Turn k => iteration k s
  end.

Fixpoint run `{url.Lib} `{BatchEncoder} (es : list event) (s : processor)
  : option (outcome processor) :=
  match es with
  | [] => Some (Returned s)
  | e :: es' =>
      match handle e s with
      | Some (Returned s1) => run es' s1
      | other => other
      end
  end.

(** The reading of the batcher in which every flush rearms the timer: a
    turn of the loop that calls [FlushLogs] leaves the timer due one full
    interval after that turn. *)
Definition every_flush_rearms `{url.Lib} `{BatchEncoder} : Prop :=
  forall (s s' : processor) (k : select_case),
    iteration k s = Some (Returned s') ->
    flushed s' <> flushed s ->
    flushTimer s' = NewTimer (now s) (flushInterval (self s) * Second).

(** The state a run ends in, when it ends without a panic. *)
Definition final (r : option (outcome processor)) : option processor :=
  match r with
  | Some (Returned s) => Some s
  | _ => None
  end.

(** Records offered to the recorder one after the other, nothing being
    received in between. *)
Fixpoint offer (records : list activityRequestDto) (a : activity)
    (log : list string) : activity * list string :=
  match records with
  | [] => (a, log)
  | r :: rest =>
      let '(a1, log1) := LogActivity a (RequestId r) (Count r) log in
      offer rest a1 log1
  end.

(** The records the batcher has handed to [FlushLogs], those in its batch
    and those waiting in the channel, oldest first. *)
Definition backlog (s : processor) : list activityRequestDto :=
  (concat (map snd (flushed s)) ++ batch s ++ queue (logsChannel (self s)))%list.

(** The records that the producers of a run offer, in the order of the
    run. *)
Fixpoint offered (es : list event) : list activityRequestDto :=
  match es with
  | [] => []
  | Record_ requestId count :: es' =>
      {| RequestId := requestId; Count := count |} :: offered es'
  | _ :: es' => offered es'
  end.

(** The turn calls [FlushLogs]. *)
Definition flushes (k : select_case) (s : processor) : bool :=
  match k with
  | Receive =>
      match queue (logsChannel (self s)) with
      | [] => false
      | _ :: _ => batchSize (self s) <=? Z.of_nat (length (batch s)) + 1
      end
  | Tick => ready Tick s && (0 <? Z.of_nat (length (batch s)))
  end.

(** The event is a turn of the loop taken on the timer. *)
Definition is_tick (e : event) : bool :=
  match e with
  | Turn Tick => true
  | _ => false
  end.

End activity.

(** ** regexp and uuid, as far as the gatekeeper uses them *)

Module regexp.

(** A compiled pattern is what it finds: [FindStringSubmatch] gives the
    leftmost match followed by its submatches, or nothing. *)
Record Regexp : Type := MkRegexp {
  FindStringSubmatch : string -> list string
}.

(** [Compile] is [None] for a pattern that does not parse. *)
Class Lib : Type := {
  Compile : string -> option Regexp
}.

Definition MustCompile `{Lib} (pattern : string) : outcome Regexp :=
  match Compile pattern with
  | Some re => Returned re
  | None => Panicked ("regexp: Compile(" +:+ pattern +:+ "): error parsing regexp")
  end.

End regexp.

Module uuid.

Class Lib : Type := {
  UUID : Type;
  Parse : string -> option UUID;
  String_ : UUID -> string
}.

End uuid.

(** ** bytes.Buffer, as far as the body snapshot uses it *)

Module bytes.

(** A buffer: what it holds, and how many times it has been modified. *)
Record Buffer : Type := MkBuffer {
  content : string;
  modifications : nat
}.

(** [new(bytes.Buffer)] *)
Definition empty : Buffer := {| content := ""; modifications := 0 |}.

Definition Reset (b : Buffer) : Buffer :=
  {| content := ""; modifications := S (modifications b) |}.

(** A copy of [data] into the buffer, as [io.CopyN(buf, ...)] makes it. *)
Definition Write (data : string) (b : Buffer) : Buffer :=
  {| content := content b +:+ data; modifications := S (modifications b) |}.

(** The slice that [Bytes] returns shares the memory of the buffer and
    "is valid for use only until the next buffer modification": it is kept
    here with the bytes it had and the modification count at which it was
    taken. *)
Record Slice : Type := MkSlice {
  data : string;
  taken : nat
}.

Definition Bytes (b : Buffer) : Slice :=
  {| data := content b; taken := modifications b |}.

(** The buffer has not been modified since the slice was taken, so that
    the slice still reads [data]. *)
Definition valid (s : Slice) (b : Buffer) : bool :=
  (taken s =? modifications b)%nat.

End bytes.

(** ** package crossover_managed: the request gatekeeper *)

Module crossover.

Definition MaxRequestBodySize : Z := 2 * 1024 * 1024.

Record Config : Type := MkConfig {
  Pattern : string;
  APIKey : string;
  ActivityAddress : string;
  PlanAddress : string;
  RedisAddress : string;
  RedisAuth : string;
  CacheExpiry : Z;
  BufferSize : Z;
  BatchSize : Z;
  FlushInterval : Z
}.

Definition CreateConfig : Config :=
  {| Pattern := ""; APIKey := ""; ActivityAddress := ""; PlanAddress := "";
     RedisAddress := ""; RedisAuth := ""; CacheExpiry := 0; BufferSize := 0;
     BatchSize := 0; FlushInterval := 0 |}.

Record Crossover : Type := MkCrossover {
  next : http.Handler;
  name : string;
  compiledPattern : regexp.Regexp;
  apiKey : string;
  planAddress : string;
  redisAddress : string;
  redisAuth : string;
  cacheExpiry : Z;
  activityService : activity.activity;
  cacheService : cache.cache;
  limiterService : limiter.limiter
}.

(** [New].  The result is the handler, or [nil] with an error, or a panic
    of one of the constructors.  [network] is what the default transport
    answers.  The batch processor that [New] starts on the handler's
    recorder is the loop of [activity.iteration]. *)
Definition New `{regexp.Lib} `{url.Lib} (next : http.Handler) (config : Config)
    (name : string) (network : http.Request -> option http.Response * error)
  : outcome (option Crossover * error) :=
  if io.len (Pattern config) =? 0 then
    Returned (None, Some "pattern can't be empty")
  else if io.len (APIKey config) =? 0 then
    Returned (None, Some "APIKey can't be empty")
  else if io.len (ActivityAddress config) =? 0 then
    Returned (None, Some "activityAddress can't be empty")
  else if io.len (PlanAddress config) =? 0 then
    Returned (None, Some "planAddress can't be empty")
  else if io.len (RedisAddress config) =? 0 then
    Returned (None, Some "RedisAddress can't be empty")
  else if CacheExpiry config =? 0 then
    Returned (None, Some "cacheExpiry can't be empty")
  else if BufferSize config =? 0 then
    Returned (None, Some "bufferSize can't be empty")
  else if BatchSize config =? 0 then
    Returned (None, Some "batchSize can't be empty")
  else if FlushInterval config =? 0 then
    Returned (None, Some "flushInterval can't be empty")
  else
    match regexp.MustCompile (Pattern config) with
    | Panicked r => Panicked r
    | Returned compiledPattern =>
        match activity.NewActivity (ActivityAddress config) (APIKey config)
                (BufferSize config) (BatchSize config) (FlushInterval config)
                network with
        | Panicked r => Panicked r
        | Returned newActivity =>
            let newCacheService := cache.NewCache (CacheExpiry config) in
            match limiter.NewLimiter (APIKey config) (PlanAddress config) network with
            | Panicked r => Panicked r
            | Returned newLimiterService =>
                Returned
                  (Some {| next := next;
                           name := name;
                           compiledPattern := compiledPattern;
                           apiKey := APIKey config;
                           planAddress := PlanAddress config;
                           redisAddress := RedisAddress config;
                           redisAuth := "";
                           cacheExpiry := CacheExpiry config;
                           activityService := newActivity;
                           cacheService := newCacheService;
                           limiterService := newLimiterService |},
                   None)
            end
        end
    end.

(** The messages of the checks of [New]. *)
Definition validation_errors : list string :=
  ["pattern can't be empty"; "APIKey can't be empty";
   "activityAddress can't be empty"; "planAddress can't be empty";
   "RedisAddress can't be empty"; "cacheExpiry can't be empty";
   "bufferSize can't be empty"; "batchSize can't be empty";
   "flushInterval can't be empty"].

(** One of the fields that [New] checks is empty or zero. *)
Definition missing_checked (config : Config) : Prop :=
  Pattern config = "" \/ APIKey config = "" \/ ActivityAddress config = "" \/
  PlanAddress config = "" \/ RedisAddress config = "" \/ CacheExpiry config = 0 \/
  BufferSize config = 0 \/ BatchSize config = 0 \/ FlushInterval config = 0.

(** One of the required fields of the configuration surface is empty or
    zero: the checked ones and the credentials of the store. *)
Definition missing_required (config : Config) : Prop :=
  missing_checked config \/ RedisAuth config = "".

Definition with_RedisAuth (auth : string) (config : Config) : Config :=
  {| Pattern := Pattern config; APIKey := APIKey config;
     ActivityAddress := ActivityAddress config; PlanAddress := PlanAddress config;
     RedisAddress := RedisAddress config; RedisAuth := auth;
     CacheExpiry := CacheExpiry config; BufferSize := BufferSize config;
     BatchSize := BatchSize config; FlushInterval := FlushInterval config |}.

(** The reading of the configuration surface in which construction fails
    for every missing required field. *)
Definition fails_on_every_missing_field `{regexp.Lib} `{url.Lib} : Prop :=
  forall next config name network,
    missing_required config ->
    exists msg, New next config name network = Returned (None, Some msg).

(** [s[n:]] on a string: a panic when [n] exceeds the length. *)
Definition slice_from (n : nat) (s : string) : outcome string :=
  if (n <=? String.length s)%nat
  then Returned (String.substring n (String.length s - n) s)
  else Panicked "runtime error: slice bounds out of range".

(** [Crossover.extractUserID] *)
Definition extractUserID `{uuid.Lib} (crossover : Crossover) (path : string)
  : outcome string :=
  let match_ := regexp.FindStringSubmatch (compiledPattern crossover) path in
  match match_ with
  | [] => Returned ""
  | m0 :: _ =>
      match slice_from 10 m0 with
      | Panicked r => Panicked r
      | Returned tail =>
          match uuid.Parse tail with
          | None => Returned ""
          | Some parsedUUID => Returned (uuid.String_ parsedUUID)
          end
      end
  end.

(** [Crossover.requestKey] *)
Definition requestKey (crossover : Crossover) (path : string) : string :=
  match regexp.FindStringSubmatch (compiledPattern crossover) path with
  | [] => ""
  | m0 :: _ => m0
  end.

(** [Crossover.cloneRequest]: the clone or [nil], the error, the request
    as the call leaves it, and the process log.  The scratch buffer is
    represented by its content at the time of the call: the two readers
    keep referring to the bytes of the pooled buffer after it has gone back
    to the pool, and what a later holder of the buffer does to them is
    outside this definition. *)
Definition cloneRequest (req : http.Request) (log : list string)
  : (option http.Request * error) * http.Request * list string :=
  let '((buf, err), body1) := io.CopyN (http.Body req) MaxRequestBodySize in
  let req1 := http.with_Body (io.Close body1) req in
  match err with
  | Some (io.Failure e) =>
      ((None, Some "error reading request body"), req1,
       (log ++ ["Error reading request body: " +:+ e])%list)
  | _ =>
      let req2 := http.with_Body (io.of_bytes buf) req1 in
      let clonedRequest := http.with_Body (io.of_bytes buf) req2 in
      ((Some clonedRequest, None), req2, log)
  end.

(** [Crossover.cloneRequest] once more, with the scratch buffer in sight.
    [buf] is the buffer that [cloneBufferPool.Get] gave: a new one, or one
    that an earlier call has put back.  Beside the results of the call it
    gives the buffer as the deferred [Put] hands it to the pool, and the
    slices that the two readers made by the call go on reading, the onward
    body's first. *)
Definition cloneRequest_pooled (buf : bytes.Buffer) (req : http.Request)
    (log : list string)
  : ((option http.Request * error) * http.Request * list string) *
    bytes.Buffer * list bytes.Slice :=
  let buf := bytes.Reset buf in
  let '((copied, err), body1) := io.CopyN (http.Body req) MaxRequestBodySize in
  let buf := bytes.Write copied buf in
  let req1 := http.with_Body (io.Close body1) req in
  match err with
  | Some (io.Failure e) =>
      (((None, Some "error reading request body"), req1,
        (log ++ ["Error reading request body: " +:+ e])%list), buf, [])
  | _ =>
      let onward := bytes.Bytes buf in
      let req2 := http.with_Body (io.of_bytes (bytes.data onward)) req1 in
      let cloned := bytes.Bytes buf in
      let clonedRequest := http.with_Body (io.of_bytes (bytes.data cloned)) req2 in
      (((Some clonedRequest, None), req2, log), buf, [onward; cloned])
  end.

(** [encoding/json] decoding a body into a slice of values: the number of
    elements of the slice and the error of the call. *)
Class ArrayDecoder : Type := {
  DecodeArray : string -> Z * error
}.

(** [Crossover.requestCount]: the count, and the request as the call
    leaves it (the body read to its end and closed when it was decoded). *)
Definition requestCount `{ArrayDecoder} (req : http.Request) : Z * http.Request :=
  let contentType := http.Header_Get "Content-Type" (http.Header_ req) in
  if negb (String.eqb contentType "application/json") then (1, req)
  else
    let '(n, err) := DecodeArray (io.pending (http.Body req)) in
    let req1 :=
      http.with_Body
        {| io.pending := ""; io.failure := io.failure (http.Body req);
           io.closed := true |} req in
    match err with
    | Some _ => (1, req1)
    | None => (n, req1)
    end.

(** [rw.WriteHeader(code)] followed by [rw.Write(body)]. *)
Definition respond (code : Z) (body : string) (rw : http.ResponseWriter)
  : http.ResponseWriter :=
  http.Write body (http.WriteHeader code rw).

Definition with_limiterService (l : limiter.limiter) (crossover : Crossover)
  : Crossover :=
  {| next := next crossover; name := name crossover;
     compiledPattern := compiledPattern crossover; apiKey := apiKey crossover;
     planAddress := planAddress crossover; redisAddress := redisAddress crossover;
     redisAuth := redisAuth crossover; cacheExpiry := cacheExpiry crossover;
     activityService := activityService crossover;
     cacheService := cacheService crossover; limiterService := l |}.

Definition with_activityService (a : activity.activity) (crossover : Crossover)
  : Crossover :=
  {| next := next crossover; name := name crossover;
     compiledPattern := compiledPattern crossover; apiKey := apiKey crossover;
     planAddress := planAddress crossover; redisAddress := redisAddress crossover;
     redisAuth := redisAuth crossover; cacheExpiry := cacheExpiry crossover;
     activityService := a;
     cacheService := cacheService crossover;
     limiterService := limiterService crossover |}.

(** [Crossover.ServeHTTP].  [dial] is [resp.NewRedisClient]: the store as
    the connection to the address with the credentials finds it, or the
    error of the connection.  The result is the writer, the gatekeeper
    (whose limiter and recorder the call can change), the store and the
    process log; a panic of [extractUserID] or of the limiter is the panic
    of the call.  The deferred close of the connection changes none of
    them. *)
Definition ServeHTTP `{uuid.Lib} `{url.Lib} `{limiter.PlanDecoder}
    `{ArrayDecoder} `{cache.Codec}
    (dial : string -> string -> resp.Client * error)
    (crossover : Crossover) (rw : http.ResponseWriter) (req : http.Request)
    (log : list string)
  : outcome (http.ResponseWriter * Crossover * resp.Client * list string) :=
  let '(respClient, err) := dial (redisAddress crossover) (redisAuth crossover) in
  match err with
  | Some e =>
      Returned (respond http.StatusInternalServerError "something went wrong" rw,
                crossover, respClient,
                (log ++ ["Failed to create Redis Connection " +:+ e])%list)
  | None =>
      (* extract user id from request *)
      match extractUserID crossover (url.Path (http.URL req)) with
      | Panicked r => Panicked r
      | Returned userId =>
          if String.eqb userId "" then
            Returned (respond http.StatusBadRequest "invalid requestId" rw,
                      crossover, respClient, log)
          else
            (* limit user request according to the plan *)
            match extractUserID crossover (url.Path (http.URL req)) with
            | Panicked r => Panicked r
            | Returned userId' =>
                match limiter.Limit (limiterService crossover) userId' respClient log with
                | Panicked r => Panicked r
                | Returned ((allow, err), l1, c1, log1) =>
                    let crossover1 := with_limiterService l1 crossover in
                    match err with
                    | Some e =>
                        if String.eqb e (http.StatusText http.StatusTooManyRequests)
                        then Returned (respond http.StatusTooManyRequests e rw,
                                       crossover1, c1, log1)
                        else Returned (respond http.StatusInternalServerError e rw,
                                       crossover1, c1, log1)
                    | None =>
                        if negb allow then
                          Returned (respond http.StatusTooManyRequests
                                      "too many requests" rw,
                                    crossover1, c1, log1)
                        else
                          (* clone request *)
                          let '((clonedRequest, err), req1, log2) :=
                            cloneRequest req log1 in
                          match err, clonedRequest with
                          | Some e, _ =>
                              Returned (respond http.StatusInternalServerError e rw,
                                        crossover1, c1, log2)
                          | None, None =>
                              Panicked "runtime error: invalid memory address or nil pointer dereference"
                          | None, Some clonedRequest =>
                              (* store user activity *)
                              let '(requestCount, _) := requestCount clonedRequest in
                              let requestKey :=
                                requestKey crossover (url.Path (http.URL req)) in
                              let '(a1, log3) :=
                                activity.LogActivity (activityService crossover1)
                                  requestKey requestCount log2 in
                              (* cache response *)
                              let '(rw1, c2, log4) :=
                                cache.ServeHTTP (cacheService crossover1) rw req1
                                  (next crossover1) c1 log3 in
                              Returned (rw1, with_activityService a1 crossover1,
                                        c2, log4)
                          end
                    end
                end
            end
      end
  end.

End crossover.

(** ** Sample collaborators

  Concrete libraries and services on which the definitions above can be
  run.  Each covers the part of the real library's behaviour that the
  runs below need and says so. *)

Module sample.

Definition quote : string := String (ascii_of_N 34) EmptyString.

(** *** net/url: absolute URLs [scheme://host/path?query] and plain paths;
    a control byte is a parse error. *)

Definition has_control_byte (s : string) : bool :=
  negb (http.all_bytes
          (fun a => let n := N_of_ascii a in (32 <=? n)%N && negb (n =? 127)%N) s).

Definition cut (sep s : string) : string * option string :=
  match String.index 0 sep s with
  | Some i =>
      (String.substring 0 i s,
       Some (String.substring (i + String.length sep)
               (String.length s - (i + String.length sep)) s))
  | None => (s, None)
  end.

Definition parse_url (s : string) : url.URL * error :=
  if has_control_byte s then
    (url.MkURL "" "" "" "", Some "net/url: invalid control character in URL")
  else
    let '(rest, query) := cut "?" s in
    let query := default "" query in
    match cut "://" rest with
    | (scheme, Some authority) =>
        match cut "/" authority with
        | (host, Some path) => (url.MkURL scheme host ("/" +:+ path) query, None)
        | (host, None) => (url.MkURL scheme host "" query, None)
        end
    | (path, None) => (url.MkURL "" "" path query, None)
    end.

Definition hex_digit (n : N) : ascii :=
  if (n <? 10)%N then ascii_of_N (48 + n) else ascii_of_N (55 + n).

Fixpoint query_escape (s : string) : string :=
  match s with
  | EmptyString => EmptyString
  | String a rest =>
      let n := N_of_ascii a in
      if http.is_lower n || http.is_upper n || http.is_digit n ||
         existsb (N.eqb n) [45; 46; 95; 126]%N
      then String a (query_escape rest)
      else if (n =? 32)%N then String "+"%char (query_escape rest)
      else String "%"%char
             (String (hex_digit (n / 16)) (String (hex_digit (n mod 16))
                (query_escape rest)))
  end.

#[global] Instance url_lib : url.Lib := {
  Parse := parse_url;
  QueryEscape := query_escape
}.

(** *** regexp: patterns without metacharacters, which match themselves. *)

Definition is_literal (pattern : string) : bool :=
  http.all_bytes
    (fun a => let n := N_of_ascii a in
              http.is_lower n || http.is_upper n || http.is_digit n ||
              existsb (N.eqb n) [45; 47; 95]%N)
    pattern.

Definition find_literal (pattern path : string) : list string :=
  match String.index 0 pattern path with
  | Some _ => [pattern]
  | None => []
  end.

#[global] Instance regexp_lib : regexp.Lib := {
  Compile pattern :=
    if is_literal pattern
    then Some {| regexp.FindStringSubmatch := find_literal pattern |}
    else None
}.

(** *** uuid: the 36-byte form [xxxxxxxx-xxxx-xxxx-xxxx-xxxxxxxxxxxx]. *)

Definition is_hex (a : ascii) : bool :=
  let n := N_of_ascii a in
  http.is_digit n || ((97 <=? n) && (n <=? 102))%N || ((65 <=? n) && (n <=? 70))%N.

Fixpoint uuid_shape (i : nat) (s : string) : bool :=
  match s with
  | EmptyString => (i =? 36)%nat
  | String a rest =>
      (if existsb (Nat.eqb i) [8; 13; 18; 23]%nat then Ascii.eqb a "-"%char
       else is_hex a) && uuid_shape (S i) rest
  end.

Fixpoint lower (s : string) : string :=
  match s with
  | EmptyString => EmptyString
  | String a rest =>
      let n := N_of_ascii a in
      String (if http.is_upper n then ascii_of_N (n + 32) else a) (lower rest)
  end.

#[global] Instance uuid_lib : uuid.Lib := {
  UUID := string;
  Parse s := if uuid_shape 0 s then Some (lower s) else None;
  String_ u := u
}.

(** *** encoding/json *)

(** The plan body [{"data":{"request_limit":N}}] and nothing else. *)
Definition plan_prefix : string :=
  "{" +:+ quote +:+ "data" +:+ quote +:+ ":{" +:+ quote +:+ "request_limit" +:+
  quote +:+ ":".

Definition decode_plan (body : string) : limiter.PlanProxyResponse * error :=
  let zero := limiter.MkPlanProxyResponse (limiter.MkPlanData 0) in
  let n := String.length plan_prefix in
  let m := String.length body in
  if String.prefix plan_prefix body &&
     String.eqb (String.substring (m - 2) 2 body) "}}" then
    match strconv.Atoi (String.substring n (m - 2 - n) body) with
    | (limit, None) => (limiter.MkPlanProxyResponse (limiter.MkPlanData limit), None)
    | (_, Some e) => (zero, Some ("json: " +:+ e))
    end
  else (zero, Some "json: cannot unmarshal")
  .

#[global] Instance plan_decoder : limiter.PlanDecoder := {
  Decode := decode_plan
}.

(** A batch of records whose identifiers need no escaping. *)
Definition encode_record (r : activity.activityRequestDto) : string :=
  "{" +:+ quote +:+ "request_id" +:+ quote +:+ ":" +:+
  quote +:+ activity.RequestId r +:+ quote +:+ "," +:+
  quote +:+ "count" +:+ quote +:+ ":" +:+ strconv.Itoa (activity.Count r) +:+ "}".

#[global] Instance batch_encoder : activity.BatchEncoder := {
  Encode batch :=
    ("[" +:+ String.concat "," (map encode_record batch) +:+ "]", None)
}.

(** *** encoding/gob: responses without headers, as [status:body]; a
    response with headers is an encoding error that leaves the buffer
    empty. *)

Definition encode_response (r : cache.CachedResponse) : string * error :=
  if decide (cache.Headers r = ∅)
  then (strconv.Itoa (cache.StatusCode r) +:+ ":" +:+ cache.Body r, None)
  else ("", Some "gob: unsupported headers").

Definition decode_response (s : string) : cache.CachedResponse * error :=
  match cut ":" s with
  | (status, Some body) =>
      match strconv.Atoi status with
      | (code, None) => (cache.MkCachedResponse code ∅ body, None)
      | (_, Some e) => (cache.MkCachedResponse 0 ∅ "", Some ("gob: " +:+ e))
      end
  | (_, None) => (cache.MkCachedResponse 0 ∅ "", Some "gob: unexpected EOF")
  end.

#[global] Instance codec : cache.Codec := {
  Encode := encode_response;
  Decode := decode_response
}.

(** *** Services *)

(** A network on which nothing answers. *)
Definition unreachable (r : http.Request) : option http.Response * error :=
  (None, Some "dial tcp: connection refused").

(** A service that answers every request with status 200 and [body]. *)
Definition answering (body : string) (r : http.Request)
  : option http.Response * error :=
  (Some {| http.StatusCode := http.StatusOK; http.RespBody := body |}, None).

(** An empty store that answers every command. *)
Definition empty_store : resp.Client := resp.MkClient ∅ 0 [] [].

(** A request for a resource, an upstream handler for it and a writer on
    which nothing has been written. *)
Definition resource_request : http.Request :=
  {| http.Method := "GET";
     http.URL := url.MkURL "http" "api.internal" "/resource/7" "";
     http.Header_ := ∅;
     http.Body := io.of_bytes "" |}.

Definition upstream : http.Handler :=
  fun _ => [http.SendStatus 200; http.SendBody "seven"].

Definition blank : http.ResponseWriter :=
  {| http.header := ∅; http.calls := [] |}.

(** A store whose entry for the resource is not an envelope, and a store
    that has nothing and refuses its second command. *)
Definition corrupted_store : resp.Client :=
  resp.MkClient {[ "/resource/7" := resp.Entry "garbage" None ]} 0 [] [].

Definition refusing_store : resp.Client := resp.MkClient ∅ 0 [false; true] [].

(** The store with the corrupted entry, answering the next command and
    refusing the two after it. *)
Definition corrupted_store_going_down : resp.Client :=
  resp.MkClient {[ "/resource/7" := resp.Entry "garbage" None ]} 0
    [false; true; true] [].

(** A recorder with room for 8 records that flushes every 2 records or
    every 10 seconds to a collector that accepts everything. *)
Definition recorder : activity.activity :=
  {| activity.client := {| http.Timeout := 10; http.Do := answering "" |};
     activity.logsChannel := {| activity.capacity := 8; activity.queue := [] |};
     activity.remoteAddress := "http://collector.internal/activity";
     activity.apiKey := "secret";
     activity.batchSize := 2;
     activity.flushInterval := 10 |}.

(** Two records in the ninth second, so that the batch is flushed by
    size ... *)
Definition ninth_second : list activity.event :=
  [activity.Clock 9000; activity.Record_ "a" 1; activity.Record_ "b" 1;
   activity.Turn activity.Receive; activity.Turn activity.Receive].

(** ... then a third record, and the timer set at the start. *)
Definition tenth_second : list activity.event :=
  [activity.Clock 9500; activity.Record_ "c" 1; activity.Turn activity.Receive;
   activity.Clock 10000; activity.Turn activity.Tick].

(** A configuration complete but for the credentials of the store. *)
Definition open_store_config : crossover.Config :=
  {| crossover.Pattern := "/v1/accounts/";
     crossover.APIKey := "secret";
     crossover.ActivityAddress := "http://collector.internal/activity";
     crossover.PlanAddress := "http://plans.internal/v1/plan";
     crossover.RedisAddress := "redis.internal:6379";
     crossover.RedisAuth := "";
     crossover.CacheExpiry := 60;
     crossover.BufferSize := 8;
     crossover.BatchSize := 2;
     crossover.FlushInterval := 10 |}.

(** A plan proxy on a network where nothing answers. *)
Definition cut_off_proxy : limiter.PlanProxy :=
  {| limiter.httpClient := {| http.Timeout := 5; http.Do := unreachable |};
     limiter.requestUrl := url.MkURL "http" "plans.internal" "/v1/plan" "";
     limiter.apiKey := "secret" |}.

(** A plan proxy on a plan service that grants everyone [limit] requests. *)
Definition granting_proxy (limit : Z) : limiter.PlanProxy :=
  {| limiter.httpClient :=
       {| http.Timeout := 5;
          http.Do := answering (plan_prefix +:+ strconv.Itoa limit +:+ "}}") |};
     limiter.requestUrl := url.MkURL "http" "plans.internal" "/v1/plan" "";
     limiter.apiKey := "secret" |}.

(** A gatekeeper whose pattern is the literal [/users]. *)
Definition users_gatekeeper : crossover.Crossover :=
  {| crossover.next := upstream;
     crossover.name := "crossover";
     crossover.compiledPattern :=
       {| regexp.FindStringSubmatch := find_literal "/users" |};
     crossover.apiKey := "secret";
     crossover.planAddress := "http://plans.internal/v1/plan";
     crossover.redisAddress := "redis.internal:6379";
     crossover.redisAuth := "";
     crossover.cacheExpiry := 60;
     crossover.activityService := recorder;
     crossover.cacheService := cache.NewCache 60;
     crossover.limiterService := {| limiter.planProxy := cut_off_proxy |} |}.

(** *** encoding/json on arrays: a top-level array of values without
    strings; the elements are counted at the commas outside nested brackets
    and braces. *)

Fixpoint count_elements (depth : nat) (seen : bool) (n : Z) (s : string)
  : Z * error :=
  match s with
  | EmptyString => (0, Some "unexpected end of JSON input")
  | String a rest =>
      let k := N_of_ascii a in
      if existsb (N.eqb k) [91; 123]%N then count_elements (S depth) true n rest
      else if existsb (N.eqb k) [93; 125]%N then
        match depth with
        | O => if (k =? 93)%N then ((if seen then n + 1 else 0), None)
               else (0, Some "invalid character")
        | S d => count_elements d true n rest
        end
      else if (k =? 44)%N then
        match depth with
        | O => count_elements depth seen (n + 1) rest
        | S _ => count_elements depth seen n rest
        end
      else if existsb (N.eqb k) [32; 10; 13; 9]%N then count_elements depth seen n rest
      else count_elements depth true n rest
  end.

Definition decode_array (body : string) : Z * error :=
  match body with
  | String "["%char rest => count_elements 0 false 0 rest
  | _ => (0, Some "json: cannot unmarshal into Go value of type []interface {}")
  end.

#[global] Instance array_decoder : crossover.ArrayDecoder := {
  DecodeArray := decode_array
}.

(** The recorder with another network in front of its collector. *)
Definition recorder_on (network : http.Request -> option http.Response * error)
  : activity.activity :=
  {| activity.client := {| http.Timeout := 10; http.Do := network |};
     activity.logsChannel := {| activity.capacity := 8; activity.queue := [] |};
     activity.remoteAddress := "http://collector.internal/activity";
     activity.apiKey := "secret";
     activity.batchSize := 2;
     activity.flushInterval := 10 |}.

(** A collector that refuses everything with status 503. *)
Definition refusing (r : http.Request) : option http.Response * error :=
  (Some {| http.StatusCode := 503; http.RespBody := "busy" |}, None).

(** A batcher with one record in its batch and one waiting in the channel,
    at 9 seconds. *)
Definition about_to_flush (network : http.Request -> option http.Response * error)
  : activity.processor :=
  {| activity.self :=
       activity.with_queue [activity.MkActivityRequestDto "b" 1] (recorder_on network);
     activity.batch := [activity.MkActivityRequestDto "a" 1];
     activity.flushTimer := activity.NewTimer 0 10000;
     activity.now := 9000;
     activity.log := [];
     activity.flushed := [] |}.

(** A plan proxy on a plan service that answers 503 to everyone. *)
Definition refused_proxy : limiter.PlanProxy :=
  {| limiter.httpClient := {| http.Timeout := 5; http.Do := refusing |};
     limiter.requestUrl := url.MkURL "http" "plans.internal" "/v1/plan" "";
     limiter.apiKey := "secret" |}.

(** A gatekeeper for paths [/accounts/<identifier>...]: its pattern finds
    [/accounts/] and the 36 bytes after it.  Its plan service is out of
    reach, its collector accepts everything. *)
Definition accounts_gatekeeper : crossover.Crossover :=
  {| crossover.next := upstream;
     crossover.name := "crossover";
     crossover.compiledPattern :=
       {| regexp.FindStringSubmatch :=
            fun path =>
              match cut "/accounts/" path with
              | (_, Some rest) => ["/accounts/" +:+ String.substring 0 36 rest]
              | (_, None) => []
              end |};
     crossover.apiKey := "secret";
     crossover.planAddress := "http://plans.internal/v1/plan";
     crossover.redisAddress := "redis.internal:6379";
     crossover.redisAuth := "";
     crossover.cacheExpiry := 60;
     crossover.activityService := recorder;
     crossover.cacheService := cache.NewCache 60;
     crossover.limiterService := {| limiter.planProxy := cut_off_proxy |} |}.

Definition tenant : string := "a1b2c3d4-0000-4000-8000-000000000000".

(** A request of the tenant with a JSON array of three as its body. *)
Definition items_request : http.Request :=
  {| http.Method := "POST";
     http.URL := url.MkURL "http" "api.internal" ("/accounts/" +:+ tenant +:+ "/items") "";
     http.Header_ := {[ "Content-Type" := ["application/json"] ]};
     http.Body := io.of_bytes "[1,2,3]" |}.

(** [n] bytes of padding. *)
Fixpoint padding (n : nat) : string :=
  match n with
  | O => ""
  | S n => String "a" (padding n)
  end.

(** The store [n] requests into the tenant's window opened at time 0, the
    tenant's plan of 2 requests being in the store. *)
Definition window_store (n : Z) (faults : list bool) : resp.Client :=
  resp.MkClient
    {[ tenant := resp.Entry "2" None;
       tenant +:+ "-rate" := resp.Entry (strconv.Itoa n) (Some 1000) ]}
    500 faults [].

End sample.

(** * Properties *)

(** ** Decimal text of integers *)

Arguments strconv.Itoa : simpl never.
Arguments resp.parse_int : simpl never.
Arguments Z.mul : simpl never.
Arguments Z.add : simpl never.

Section decimal.

Lemma to_int_not_nil (z : Z) :
  Z.to_int z <> Decimal.Pos Decimal.Nil /\ Z.to_int z <> Decimal.Neg Decimal.Nil.
Proof.
  destruct z as [|p|p]; simpl; split; try discriminate;
    intros [= E]; exact (Unsigned.to_uint_nonnil p E).
Qed.

Lemma int_of_string_Itoa (z : Z) :
  NilZero.int_of_string (strconv.Itoa z) = Some (Z.to_int z).
Proof.
  unfold strconv.Itoa.
  destruct (to_int_not_nil z) as [Hp Hn].
  now apply NilZero.isi.
Qed.

Lemma parse_int_Itoa (z : Z) :
  in_int_range z = true -> resp.parse_int (strconv.Itoa z) = Some z.
Proof.
  intros Hr. unfold resp.parse_int.
  rewrite int_of_string_Itoa, DecimalZ.of_to, String.eqb_refl, Hr.
  reflexivity.
Qed.

Lemma parse_int_range (s : string) (z : Z) :
  resp.parse_int s = Some z -> in_int_range z = true.
Proof.
  unfold resp.parse_int.
  destruct (NilZero.int_of_string s) as [d|]; [|discriminate].
  destruct (String.eqb _ s); simpl; [|discriminate].
  destruct (in_int_range (Z.of_int d)) eqn:E; [|discriminate].
  now intros [= <-].
Qed.

Lemma in_int_range_succ (n : Z) :
  in_int_range n = true -> n < max_int -> in_int_range (n + 1) = true.
Proof.
  unfold in_int_range. rewrite !andb_true_iff, !Z.leb_le. lia.
Qed.

End decimal.

(** ** The fixed-window counter *)

Section window.

Import resp limiter.

Variable userId : string.
Variable limit : Z.

Local Abbreviation key := (rate_key userId).

Lemma allow_opens_window (c : Client) :
  faults c = [] -> find key c = None ->
  exists c',
    allow c userId limit = ((bool_decide (1 <= limit), None), c') /\
    counting userId (now c) 1 c' /\ now c' = now c /\
    issued c' = (issued c ++ [CIncr key; CExpire key 1])%list.
Proof.
  destruct c as [st t fl iss]. simpl. intros -> Hfind.
  unfold allow, Incr, issue. simpl.
  unfold find in *. simpl in *. rewrite Hfind.
  unfold Expire, issue, find. simpl.
  rewrite lookup_insert_eq. simpl.
  eexists. split; [reflexivity|]. split; [|split].
  - split; [reflexivity|]. simpl.
    now rewrite insert_insert_eq, lookup_insert_eq.
  - reflexivity.
  - simpl. now rewrite <- app_assoc.
Qed.

Lemma allow_in_window (t0 n : Z) (c : Client) :
  counting userId t0 n c -> now c < t0 + 1000 -> 1 <= n < max_int ->
  exists c',
    allow c userId limit = ((bool_decide (n + 1 <= limit), None), c') /\
    counting userId t0 (n + 1) c' /\ now c' = now c /\
    issued c' = (issued c ++ [CIncr key])%list.
Proof.
  destruct c as [st t fl iss]. unfold counting. simpl.
  intros [-> Hst] Ht Hn.
  unfold allow, Incr, issue, find. simpl. rewrite Hst.
  unfold live. simpl. unfold UserRateLimitingWindow.
  replace (t <? t0 + 1000 * 1) with true by (symmetry; apply Z.ltb_lt; lia).
  cbn [value deadline]. rewrite parse_int_Itoa
    by (unfold in_int_range, min_int, max_int in *; apply andb_true_iff;
        rewrite !Z.leb_le; lia).
  replace (n <? max_int) with true by (symmetry; apply Z.ltb_lt; lia).
  replace (n + 1 =? 1) with false by (symmetry; apply Z.eqb_neq; lia).
  eexists. split; [reflexivity|]. split; [|split]; [|reflexivity..].
  split; [reflexivity|]. simpl. now rewrite lookup_insert_eq.
Qed.

Lemma requests_in_window (t0 : Z) (ts : list Z) :
  forall (n : Z) (c : Client),
    counting userId t0 n c -> 1 <= n ->
    n + Z.of_nat (length ts) <= max_int ->
    Forall (fun t => t0 <= t < t0 + 1000) ts ->
    exists c',
      requests userId limit ts c =
        ((fun i => (bool_decide (n + Z.of_nat i <= limit), None)) <$>
           seq 1 (length ts), c') /\
      counting userId t0 (n + Z.of_nat (length ts)) c' /\
      issued c' = (issued c ++ repeat (CIncr key) (length ts))%list.
Proof.
  induction ts as [|t ts IH]; intros n c Hc Hn Hmax Hts.
  - exists c. cbn [requests length seq fmap list_fmap repeat].
    rewrite Z.add_0_r, app_nil_r. auto.
  - apply Forall_cons in Hts as [Ht Hts].
    cbn [length] in Hmax.
    destruct (allow_in_window t0 n (at_time t c)) as (c1 & Hal & Hc1 & _ & Hiss);
      [exact Hc | simpl; lia | lia |].
    destruct (IH (n + 1) c1) as (c2 & Hrun & Hc2 & Hiss2);
      [exact Hc1 | lia | lia | exact Hts |].
    exists c2. cbn [requests]. rewrite Hal, Hrun. split; [|split].
    + cbn [length seq fmap list_fmap]. f_equal. f_equal.
      rewrite <- (fmap_S_seq 1), <- list_fmap_compose.
      apply list_fmap_ext. intros _ i _. simpl.
      replace (n + 1 + Z.of_nat i) with (n + Z.of_nat (S i)) by lia.
      reflexivity.
    + cbn [length].
      replace (n + Z.of_nat (S (length ts)))
        with (n + 1 + Z.of_nat (length ts)) by lia.
      exact Hc2.
    + rewrite Hiss2, Hiss. simpl. now rewrite <- app_assoc.
Qed.

(** A whole window: the request that opens it at [t0] and those that
    follow before it closes. *)
Lemma requests_window (c : Client) (t0 : Z) (ts : list Z) :
  faults c = [] ->
  find key (at_time t0 c) = None ->
  Forall (fun t => t0 <= t < t0 + 1000) ts ->
  Z.of_nat (length ts) < max_int ->
  exists c',
    requests userId limit (t0 :: ts) c =
      ((fun i => (bool_decide (Z.of_nat i <= limit), None)) <$>
         seq 1 (S (length ts)), c') /\
    counting userId t0 (Z.of_nat (S (length ts))) c' /\
    issued c' =
      (issued c ++ CIncr key :: CExpire key 1 :: repeat (CIncr key) (length ts))%list.
Proof.
  intros Hf Hfind Hts Hlen.
  destruct (allow_opens_window (at_time t0 c)) as (c1 & Hal & Hc1 & _ & Hiss);
    [exact Hf | exact Hfind |].
  destruct (requests_in_window t0 ts 1 c1) as (c2 & Hrun & Hc2 & Hiss2);
    [exact Hc1 | lia | lia | exact Hts |].
  exists c2. cbn [requests]. rewrite Hal, Hrun. split; [|split].
  - cbn [seq fmap list_fmap]. f_equal. f_equal.
    rewrite <- (fmap_S_seq 1), <- list_fmap_compose.
    apply list_fmap_ext. intros _ i _. simpl.
    replace (1 + Z.of_nat i) with (Z.of_nat (S i)) by lia.
    reflexivity.
  - replace (Z.of_nat (S (length ts))) with (1 + Z.of_nat (length ts)) by lia.
    exact Hc2.
  - rewrite Hiss2, Hiss. simpl. now rewrite <- app_assoc.
Qed.

End window.

Section counter_steps.

Import resp.

(** A successful [Incr] adds one to the integer at the key and leaves it
    there, live, as canonical text. *)
Lemma Incr_counts (key : string) (c0 c1 : Client) (count : Z) :
  Incr key c0 = ((count, None), c1) ->
  count = counter key c0 + 1 /\ in_int_range count = true /\
  now c1 = now c0 /\
  exists d, find key c1 = Some (Entry (strconv.Itoa count) d).
Proof.
  unfold Incr, issue, counter, find.
  destruct c0 as [st t [|[] fl] iss]; cbn [faults store now issued]; try discriminate.
  all: destruct (st !! key) as [e|] eqn:Hst.
  all: try destruct (live t e) eqn:Hlive.
  all: try destruct (parse_int (value e)) as [n|] eqn:Hp; try discriminate.
  all: try destruct (Z.ltb_spec n max_int); try discriminate.
  all: intros [= <- <-]; cbn [store now with_store default].
  all: rewrite lookup_insert_eq.
  all: try (apply parse_int_range in Hp).
  all: repeat split; try reflexivity; try (apply in_int_range_succ; assumption).
  all: try (unfold live in *; cbn [deadline]; rewrite Hlive; eauto).
  all: cbn; eauto.
Qed.

(** A successful [Expire] of a live key keeps its value and makes it
    live for the given time from now. *)
Lemma Expire_keeps_value (key : string) (seconds : Z) (c1 c2 : Client)
    (e : entry) (b : bool) :
  find key c1 = Some e -> 0 < seconds ->
  Expire key seconds c1 = ((b, None), c2) ->
  now c2 = now c1 /\
  find key c2 = Some (Entry (value e) (Some (now c1 + 1000 * seconds))).
Proof.
  unfold Expire, issue, find.
  destruct c1 as [st t [|[] fl] iss]; cbn [faults store now issued]; try discriminate.
  all: destruct (st !! key) as [e0|] eqn:Hst; try discriminate.
  all: destruct (live t e0) eqn:Hlive; try discriminate.
  all: intros [= ->] Hs [= _ <-]; cbn [store now with_store].
  all: rewrite lookup_insert_eq; unfold live; cbn [deadline].
  all: replace (t <? t + 1000 * seconds) with true by (symmetry; apply Z.ltb_lt; lia).
  all: split; reflexivity.
Qed.

End counter_steps.

Section limiter_properties.

Import resp limiter.

(** A call of [allow] that returns no error has added one to the counter
    of the tenant and allows exactly when the new count is within the
    limit. *)
Lemma allow_counts (c0 c1 : Client) (userId : string) (limit : Z) (b : bool) :
  allow c0 userId limit = ((b, None), c1) ->
  counter (rate_key userId) c1 = counter (rate_key userId) c0 + 1 /\
  b = bool_decide (counter (rate_key userId) c1 <= limit).
Proof.
  unfold allow.
  destruct (Incr (rate_key userId) c0) as [[count [e|]] c] eqn:HI; [discriminate|].
  apply Incr_counts in HI as (Hcount & Hrange & Hnow & d & Hfind).
  assert (forall c', find (rate_key userId) c' = Some (Entry (strconv.Itoa count) d) \/
                     (exists d', find (rate_key userId) c' =
                                   Some (Entry (strconv.Itoa count) d')) ->
                     counter (rate_key userId) c' = count) as Hcounter.
  { intros c' [Hc'|[d' Hc']]; unfold counter; rewrite Hc'; cbn [value];
      now rewrite parse_int_Itoa. }
  destruct (count =? 1).
  - destruct (Expire _ _ c) as [[b' [e|]] c2] eqn:HE; [discriminate|].
    intros [= <- <-].
    eapply Expire_keeps_value in HE as [_ Hfind2]; [|exact Hfind|reflexivity].
    rewrite (Hcounter c2) by (right; eexists; exact Hfind2). auto.
  - intros [= <- <-]. rewrite (Hcounter c) by (left; exact Hfind). auto.
Qed.

(** Without a backend error, [allow] leaves the store as [Incr] left it
    when the count is not 1, and as [Expire] left it when it is. *)
Lemma allow_final_store (c0 c1 : Client) (userId : string) (limit count : Z) :
  Incr (rate_key userId) c0 = ((count, None), c1) ->
  (allow c0 userId limit).2 =
    if count =? 1
    then (Expire (rate_key userId) UserRateLimitingWindow c1).2
    else c1.
Proof.
  intros HI. unfold allow. rewrite HI.
  destruct (count =? 1); [|reflexivity].
  destruct (Expire _ _ c1) as [[b [e|]] c2]; reflexivity.
Qed.

(** C1. For a tenant with resolved quota [Q], on a store that answers
    every command, the N-th request of a one-second window (opened at
    [t0] by a request that finds no live counter, the others arriving
    before [t0 + 1000] ms) is allowed exactly when [N <= Q], and the
    counter it leaves in the store is [N].  In particular request
    [N = Q + 1] is denied.  In any state of the store, a call of [allow]
    that returns no error has incremented the counter by one and allows
    exactly when the count after the increment is at most the limit. *)
Theorem allow_nth_request (userId : string) (Q : Z) (c : Client)
    (t0 : Z) (ts : list Z) (N : nat) :
  faults c = [] ->
  find (rate_key userId) (at_time t0 c) = None ->
  Forall (fun t => t0 <= t < t0 + 1000) ts ->
  Z.of_nat (length ts) < max_int ->
  (1 <= N <= S (length ts))%nat ->
  (requests userId Q (t0 :: ts) c).1 !! (N - 1)%nat =
    Some (bool_decide (Z.of_nat N <= Q), None) /\
  store (requests userId Q (t0 :: take (N - 1) ts) c).2 !! rate_key userId =
    Some (Entry (strconv.Itoa (Z.of_nat N)) (Some (t0 + 1000))) /\
  (forall (c0 c1 : Client) (limit : Z) (b : bool),
      allow c0 userId limit = ((b, None), c1) ->
      counter (rate_key userId) c1 = counter (rate_key userId) c0 + 1 /\
      b = bool_decide (counter (rate_key userId) c1 <= limit)).
Proof.
  intros Hf Hfind Hts Hlen HN. split; [|split].
  - destruct (requests_window userId Q c t0 ts Hf Hfind Hts Hlen)
      as (c' & -> & _). cbn [fst].
    rewrite list_lookup_fmap, lookup_seq_lt by lia. cbn [fmap option_fmap option_map].
    replace (1 + (N - 1))%nat with N by lia. reflexivity.
  - destruct (requests_window userId Q c t0 (take (N - 1) ts) Hf Hfind)
      as (c' & -> & [_ Hst] & _).
    + now apply Forall_take.
    + rewrite length_take. lia.
    + cbn [snd]. rewrite Hst, length_take.
      unfold UserRateLimitingWindow. do 4 f_equal; lia.
  - intros c0 c1 limit b. apply allow_counts.
Qed.

Lemma allow_nth_request_witness :
  (requests "tenant" 2 [5; 100; 900; 1004] (MkClient ∅ 0 [] [])).1 !! 2%nat =
    Some (false, None) /\
  store (requests "tenant" 2 [5; 100; 900] (MkClient ∅ 0 [] [])).2
    !! rate_key "tenant" = Some (Entry "3" (Some 1005)).
Proof.
  destruct (allow_nth_request "tenant" 2 (MkClient ∅ 0 [] []) 5 [100; 900; 1004] 3)
    as (Hthird & Hcount & _).
  - reflexivity.
  - reflexivity.
  - repeat constructor; lia.
  - unfold max_int. simpl. lia.
  - simpl. lia.
  - split; [exact Hthird | exact Hcount].
Defined.

(** C2. In such a window the expiry of the counter key is set exactly
    once, by the request that opens the window (post-increment count 1):
    the commands sent to the store are one increment followed by the one
    [Expire], then one increment per later request, and the deadline the
    key carries after every request of the window is the one set by the
    first.  Whatever the state of the store, a request whose increment
    returns a count other than 1 sends nothing after the increment; one
    whose increment returns 1 sends exactly the [Expire]. *)
Theorem expiry_set_once (userId : string) (Q : Z) (c : Client)
    (t0 : Z) (ts : list Z) :
  faults c = [] ->
  find (rate_key userId) (at_time t0 c) = None ->
  Forall (fun t => t0 <= t < t0 + 1000) ts ->
  Z.of_nat (length ts) < max_int ->
  issued (requests userId Q (t0 :: ts) c).2 =
    (issued c ++
       CIncr (rate_key userId) :: CExpire (rate_key userId) 1 ::
       repeat (CIncr (rate_key userId)) (length ts))%list /\
  (forall k : nat,
      deadline <$> store (requests userId Q (t0 :: take k ts) c).2 !! rate_key userId =
        Some (Some (t0 + 1000))) /\
  (forall (c0 c1 : Client) (count limit : Z),
      Incr (rate_key userId) c0 = ((count, None), c1) ->
      (count <> 1 -> (allow c0 userId limit).2 = c1) /\
      (count = 1 ->
       issued (allow c0 userId limit).2 =
         (issued c1 ++ [CExpire (rate_key userId) UserRateLimitingWindow])%list)).
Proof.
  intros Hf Hfind Hts Hlen. split; [|split].
  - destruct (requests_window userId Q c t0 ts Hf Hfind Hts Hlen)
      as (c' & -> & _ & Hiss). exact Hiss.
  - intros k.
    destruct (requests_window userId Q c t0 (take k ts) Hf Hfind)
      as (c' & -> & [_ Hst] & _).
    + now apply Forall_take.
    + rewrite length_take. lia.
    + cbn [snd]. rewrite Hst. reflexivity.
  - intros c0 c1 count limit HI.
    rewrite (allow_final_store c0 c1 userId limit count HI). split.
    + intros Hne. now apply Z.eqb_neq in Hne as ->.
    + intros ->. cbn [Z.eqb Pos.eqb].
      clear. unfold Expire, issue. destruct c1 as [st t [|[] fl] iss]; cbn;
        try reflexivity;
        match goal with |- context [find ?k ?s] => destruct (find k s) end;
        reflexivity.
Qed.

Lemma expiry_set_once_witness :
  issued (requests "tenant" 2 [5; 100; 900; 1004] (MkClient ∅ 0 [] [])).2 =
    [CIncr "tenant-rate"; CExpire "tenant-rate" 1; CIncr "tenant-rate";
     CIncr "tenant-rate"; CIncr "tenant-rate"].
Proof.
  apply (expiry_set_once "tenant" 2 (MkClient ∅ 0 [] []) 5 [100; 900; 1004]).
  - reflexivity.
  - reflexivity.
  - repeat constructor; lia.
  - unfold max_int. simpl. lia.
Defined.

End limiter_properties.

(** ** The plan resolver *)

Lemma validMethod_GET : http.validMethod http.MethodGet = true.
Proof. reflexivity. Qed.

Lemma validMethod_POST : http.validMethod http.MethodPost = true.
Proof. reflexivity. Qed.

Section plan_proxy.

Import limiter.

Context `{url.Lib} `{PlanDecoder}.

(** Whenever [fetch] returns an error, it is the one opaque failure and the
    quota string is empty; it returns a quota only for a 200 answer whose
    body decodes. *)
Lemma fetch_returned (proxy proxy' : PlanProxy) (userId quota : string)
    (err : error) (log log' : list string) :
  fetch proxy userId log = Returned ((quota, err), proxy', log') ->
  (quota = "" /\ err = Some something_went_wrong) \/
  (err = None /\
   exists req httpRes response,
     http.Do (httpClient proxy) req = (Some httpRes, None) /\
     http.StatusCode httpRes = http.StatusOK /\
     Decode (http.RespBody httpRes) = (response, None) /\
     quota = strconv.Itoa (RequestLimit (Data response))).
Proof.
  unfold fetch.
  destruct (http.NewRequest _ _ _) as [httpReq [e|]].
  { intros [= <- <- _ _]. now left. }
  cbn [httpClient].
  match goal with |- context [http.Do ?c ?r] => destruct (http.Do c r) as [[httpRes|] err0] eqn:HDo end;
    [|discriminate].
  destruct err0 as [e|].
  { intros [= <- <- _ _]. now left. }
  destruct (http.StatusCode httpRes =? http.StatusOK) eqn:Hs; cbn [negb].
  2:{ intros [= <- <- _ _]. now left. }
  destruct (Decode (http.RespBody httpRes)) as [response [e|]] eqn:HD.
  { intros [= <- <- _ _]. now left. }
  intros [= <- <- _ _]. right. split; [reflexivity|].
  eexists _, httpRes, response. repeat split; eauto.
  now apply Z.eqb_eq.
Qed.

(** A status other than 200 is the opaque failure. *)
Lemma fetch_bad_status (proxy : PlanProxy) (userId : string) (log : list string)
    (answer : http.Response) :
  (url.Parse (plan_url proxy userId)).2 = None ->
  (forall req, http.Do (httpClient proxy) req = (Some answer, None)) ->
  http.StatusCode answer <> http.StatusOK ->
  exists proxy' log',
    fetch proxy userId log = Returned (("", Some something_went_wrong), proxy', log').
Proof.
  intros HP HDo Hs. unfold fetch, http.NewRequest. rewrite validMethod_GET. cbn [negb].
  unfold plan_url in HP. cbn [requestUrl].
  destruct (url.Parse _) as [u [e|]]; [discriminate|].
  cbn [httpClient]. rewrite HDo.
  apply Z.eqb_neq in Hs. rewrite Hs. cbn [negb]. eauto.
Qed.

(** A body that does not decode is the opaque failure. *)
Lemma fetch_bad_body (proxy : PlanProxy) (userId : string) (log : list string)
    (answer : http.Response) (e : string) :
  (url.Parse (plan_url proxy userId)).2 = None ->
  (forall req, http.Do (httpClient proxy) req = (Some answer, None)) ->
  http.StatusCode answer = http.StatusOK ->
  (Decode (http.RespBody answer)).2 = Some e ->
  exists proxy' log',
    fetch proxy userId log = Returned (("", Some something_went_wrong), proxy', log').
Proof.
  intros HP HDo Hs HD. unfold fetch, http.NewRequest. rewrite validMethod_GET. cbn [negb].
  unfold plan_url in HP. cbn [requestUrl].
  destruct (url.Parse _) as [u [e'|]]; [discriminate|].
  cbn [httpClient]. rewrite HDo, Hs. cbn [negb Z.eqb Pos.eqb http.StatusOK].
  destruct (Decode _) as [r [e'|]]; [|discriminate]. eauto.
Qed.

(** C4. When the transport fails, so that the client hands back no
    response and an error, [fetch] does not return "something went wrong":
    the deferred close of the response body is set up before the error is
    examined, and evaluating its operand on the missing response panics. *)
Theorem fetch_transport_error_panics (proxy : PlanProxy) (userId : string)
    (log : list string) (e : string) :
  (url.Parse (plan_url proxy userId)).2 = None ->
  (forall req, http.Do (httpClient proxy) req = (None, Some e)) ->
  fetch proxy userId log = Panicked nil_dereference.
Proof.
  intros HP HDo. unfold fetch, http.NewRequest. rewrite validMethod_GET. cbn [negb].
  unfold plan_url in HP. cbn [requestUrl].
  destruct (url.Parse _) as [u [e'|]]; [discriminate|].
  cbn [httpClient]. rewrite HDo. reflexivity.
Qed.

End plan_proxy.

Lemma fetch_transport_error_panics_witness :
  limiter.fetch sample.cut_off_proxy "a1b2c3d4-0000-4000-8000-000000000000" [] =
  Panicked limiter.nil_dereference.
Proof.
  apply (fetch_transport_error_panics _ _ _ "dial tcp: connection refused").
  - reflexivity.
  - intros req. reflexivity.
Defined.

(** ** The response cache *)

Section response_cache.

Import cache.

Context `{Codec}.

(** The recorder keeps the handler's writes to itself: the wrapped writer
    receives no call while the handler runs. *)
Lemma recorder_keeps_calls (actions : list http.action) (r : responseRecorder) :
  http.calls (rw (fold_left (fun w a => http.perform a w) actions r)) =
  http.calls (rw r).
Proof.
  revert r. induction actions as [|a actions IH]; intros r; [reflexivity|].
  cbn [fold_left]. rewrite IH. destruct a; reflexivity.
Qed.

Lemma recorded_calls (w : http.ResponseWriter) (req : http.Request)
    (next : http.Handler) :
  http.calls (rw (recorded w req next)) = http.calls w.
Proof. unfold recorded, http.ServeHTTP. now rewrite recorder_keeps_calls. Qed.

Lemma serve_miss_writer (c : cache) (w : http.ResponseWriter) (req : http.Request)
    (next : http.Handler) (key : string) (cl : resp.Client) (log : list string) :
  (serve_miss c w req next key cl log).1.1 = replayed w (recorded w req next).
Proof.
  unfold serve_miss.
  destruct (Encode _) as [buffer err].
  destruct (resp.SetWithTTL _ _ _ _) as [e c1]. cbn [fst].
  unfold replayed. cbn [http.Write http.WriteHeader http.ResponseWriter_Writer http.calls http.header].
  rewrite recorded_calls, <- app_assoc. reflexivity.
Qed.

Lemma serve_miss_store (c : cache) (w : http.ResponseWriter) (req : http.Request)
    (next : http.Handler) (key : string) (cl : resp.Client) (log : list string) :
  let buffer := (Encode (envelope (recorded w req next))).1 in
  let cl' := (serve_miss c w req next key cl log).1.2 in
  resp.issued cl' = (resp.issued cl ++ [resp.CSetWithTTL key buffer (cacheExpiry c)])%list /\
  (resp.store cl' = resp.store cl \/
   exists d, resp.store cl' = <[key := resp.Entry buffer d]> (resp.store cl)).
Proof.
  unfold serve_miss.
  destruct (Encode _) as [buffer err]. cbn [fst].
  unfold resp.SetWithTTL, resp.issue.
  destruct cl as [st t [|[] fl] iss]; cbn; destruct (cacheExpiry c <=? 0); cbn; eauto.
Qed.

(** The store after the miss path is the store after its one write. *)
Lemma serve_miss_client (c : cache) (w : http.ResponseWriter) (req : http.Request)
    (next : http.Handler) (key : string) (cl : resp.Client) (log : list string) :
  (serve_miss c w req next key cl log).1.2 =
  (resp.SetWithTTL key (Encode (envelope (recorded w req next))).1 (cacheExpiry c) cl).2.
Proof.
  unfold serve_miss.
  destruct (Encode _) as [buffer err]. cbn [fst].
  destruct (resp.SetWithTTL _ _ _ _) as [e c1]. reflexivity.
Qed.

(** What a delete does to the store, by its answer. *)
Lemma Delete_store (key : string) (c : resp.Client) :
  resp.now (resp.Delete key c).2 = resp.now c /\
  resp.issued (resp.Delete key c).2 = (resp.issued c ++ [resp.CDelete key])%list /\
  ((resp.Delete key c).1 = None ->
   resp.store (resp.Delete key c).2 = delete key (resp.store c)) /\
  ((resp.Delete key c).1 <> None ->
   resp.store (resp.Delete key c).2 = resp.store c).
Proof.
  unfold resp.Delete, resp.issue.
  destruct c as [st t [|[] fl] iss]; cbn; repeat split; congruence.
Qed.

(** What a write with an expiry does to the store, by its answer. *)
Lemma SetWithTTL_store (key val : string) (ttl : Z) (c : resp.Client) :
  resp.now (resp.SetWithTTL key val ttl c).2 = resp.now c /\
  resp.issued (resp.SetWithTTL key val ttl c).2 =
    (resp.issued c ++ [resp.CSetWithTTL key val ttl])%list /\
  ((resp.SetWithTTL key val ttl c).1 = None ->
   resp.store (resp.SetWithTTL key val ttl c).2 =
     <[key := resp.Entry val (Some (resp.now c + 1000 * ttl))]> (resp.store c)) /\
  ((resp.SetWithTTL key val ttl c).1 <> None ->
   resp.store (resp.SetWithTTL key val ttl c).2 = resp.store c).
Proof.
  unfold resp.SetWithTTL, resp.issue.
  destruct c as [st t [|[] fl] iss]; cbn; destruct (ttl <=? 0); cbn;
    repeat split; congruence.
Qed.

(** A read that returns a value has found it in the store, and leaves the
    store and the clock as they are. *)
Lemma Get_found (key data : string) (c c1 : resp.Client) :
  resp.Get key c = ((data, None), c1) ->
  data <> "" ->
  resp.store c1 = resp.store c /\ resp.now c1 = resp.now c /\
  exists d, resp.store c !! key = Some (resp.Entry data d).
Proof.
  unfold resp.Get, resp.issue, resp.find.
  destruct c as [st t [|[] fl] iss]; cbn; try discriminate;
    (destruct (st !! key) as [[v d]|]; cbn;
     [destruct (resp.live t _); intros [= <- <-] Hne; [eauto | congruence]
     | intros [= <- <-] Hne; congruence]).
Qed.

(** A read returns the value that the store holds for the key, the empty
    string or an error. *)
Lemma Get_result (key : string) (c : resp.Client) :
  (resp.Get key c).1 = ("", Some resp.backend_error) \/
  (resp.Get key c).1 = ("", None) \/
  exists e, resp.store c !! key = Some e /\
            (resp.Get key c).1 = (resp.value e, None).
Proof.
  unfold resp.Get, resp.issue, resp.find.
  destruct c as [st t [|[] fl] iss]; cbn; auto;
    (destruct (st !! key) as [e|]; cbn; [|auto];
     destruct (resp.live t e); eauto).
Qed.

(** C5. A stored value that is not empty and does not decode makes
    [ServeHTTP] send a delete for the key and then take the miss path: the
    next commands on the store are the delete and the write of the newly
    serialized response, and the caller receives the upstream response
    (its status and body, once, no error status), whatever the store
    answers to the two, since both answers are discarded.  What the key
    holds afterwards follows from these answers: the newly serialized
    response when the write is accepted, nothing when the delete is
    accepted and the write is not, and the corrupted value still when both
    are refused.  So, the new value not being the corrupted one, the
    subsequent read does not find the corrupted value when the store has
    accepted the delete or the write. *)
Theorem corrupted_entry_deleted (c : cache) (w : http.ResponseWriter)
    (req : http.Request) (next : http.Handler) (cl c1 : resp.Client)
    (log : list string) (data e : string) :
  resp.Get (url.Path (http.URL req)) cl = ((data, None), c1) ->
  data <> "" ->
  (Decode data).2 = Some e ->
  let key := url.Path (http.URL req) in
  let fresh := (Encode (envelope (recorded w req next))).1 in
  let deleted := resp.Delete key c1 in
  let stored := resp.SetWithTTL key fresh (cacheExpiry c) deleted.2 in
  let after := (ServeHTTP c w req next cl log).1.2 in
  resp.issued after =
    (resp.issued c1 ++
       [resp.CDelete key; resp.CSetWithTTL key fresh (cacheExpiry c)])%list /\
  (ServeHTTP c w req next cl log).1.1 = replayed w (recorded w req next) /\
  (stored.1 = None ->
   resp.store after !! key =
     Some (resp.Entry fresh (Some (resp.now cl + 1000 * cacheExpiry c)))) /\
  (deleted.1 = None -> stored.1 <> None -> resp.store after !! key = None) /\
  (deleted.1 <> None -> stored.1 <> None ->
   exists d, resp.store after !! key = Some (resp.Entry data d)) /\
  ((Decode fresh).2 = None -> fresh <> data) /\
  (deleted.1 = None \/ stored.1 = None ->
   fresh <> data ->
   (resp.Get key after).1 <> (data, None)).
Proof.
  intros HG Hne HD key fresh deleted stored after.
  destruct (Get_found _ _ _ _ HG Hne) as (Hst1 & Hnow1 & d0 & Hheld).
  assert (after = stored.2) as Hafter.
  { subst after stored deleted fresh key. unfold ServeHTTP. rewrite HG.
    apply String.eqb_neq in Hne. rewrite Hne. cbn [negb].
    destruct (Decode data) as [r [e'|]]; [|discriminate].
    destruct (resp.Delete _ c1) as [de c2]. cbn [snd].
    apply serve_miss_client. }
  destruct (Delete_store key c1) as (Hdnow & Hdiss & Hdok & Hdno).
  destruct (SetWithTTL_store key fresh (cacheExpiry c) deleted.2)
    as (_ & Hsiss & Hsok & Hsno).
  fold deleted in Hdnow, Hdiss, Hdok, Hdno. fold stored in Hsiss, Hsok, Hsno.
  assert (stored.1 = None ->
          resp.store after !! key =
            Some (resp.Entry fresh (Some (resp.now cl + 1000 * cacheExpiry c))))
    as Hstored.
  { intros Hs. rewrite Hafter, (Hsok Hs), Hdnow, Hnow1. apply lookup_insert_eq. }
  assert (deleted.1 = None -> stored.1 <> None -> resp.store after !! key = None)
    as Hgone.
  { intros Hd Hs. rewrite Hafter, (Hsno Hs), (Hdok Hd). apply lookup_delete_eq. }
  split; [|split; [|split; [|split; [|split; [|split]]]]].
  - rewrite Hafter, Hsiss, Hdiss. now rewrite <- app_assoc.
  - unfold ServeHTTP. rewrite HG.
    apply String.eqb_neq in Hne. rewrite Hne. cbn [negb].
    destruct (Decode data) as [r [e'|]]; [|discriminate].
    destruct (resp.Delete _ c1) as [de c2]. apply serve_miss_writer.
  - exact Hstored.
  - exact Hgone.
  - intros Hd Hs. exists d0. now rewrite Hafter, (Hsno Hs), (Hdno Hd), Hst1.
  - intros Hok Heq. rewrite Heq in Hok. congruence.
  - intros Hany Hfresh.
    assert (forall e0, resp.store after !! key = Some e0 -> resp.value e0 <> data)
      as Hother.
    { intros e0 He0. destruct (stored.1) as [se|] eqn:Hs.
      - destruct Hany as [Hd | Hd]; [|discriminate].
        rewrite Hgone in He0 by (assumption || discriminate). discriminate.
      - rewrite Hstored in He0 by reflexivity. injection He0 as <-. exact Hfresh. }
    destruct (Get_result key after) as [-> | [-> | (e0 & He0 & ->)]].
    + discriminate.
    + intros [= E]. congruence.
    + intros [= E]. exact (Hother e0 He0 E).
Qed.

(** C6. On a miss, whatever the store does with the write of the
    serialized response, the caller's writer ends with the handler's
    headers and receives, after the handler has run, the recorded status
    and the recorded body once each; the write to the store is attempted
    just before.  Two stores that both miss give the caller the same
    response. *)
Theorem miss_replays_once (c : cache) (w : http.ResponseWriter)
    (req : http.Request) (next : http.Handler) (cl : resp.Client)
    (log : list string) :
  is_hit req cl = false ->
  (ServeHTTP c w req next cl log).1.1 = replayed w (recorded w req next) /\
  last (resp.issued (ServeHTTP c w req next cl log).1.2) =
    Some (resp.CSetWithTTL (url.Path (http.URL req))
            (Encode (envelope (recorded w req next))).1 (cacheExpiry c)) /\
  (forall cl' : resp.Client,
      is_hit req cl' = false ->
      (ServeHTTP c w req next cl' log).1.1 = (ServeHTTP c w req next cl log).1.1).
Proof.
  assert (forall cl0, is_hit req cl0 = false ->
            exists c2, ServeHTTP c w req next cl0 log =
                       serve_miss c w req next (url.Path (http.URL req)) c2 log) as Hmiss.
  { intros cl0. unfold is_hit, ServeHTTP.
    destruct (resp.Get _ cl0) as [[data [e|]] c1]; [eauto|].
    destruct (String.eqb data ""); cbn [negb andb]; [eauto|].
    destruct (Decode data) as [r [e|]]; [|discriminate].
    intros _. destruct (resp.Delete _ c1) as [de c2]. eauto. }
  intros Hm. destruct (Hmiss cl Hm) as [c2 ->]. split; [|split].
  - apply serve_miss_writer.
  - destruct (serve_miss_store c w req next (url.Path (http.URL req)) c2 log) as [-> _].
    apply last_snoc.
  - intros cl' Hm'. destruct (Hmiss cl' Hm') as [c2' ->].
    now rewrite !serve_miss_writer.
Qed.

End response_cache.

Section response_cache_runs.

Import cache.

Lemma corrupted_entry_deleted_witness :
  resp.issued (ServeHTTP (NewCache 60) sample.blank sample.resource_request sample.upstream sample.corrupted_store []).1.2 =
    [resp.CGet "/resource/7"; resp.CDelete "/resource/7";
     resp.CSetWithTTL "/resource/7" "200:seven" 60] /\
  (ServeHTTP (NewCache 60) sample.blank sample.resource_request sample.upstream sample.corrupted_store []).1.1 =
    {| http.header := ∅;
       http.calls := [http.WriteHeaderCall 200; http.WriteCall "seven"] |} /\
  resp.store (ServeHTTP (NewCache 60) sample.blank sample.resource_request sample.upstream sample.corrupted_store []).1.2
    !! "/resource/7" = Some (resp.Entry "200:seven" (Some 60000)) /\
  (resp.Get "/resource/7"
     (ServeHTTP (NewCache 60) sample.blank sample.resource_request sample.upstream sample.corrupted_store []).1.2).1 <>
    ("garbage", None).
Proof.
  destruct (corrupted_entry_deleted (NewCache 60) sample.blank sample.resource_request sample.upstream sample.corrupted_store
              (resp.MkClient (resp.store sample.corrupted_store) 0 [] [resp.CGet "/resource/7"])
              [] "garbage" "gob: unexpected EOF")
    as (Hissued & Hwriter & Hstored & _ & _ & _ & Hread).
  - reflexivity.
  - discriminate.
  - reflexivity.
  - split; [exact Hissued|]. split; [exact Hwriter|]. split.
    + apply Hstored. reflexivity.
    + apply Hread; [left; reflexivity | discriminate].
Defined.

(** C5, as stated, fails: a store that refuses the delete and the write
    keeps the corrupted entry, and the next read finds it again, while the
    caller has received the upstream response. *)
Lemma corrupted_entry_survives_refusals : ~ self_healing.
Proof.
  intros Hheals.
  apply (Hheals (NewCache 60) sample.blank sample.resource_request sample.upstream
           sample.corrupted_store_going_down
           (resp.MkClient (resp.store sample.corrupted_store_going_down) 0 [true; true]
              [resp.CGet "/resource/7"])
           [] "garbage" "gob: unexpected EOF").
  - reflexivity.
  - discriminate.
  - reflexivity.
  - reflexivity.
Qed.

(** The run of the counterexample: the commands are sent, the caller gets
    its response, and the entry is as it was. *)
Example corrupted_entry_survives_run :
  resp.issued (ServeHTTP (NewCache 60) sample.blank sample.resource_request sample.upstream sample.corrupted_store_going_down []).1.2 =
    [resp.CGet "/resource/7"; resp.CDelete "/resource/7";
     resp.CSetWithTTL "/resource/7" "200:seven" 60] /\
  http.calls (ServeHTTP (NewCache 60) sample.blank sample.resource_request sample.upstream sample.corrupted_store_going_down []).1.1 =
    [http.WriteHeaderCall 200; http.WriteCall "seven"] /\
  resp.store (ServeHTTP (NewCache 60) sample.blank sample.resource_request sample.upstream sample.corrupted_store_going_down []).1.2
    !! "/resource/7" = Some (resp.Entry "garbage" None) /\
  is_corrupted sample.resource_request
    (ServeHTTP (NewCache 60) sample.blank sample.resource_request sample.upstream sample.corrupted_store_going_down []).1.2 = true.
Proof. repeat split. Qed.

Lemma miss_replays_once_witness :
  (ServeHTTP (NewCache 60) sample.blank sample.resource_request sample.upstream sample.refusing_store []).1.1 =
    {| http.header := ∅;
       http.calls := [http.WriteHeaderCall 200; http.WriteCall "seven"] |}.
Proof.
  apply (miss_replays_once (NewCache 60) sample.blank sample.resource_request sample.upstream sample.refusing_store []).
  reflexivity.
Defined.

(** The same request on a store that accepts the write and on one that
    refuses it: the entry is there or not, the response is the same. *)
Example write_refused_or_not :
  resp.store (ServeHTTP (NewCache 60) sample.blank sample.resource_request sample.upstream sample.empty_store []).1.2
    !! "/resource/7" = Some (resp.Entry "200:seven" (Some 60000)) /\
  resp.store (ServeHTTP (NewCache 60) sample.blank sample.resource_request sample.upstream sample.refusing_store []).1.2
    !! "/resource/7" = None /\
  (ServeHTTP (NewCache 60) sample.blank sample.resource_request sample.upstream sample.empty_store []).1.1 =
  (ServeHTTP (NewCache 60) sample.blank sample.resource_request sample.upstream sample.refusing_store []).1.1.
Proof. repeat split. Qed.

End response_cache_runs.

(** ** The activity recorder *)

Section recorder.

Import activity.

(** C7. [LogActivity] on a buffered channel always returns, and returns
    only the recorder and the log (there is nothing in its result to
    signal a failure).  With room in the buffer the record is added at the
    tail of the queue and nothing is logged; with a full buffer the
    recorder is left as it was and the warning is logged.  The queue never
    grows beyond the capacity. *)
Theorem LogActivity_enqueues_or_drops (a : activity) (requestId : string)
    (count : Z) (log : list string) :
  0 < capacity (logsChannel a) ->
  (Z.of_nat (length (queue (logsChannel a))) < capacity (logsChannel a) ->
   LogActivity a requestId count log =
     (with_queue (queue (logsChannel a) ++ [MkActivityRequestDto requestId count]) a,
      log)) /\
  (capacity (logsChannel a) <= Z.of_nat (length (queue (logsChannel a))) ->
   LogActivity a requestId count log = (a, (log ++ [dropped_warning])%list)) /\
  capacity (logsChannel (LogActivity a requestId count log).1) =
    capacity (logsChannel a) /\
  (Z.of_nat (length (queue (logsChannel a))) <= capacity (logsChannel a) ->
   Z.of_nat (length (queue (logsChannel (LogActivity a requestId count log).1)))
     <= capacity (logsChannel a)).
Proof.
  intros _. unfold LogActivity. split; [|split; [|split]].
  - intros Hlt. apply Z.ltb_lt in Hlt. now rewrite Hlt.
  - intros Hge. apply Z.ltb_ge in Hge. now rewrite Hge.
  - destruct (_ <? _); reflexivity.
  - intros Hle.
    destruct (Z.ltb_spec (Z.of_nat (length (queue (logsChannel a))))
                (capacity (logsChannel a))) as [Hlt|Hge]; cbn.
    + rewrite length_app. cbn. lia.
    + exact Hle.
Qed.

End recorder.

Lemma LogActivity_enqueues_or_drops_witness :
  activity.LogActivity sample.recorder "/v1/accounts/a1b2c3d4" 3 [] =
    (activity.with_queue [activity.MkActivityRequestDto "/v1/accounts/a1b2c3d4" 3]
       sample.recorder, []) /\
  activity.LogActivity (activity.with_queue (repeat (activity.MkActivityRequestDto "x" 1) 8)
                          sample.recorder) "/v1/accounts/a1b2c3d4" 3 [] =
    (activity.with_queue (repeat (activity.MkActivityRequestDto "x" 1) 8) sample.recorder,
     [activity.dropped_warning]).
Proof.
  split.
  - apply (LogActivity_enqueues_or_drops sample.recorder "/v1/accounts/a1b2c3d4" 3 []).
    + reflexivity.
    + reflexivity.
  - apply (LogActivity_enqueues_or_drops
             (activity.with_queue (repeat (activity.MkActivityRequestDto "x" 1) 8)
                sample.recorder) "/v1/accounts/a1b2c3d4" 3 []).
    + reflexivity.
    + cbn. lia.
Defined.

Section batcher.

Import activity.

Context `{url.Lib} `{BatchEncoder}.

(** A turn whose case is ready ends without a panic when the collector's
    side of the network hands back a response. *)
Lemma iteration_returns (s : processor) (k : select_case) :
  ready k s = true ->
  (forall a batch log,
      client a = client (self s) -> exists log', FlushLogs a batch log = Returned log') ->
  exists s', iteration k s = Some (Returned s').
Proof.
  intros Hr Hflush. destruct k; cbn in *.
  - destruct (queue (logsChannel (self s))) as [|x rest]; [discriminate|].
    destruct (_ <=? _); [|eauto].
    destruct (Hflush (with_queue rest (self s)) (batch s ++ [x])%list (log s)) as [l ->];
      eauto.
  - rewrite Hr. destruct (0 <? _); [|eauto].
    destruct (Hflush (self s) (batch s) (log s)) as [l ->]; eauto.
Qed.

(** C3, as the code has it.  The timer is rearmed in the timer case of
    the loop and nowhere else: a turn taken because the timer fired leaves
    it due one full interval after that turn, whether or not the turn
    flushed anything; a turn that receives a record leaves the timer as it
    was, also when the batch reaches the size threshold and is flushed. *)
Theorem timer_rearmed_on_tick_only (s s' : processor) (k : select_case) :
  iteration k s = Some (Returned s') ->
  flushTimer s' =
    match k with
    | Tick => NewTimer (now s) (flushInterval (self s) * Second)
    | Receive => flushTimer s
    end.
Proof.
  destruct k; cbn.
  - destruct (queue (logsChannel (self s))) as [|x rest]; [discriminate|].
    destruct (_ <=? _).
    + destruct (FlushLogs _ _ _); [|discriminate]. now intros [= <-].
    + now intros [= <-].
  - destruct (_ && _); [|discriminate].
    destruct (0 <? _).
    + destruct (FlushLogs _ _ _); [|discriminate]. now intros [= <-].
    + now intros [= <-].
Qed.

End batcher.

(** The sample recorder: the batch of two is flushed by size at 9000 ms and
    the timer armed at the start is still due at 10000 ms; it fires there
    and flushes the third record, one second after the flush before. *)
Example flushes_one_second_apart :
  (activity.flushed <$>
     activity.final (activity.run sample.ninth_second
                       (activity.start sample.recorder 0 []))) =
    Some [(9000, [activity.MkActivityRequestDto "a" 1;
                  activity.MkActivityRequestDto "b" 1])] /\
  (activity.flushTimer <$>
     activity.final (activity.run sample.ninth_second
                       (activity.start sample.recorder 0 []))) =
    Some (activity.MkTimer true 10000) /\
  (activity.flushed <$>
     activity.final (activity.run (sample.ninth_second ++ sample.tenth_second)
                       (activity.start sample.recorder 0 []))) =
    Some [(9000, [activity.MkActivityRequestDto "a" 1;
                  activity.MkActivityRequestDto "b" 1]);
          (10000, [activity.MkActivityRequestDto "c" 1])].
Proof. repeat split. Qed.

(** C3, as stated, fails: the turn that flushes by size does not rearm the
    timer. *)
Lemma size_flush_leaves_timer : ~ activity.every_flush_rearms.
Proof.
  intros Hall.
  pose (s := {| activity.self :=
                  activity.with_queue [activity.MkActivityRequestDto "b" 1] sample.recorder;
                activity.batch := [activity.MkActivityRequestDto "a" 1];
                activity.flushTimer := activity.NewTimer 0 10000;
                activity.now := 9000;
                activity.log := [];
                activity.flushed := [] |}).
  pose (s' := {| activity.self := activity.with_queue [] sample.recorder;
                 activity.batch := [];
                 activity.flushTimer := activity.NewTimer 0 10000;
                 activity.now := 9000;
                 activity.log := [];
                 activity.flushed :=
                   [(9000, [activity.MkActivityRequestDto "a" 1;
                            activity.MkActivityRequestDto "b" 1])] |}).
  specialize (Hall s s' activity.Receive eq_refl).
  discriminate Hall. discriminate.
Qed.

Lemma timer_rearmed_on_tick_only_witness :
  activity.flushTimer
    {| activity.self := sample.recorder;
       activity.batch := [];
       activity.flushTimer := activity.NewTimer 10000 10000;
       activity.now := 10000;
       activity.log := [];
       activity.flushed := [] |} =
  activity.NewTimer 10000 (10 * activity.Second).
Proof.
  apply (timer_rearmed_on_tick_only
           {| activity.self := sample.recorder;
              activity.batch := [];
              activity.flushTimer := activity.NewTimer 0 10000;
              activity.now := 10000;
              activity.log := [];
              activity.flushed := [] |} _ activity.Tick).
  reflexivity.
Defined.

(** ** The gatekeeper *)

Section construction.

Import crossover.

Context `{regexp.Lib} `{url.Lib}.

Lemma len_zero (s : string) : (io.len s =? 0) = true <-> s = "".
Proof.
  unfold io.len. rewrite Z.eqb_eq. destruct s; cbn; split; try easy; lia.
Qed.

Lemma len_nonzero (s : string) : (io.len s =? 0) = false <-> s <> "".
Proof.
  rewrite <- len_zero. destruct (io.len s =? 0); split; congruence.
Qed.

Local Ltac now_missing :=
  split; [intros _; eexists; reflexivity | intros _; tauto].

(** C8, as the code has it.  [New] returns an error, one of its nine
    messages, exactly when the pattern, the API key, the telemetry address,
    the plan address or the store address is empty or the cache expiry, the
    buffer size, the batch size or the flush interval is zero.  The
    credentials of the store take no part: [New] gives the same result
    whatever they are. *)
Theorem New_validates_checked_fields (next : http.Handler) (config : Config)
    (name : string) (network : http.Request -> option http.Response * error) :
  (missing_checked config <->
   exists msg, New next config name network = Returned (None, Some msg)) /\
  (forall msg,
      New next config name network = Returned (None, Some msg) ->
      In msg validation_errors) /\
  (forall auth,
      New next (with_RedisAuth auth config) name network =
      New next config name network).
Proof.
  unfold missing_checked, New. split; [|split].
  - destruct (io.len (Pattern config) =? 0) eqn:E1;
      [apply len_zero in E1; now_missing|apply len_nonzero in E1].
    destruct (io.len (APIKey config) =? 0) eqn:E2;
      [apply len_zero in E2; now_missing|apply len_nonzero in E2].
    destruct (io.len (ActivityAddress config) =? 0) eqn:E3;
      [apply len_zero in E3; now_missing|apply len_nonzero in E3].
    destruct (io.len (PlanAddress config) =? 0) eqn:E4;
      [apply len_zero in E4; now_missing|apply len_nonzero in E4].
    destruct (io.len (RedisAddress config) =? 0) eqn:E5;
      [apply len_zero in E5; now_missing|apply len_nonzero in E5].
    destruct (Z.eqb_spec (CacheExpiry config) 0) as [E6|E6]; [now_missing|].
    destruct (Z.eqb_spec (BufferSize config) 0) as [E7|E7]; [now_missing|].
    destruct (Z.eqb_spec (BatchSize config) 0) as [E8|E8]; [now_missing|].
    destruct (Z.eqb_spec (FlushInterval config) 0) as [E9|E9]; [now_missing|].
    split; [tauto|].
    intros [msg Hmsg]. exfalso.
    destruct (regexp.MustCompile _); [|discriminate].
    destruct (activity.NewActivity _ _ _ _ _ _); [|discriminate].
    destruct (limiter.NewLimiter _ _ _); discriminate.
  - intros msg.
    repeat match goal with
           | |- context [if ?b then _ else _] =>
               destruct b; [intros [= <-]; cbn; tauto|]
           end.
    destruct (regexp.MustCompile _); [|discriminate].
    destruct (activity.NewActivity _ _ _ _ _ _); [|discriminate].
    destruct (limiter.NewLimiter _ _ _); discriminate.
  - intros auth. reflexivity.
Qed.

End construction.

(** C8, as stated, fails: a configuration without credentials for the
    store is accepted. *)
Lemma New_accepts_missing_credentials : ~ crossover.fails_on_every_missing_field.
Proof.
  intros Hall.
  destruct (Hall sample.upstream sample.open_store_config "crossover" sample.unreachable)
    as [msg Hmsg].
  - right. reflexivity.
  - vm_compute in Hmsg. discriminate Hmsg.
Qed.

Section identity.

Import crossover.

Context `{uuid.Lib}.

(** Without a match the identity is empty. *)
Lemma extractUserID_no_match (crossover : Crossover) (path : string) :
  regexp.FindStringSubmatch (compiledPattern crossover) path = [] ->
  extractUserID crossover path = Returned "".
Proof. intros Hm. unfold extractUserID. now rewrite Hm. Qed.

(** With a first match of ten bytes or more the call returns: the text of
    the parsed identifier, or the empty string when the rest of the match
    is not one. *)
Lemma extractUserID_long_match (crossover : Crossover) (path m0 : string)
    (rest : list string) :
  regexp.FindStringSubmatch (compiledPattern crossover) path = m0 :: rest ->
  (10 <= String.length m0)%nat ->
  extractUserID crossover path =
    Returned match uuid.Parse (String.substring 10 (String.length m0 - 10) m0) with
             | Some parsedUUID => uuid.String_ parsedUUID
             | None => ""
             end.
Proof.
  intros Hm Hlen. unfold extractUserID, slice_from. rewrite Hm.
  apply Nat.leb_le in Hlen. rewrite Hlen.
  destruct (uuid.Parse _); reflexivity.
Qed.

(** C9.  A first match shorter than ten bytes makes [extractUserID]
    panic: the slice from offset 10 is taken before anything checks the
    length of the match. *)
Theorem extractUserID_short_match_panics (crossover : Crossover)
    (path m0 : string) (rest : list string) :
  regexp.FindStringSubmatch (compiledPattern crossover) path = m0 :: rest ->
  (String.length m0 < 10)%nat ->
  extractUserID crossover path =
    Panicked "runtime error: slice bounds out of range".
Proof.
  intros Hm Hlen. unfold extractUserID, slice_from. rewrite Hm.
  apply Nat.leb_gt in Hlen. now rewrite Hlen.
Qed.

End identity.

Lemma extractUserID_short_match_panics_witness :
  crossover.extractUserID sample.users_gatekeeper "/users/42" =
    Panicked "runtime error: slice bounds out of range".
Proof.
  apply (extractUserID_short_match_panics sample.users_gatekeeper "/users/42"
           "/users" []).
  - reflexivity.
  - cbn. lia.
Defined.

(** ** The body snapshot *)

Section snapshot.

Import crossover.

Lemma take_drop (s : string) : forall n : Z, io.take n s +:+ io.drop n s = s.
Proof.
  induction s as [|a s IH]; intros n; cbn; [reflexivity|].
  destruct (n <=? 0); [reflexivity|].
  change (String a (io.take (n - 1) s +:+ io.drop (n - 1) s) = String a s).
  f_equal. apply IH.
Qed.

Lemma len_take (s : string) :
  forall n : Z, 0 <= n -> io.len (io.take n s) = Z.min (io.len s) n.
Proof.
  unfold io.len. induction s as [|a s IH]; intros n Hn; cbn [io.take String.length].
  - lia.
  - destruct (Z.leb_spec n 0); cbn [String.length]; [lia|].
    specialize (IH (n - 1)). lia.
Qed.

Lemma take_all (s : string) (n : Z) : io.len s <= n -> io.take n s = s.
Proof.
  unfold io.len. revert n. induction s as [|a s IH]; intros n Hn; cbn; [reflexivity|].
  cbn [String.length] in Hn.
  destruct (Z.leb_spec n 0); [lia|]. rewrite IH; [reflexivity|lia].
Qed.

Lemma len_append (s t : string) : io.len (s +:+ t) = io.len s + io.len t.
Proof.
  unfold io.len. induction s as [|a s IH]; [reflexivity|].
  change (Z.of_nat (S (String.length (s +:+ t))) =
          Z.of_nat (S (String.length s)) + Z.of_nat (String.length t)).
  lia.
Qed.

(** Two ways of cutting one string at the same place are the same. *)
Lemma append_cut (a b c d : string) :
  a +:+ b = c +:+ d -> io.len a = io.len c -> a = c /\ b = d.
Proof.
  unfold io.len. revert c. induction a as [|x a IH]; intros [|y c] Heq Hlen;
    cbn [String.length] in Hlen; try lia.
  - split; [reflexivity | exact Heq].
  - change (String x (a +:+ b) = String y (c +:+ d)) in Heq.
    injection Heq as -> Heq.
    destruct (IH c Heq) as [-> ->]; [lia | now split].
Qed.

Lemma len_padding (n : nat) : io.len (sample.padding n) = Z.of_nat n.
Proof.
  unfold io.len. induction n as [|n IH]; [reflexivity|].
  cbn [sample.padding String.length]. lia.
Qed.

(** C10.  [cloneRequest] copies at most [MaxRequestBodySize] bytes.
    Either it returns the clone, and then the original body is cut in two,
    the first min(length, 2 MiB) bytes and what lies beyond them: the
    bytes that the body of the onward request and the body of the clone
    have to be read are those first bytes, each body ending cleanly after
    them and being open, and what lay beyond is in neither.  Or the stream
    broke before 2 MiB were read, and it returns the error and no clone. *)
Theorem cloneRequest_truncates (req : http.Request) (log : list string) :
  (exists clone req' kept beyond,
      cloneRequest req log = ((Some clone, None), req', log) /\
      io.pending (http.Body req) = kept +:+ beyond /\
      io.len kept = Z.min (io.len (io.pending (http.Body req))) MaxRequestBodySize /\
      io.pending (http.Body req') = kept /\
      io.failure (http.Body req') = None /\
      io.closed (http.Body req') = false /\
      io.pending (http.Body clone) = kept /\
      io.failure (http.Body clone) = None /\
      io.closed (http.Body clone) = false) \/
  (exists req' log',
      cloneRequest req log = ((None, Some "error reading request body"), req', log') /\
      io.len (io.pending (http.Body req)) < MaxRequestBodySize /\
      io.failure (http.Body req) <> None).
Proof.
  assert (0 <= MaxRequestBodySize) as Hpos by (unfold MaxRequestBodySize; lia).
  pose proof (len_take (io.pending (http.Body req)) MaxRequestBodySize Hpos) as Hlen.
  pose proof (eq_sym (take_drop (io.pending (http.Body req)) MaxRequestBodySize)) as Hcut.
  unfold cloneRequest, io.CopyN.
  destruct (Z.leb_spec MaxRequestBodySize (io.len (io.pending (http.Body req))))
    as [Hbig|Hsmall].
  - left. eexists _, _, _, _. split; [reflexivity|].
    cbn [http.Body http.with_Body io.of_bytes io.pending io.failure io.closed].
    split; [exact Hcut|]. split; [exact Hlen|]. repeat split.
  - destruct (io.failure (http.Body req)) as [e|] eqn:Hf.
    + right. eexists _, _. split; [reflexivity|]. split; [exact Hsmall|]. discriminate.
    + left.
      assert (io.pending (http.Body req) =
              io.take MaxRequestBodySize (io.pending (http.Body req))) as Hall
        by (symmetry; apply take_all; lia).
      eexists _, _, (io.take MaxRequestBodySize (io.pending (http.Body req))),
        (io.drop MaxRequestBodySize (io.pending (http.Body req))).
      split; [reflexivity|].
      cbn [http.Body http.with_Body io.of_bytes io.pending io.failure io.closed].
      split; [exact Hcut|]. split; [exact Hlen|]. repeat split; exact Hall.
Qed.

Lemma body_with_Body (b : io.ReadCloser) (r : http.Request) :
  http.Body (http.with_Body b r) = b.
Proof. reflexivity. Qed.

Lemma pending_of_bytes (s : string) : io.pending (io.of_bytes s) = s.
Proof. reflexivity. Qed.

(** A body longer than 2 MiB loses its tail without an error. *)
Lemma cloneRequest_cuts_long_body (req : http.Request) (log : list string) :
  MaxRequestBodySize < io.len (io.pending (http.Body req)) ->
  exists clone req',
    cloneRequest req log = ((Some clone, None), req', log) /\
    io.len (io.pending (http.Body req')) = MaxRequestBodySize /\
    io.len (io.pending (http.Body clone)) = MaxRequestBodySize.
Proof.
  intros Hlong.
  assert (0 <= MaxRequestBodySize) as Hpos by (unfold MaxRequestBodySize; lia).
  pose proof (len_take (io.pending (http.Body req)) MaxRequestBodySize Hpos) as Hlen.
  unfold cloneRequest, io.CopyN.
  destruct (Z.leb_spec MaxRequestBodySize (io.len (io.pending (http.Body req))));
    [|lia].
  eexists _, _. split; [reflexivity|]. cbn [http.Body http.with_Body io.pending io.of_bytes].
  split; lia.
Qed.

(** The scratch buffer changes nothing in what the call returns. *)
Lemma cloneRequest_pooled_agrees (buf : bytes.Buffer) (req : http.Request)
    (log : list string) :
  (cloneRequest_pooled buf req log).1.1 = cloneRequest req log.
Proof.
  unfold cloneRequest_pooled, cloneRequest.
  destruct (io.CopyN (http.Body req) MaxRequestBodySize) as [[copied [[|e]|]] body1];
    reflexivity.
Qed.

(** When the call returns, after the buffer has gone back to the pool, the
    slices behind the two bodies are valid and hold the bytes of the
    bodies. *)
Lemma slices_valid_on_return (buf : bytes.Buffer) (req : http.Request)
    (log : list string) (clone req' : http.Request) :
  cloneRequest req log = ((Some clone, None), req', log) ->
  exists onward cloned,
    (cloneRequest_pooled buf req log).2 = [onward; cloned] /\
    bytes.valid onward (cloneRequest_pooled buf req log).1.2 = true /\
    bytes.valid cloned (cloneRequest_pooled buf req log).1.2 = true /\
    bytes.data onward = io.pending (http.Body req') /\
    bytes.data cloned = io.pending (http.Body clone).
Proof.
  unfold cloneRequest_pooled, cloneRequest.
  destruct (io.CopyN (http.Body req) MaxRequestBodySize) as [[copied [[|e]|]] body1];
    try discriminate; intros [= <- <-]; eexists _, _;
    (split; [reflexivity|]); cbn; rewrite Nat.eqb_refl; auto.
Qed.

(** Every call modifies the buffer it is given. *)
Lemma cloneRequest_pooled_modifies (buf : bytes.Buffer) (req : http.Request)
    (log : list string) :
  bytes.modifications (cloneRequest_pooled buf req log).1.2 =
  S (S (bytes.modifications buf)).
Proof.
  unfold cloneRequest_pooled.
  destruct (io.CopyN (http.Body req) MaxRequestBodySize) as [[copied [[|e]|]] body1];
    reflexivity.
Qed.

(** The pool may give a later call the buffer that an earlier call has put
    back.  Then the later call, whatever its request, leaves no slice of
    the earlier call valid: the bodies that the earlier call has made are
    what [cloneRequest] says only until the buffer is used again. *)
Lemma slices_stale_after_reuse (buf : bytes.Buffer) (req later : http.Request)
    (log log' : list string) :
  Forall
    (fun s =>
       bytes.valid s
         (cloneRequest_pooled (cloneRequest_pooled buf req log).1.2 later log').1.2 =
       false)
    (cloneRequest_pooled buf req log).2.
Proof.
  pose proof (cloneRequest_pooled_modifies
                (cloneRequest_pooled buf req log).1.2 later log') as Hlater.
  pose proof (cloneRequest_pooled_modifies buf req log) as Hfirst.
  assert (forall s, bytes.taken s = bytes.modifications (cloneRequest_pooled buf req log).1.2 ->
                    bytes.valid s
                      (cloneRequest_pooled (cloneRequest_pooled buf req log).1.2 later log').1.2 =
                    false) as Hstale.
  { intros s Hs. unfold bytes.valid. rewrite Hlater, Hs. apply Nat.eqb_neq. lia. }
  revert Hstale. generalize (cloneRequest_pooled (cloneRequest_pooled buf req log).1.2 later log').1.2.
  intros b' Hstale. unfold cloneRequest_pooled in *.
  destruct (io.CopyN (http.Body req) MaxRequestBodySize) as [[copied [[|e]|]] body1];
    cbn [snd fst] in *; repeat constructor; apply Hstale; reflexivity.
Qed.

End snapshot.

(** A request of the tenant whose body is four bytes longer than the
    snapshot of a body can be: the four bytes are in neither body. *)
Lemma cloneRequest_truncates_witness :
  exists clone req',
    crossover.cloneRequest
      (http.with_Body
         (io.of_bytes
            (sample.padding (Z.to_nat crossover.MaxRequestBodySize) +:+ "tail"))
         sample.items_request) [] = ((Some clone, None), req', []) /\
    io.pending (http.Body req') =
      sample.padding (Z.to_nat crossover.MaxRequestBodySize) /\
    io.pending (http.Body clone) =
      sample.padding (Z.to_nat crossover.MaxRequestBodySize).
Proof.
  assert (0 <= crossover.MaxRequestBodySize) as Hpos
    by (unfold crossover.MaxRequestBodySize; lia).
  destruct (cloneRequest_truncates
              (http.with_Body
                 (io.of_bytes
                    (sample.padding (Z.to_nat crossover.MaxRequestBodySize) +:+ "tail"))
                 sample.items_request) [])
    as [(clone & req' & kept & beyond & Hc & Hsplit & Hlen & Hr & _ & _ & Hcl & _)
       | (req' & log' & _ & Hshort & _)].
  - rewrite body_with_Body, pending_of_bytes in Hsplit, Hlen.
    rewrite len_append, len_padding, (Z2Nat.id _ Hpos) in Hlen.
    exists clone, req'. split; [exact Hc|].
    destruct (append_cut _ _ _ _ Hsplit) as [Hkept _].
    { rewrite len_padding, (Z2Nat.id _ Hpos), Hlen. unfold io.len. cbn [String.length]. lia. }
    rewrite Hr, Hcl, <- Hkept. split; reflexivity.
  - exfalso. rewrite body_with_Body, pending_of_bytes in Hshort.
    rewrite len_append, len_padding, (Z2Nat.id _ Hpos) in Hshort.
    unfold io.len in Hshort. cbn [String.length] in Hshort. lia.
Defined.

(** ** Runs of the design document's scenarios *)

(** The plan service grants 2 requests: the proxy returns the quota as
    text and asks for the tenant by query parameter. *)
Example fetch_granted :
  match limiter.fetch (sample.granting_proxy 2)
          "a1b2c3d4-0000-4000-8000-000000000000" [] with
  | Returned ((quota, err), proxy, log) =>
      quota = "2" /\ err = None /\ log = [] /\
      url.RawQuery (limiter.requestUrl proxy) =
        "userId=a1b2c3d4-0000-4000-8000-000000000000"
  | Panicked _ => False
  end.
Proof. vm_compute. repeat split. Qed.

(** A tenant with quota 2 sends three requests within one second: the
    first two are admitted, the third is refused as too many.  The plan is
    fetched once and then read from the store. *)
Example three_requests_quota_two :
  match limiter.limits {| limiter.planProxy := sample.granting_proxy 2 |}
          "a1b2c3d4-0000-4000-8000-000000000000" [0; 300; 600]
          sample.empty_store [] with
  | Returned (results, _, store, _) =>
      results = [(true, None); (true, None); (false, Some "Too Many Requests")] /\
      resp.issued store =
        [resp.CGet "a1b2c3d4-0000-4000-8000-000000000000";
         resp.CSet "a1b2c3d4-0000-4000-8000-000000000000" "2";
         resp.CIncr "a1b2c3d4-0000-4000-8000-000000000000-rate";
         resp.CExpire "a1b2c3d4-0000-4000-8000-000000000000-rate" 1;
         resp.CGet "a1b2c3d4-0000-4000-8000-000000000000";
         resp.CIncr "a1b2c3d4-0000-4000-8000-000000000000-rate";
         resp.CGet "a1b2c3d4-0000-4000-8000-000000000000";
         resp.CIncr "a1b2c3d4-0000-4000-8000-000000000000-rate"]
  | Panicked _ => False
  end.
Proof. vm_compute. repeat split. Qed.

(** With the plan service unreachable the first request of a tenant whose
    plan is not in the store takes the limiter down with the proxy. *)
Example limit_panics_when_plan_service_is_down :
  limiter.Limit {| limiter.planProxy := sample.cut_off_proxy |}
    "a1b2c3d4-0000-4000-8000-000000000000" sample.empty_store [] =
  Panicked limiter.nil_dereference.
Proof. reflexivity. Qed.

(** The identity of a well-formed path, and of a path whose match is long
    enough but carries no identifier. *)
Example extractUserID_runs :
  crossover.extractUserID
    {| crossover.next := sample.upstream;
       crossover.name := "crossover";
       crossover.compiledPattern :=
         {| regexp.FindStringSubmatch :=
              fun path =>
                match sample.cut "/accounts/" path with
                | (_, Some rest) => ["/accounts/" +:+ String.substring 0 36 rest]
                | (_, None) => []
                end |};
       crossover.apiKey := "secret";
       crossover.planAddress := "http://plans.internal/v1/plan";
       crossover.redisAddress := "redis.internal:6379";
       crossover.redisAuth := "";
       crossover.cacheExpiry := 60;
       crossover.activityService := sample.recorder;
       crossover.cacheService := cache.NewCache 60;
       crossover.limiterService := {| limiter.planProxy := sample.cut_off_proxy |} |}
    "/accounts/A1B2C3D4-0000-4000-8000-000000000000/items" =
  Returned "a1b2c3d4-0000-4000-8000-000000000000".
Proof. reflexivity. Qed.

(** A short body passes whole; a broken stream is an error. *)
Example cloneRequest_runs :
  (crossover.cloneRequest
     (http.with_Body (io.of_bytes "[1,2,3]") sample.resource_request) []).1.1 =
    (Some (http.with_Body (io.of_bytes "[1,2,3]") sample.resource_request), None) /\
  (crossover.cloneRequest
     (http.with_Body (io.MkReadCloser "[1,2" (Some "connection reset") false)
        sample.resource_request) []).1.1 =
    (None, Some "error reading request body").
Proof. split; reflexivity. Qed.

(** The first request for a resource misses, runs the upstream handler and
    stores the response; the second, within the expiry, is answered from
    the store with the same status and body and sends the store one read. *)
Example miss_then_hit :
  let first :=
    cache.ServeHTTP (cache.NewCache 60) sample.blank sample.resource_request
      sample.upstream sample.empty_store [] in
  let second :=
    cache.ServeHTTP (cache.NewCache 60) sample.blank sample.resource_request
      (fun _ => [http.SendStatus 500; http.SendBody "not asked"])
      (resp.at_time 59999 first.1.2) [] in
  cache.is_hit sample.resource_request sample.empty_store = false /\
  cache.is_hit sample.resource_request (resp.at_time 59999 first.1.2) = true /\
  second.1.1 = first.1.1 /\
  resp.issued second.1.2 =
    [resp.CGet "/resource/7"; resp.CSetWithTTL "/resource/7" "200:seven" 60;
     resp.CGet "/resource/7"] /\
  cache.is_hit sample.resource_request (resp.at_time 60000 first.1.2) = false.
Proof. repeat split. Qed.

(** With the collector unreachable a flush takes the batcher down. *)
Example flush_panics_when_collector_is_down :
  activity.FlushLogs
    {| activity.client := {| http.Timeout := 10; http.Do := sample.unreachable |};
       activity.logsChannel := {| activity.capacity := 8; activity.queue := [] |};
       activity.remoteAddress := "http://collector.internal/activity";
       activity.apiKey := "secret";
       activity.batchSize := 2;
       activity.flushInterval := 10 |}
    [activity.MkActivityRequestDto "a" 1] [] =
  Panicked activity.nil_dereference.
Proof. reflexivity. Qed.

(** ** More on the limiter *)

Section strconv_round_trip.

Lemma string_of_uint_head (d : Decimal.uint) :
  d <> Decimal.Nil ->
  exists a rest,
    NilEmpty.string_of_uint d = String a rest /\
    Ascii.eqb a "-"%char = false /\ Ascii.eqb a "+"%char = false.
Proof.
  destruct d; intros Hd; try congruence; cbn; eexists _, _; repeat split.
Qed.

Lemma string_of_uint_nonnil (d : Decimal.uint) :
  d <> Decimal.Nil -> NilZero.string_of_uint d = NilEmpty.string_of_uint d.
Proof. destruct d; intros Hd; [congruence | reflexivity ..]. Qed.

Lemma Itoa_nonempty (z : Z) : strconv.Itoa z <> "".
Proof.
  intros E. pose proof (int_of_string_Itoa z) as Hz. rewrite E in Hz. discriminate.
Qed.

(** What [strconv.Itoa] writes, [strconv.Atoi] reads back. *)
Lemma Atoi_Itoa (z : Z) :
  in_int_range z = true -> strconv.Atoi (strconv.Itoa z) = (z, None).
Proof.
  intros Hr. destruct z as [|p|p].
  - reflexivity.
  - unfold strconv.Itoa. cbn [Z.to_int NilZero.string_of_int].
    pose proof (Unsigned.to_uint_nonnil p) as Hnn.
    pose proof (string_of_uint_nonnil _ Hnn) as Hsame.
    destruct (string_of_uint_head _ Hnn) as (a & rest & Hs & Hm & Hp).
    pose proof (NilZero.usu _ Hnn) as Hu.
    rewrite Hsame, Hs in Hu. rewrite Hsame, Hs. unfold strconv.Atoi. rewrite Hm, Hp, Hu.
    change (Z.of_uint (Pos.to_uint p)) with (Z.of_int (Z.to_int (Z.pos p))).
    rewrite DecimalZ.of_to, Hr. reflexivity.
  - unfold strconv.Itoa. cbn [Z.to_int NilZero.string_of_int].
    pose proof (Unsigned.to_uint_nonnil p) as Hnn.
    pose proof (NilZero.usu _ Hnn) as Hu.
    unfold strconv.Atoi. rewrite Ascii.eqb_refl, Hu.
    change (- Z.of_uint (Pos.to_uint p)) with (Z.of_int (Z.to_int (Z.neg p))).
    rewrite DecimalZ.of_to, Hr. reflexivity.
Qed.

Lemma append_length (s t : string) :
  String.length (s +:+ t) = (String.length s + String.length t)%nat.
Proof.
  induction s as [|a s IH]; [reflexivity|].
  change (S (String.length (s +:+ t)) = S (String.length s + String.length t)).
  now rewrite IH.
Qed.

Lemma rate_key_differs (userId : string) : limiter.rate_key userId <> userId.
Proof.
  intros E. apply (f_equal String.length) in E.
  unfold limiter.rate_key in E. rewrite append_length in E. cbn in E. lia.
Qed.

End strconv_round_trip.

Section plan_resolution.

Import resp limiter.

Context `{url.Lib} `{PlanDecoder}.

(** A store that answers gives [Get] the live value of the key, or the
    empty string, and is left as it was but for the record of the command. *)
Lemma Get_answers (key : string) (c : Client) :
  faults c = [] ->
  Get key c =
    ((match find key c with Some e => value e | None => "" end, None),
     MkClient (store c) (now c) [] (issued c ++ [CGet key])).
Proof.
  destruct c as [st t fl iss]. cbn. intros ->.
  unfold Get, issue, find. cbn. destruct (st !! key) as [e|]; [|reflexivity].
  destruct (live t e); reflexivity.
Qed.

(** X1. [Limit] never returns a refusal without an error nor an admission
    with one: whenever it returns, its result is [(true, nil)] or
    [(false, err)] with an error. *)
Theorem Limit_verdict (l l' : limiter) (userId : string) (c c' : Client)
    (log log' : list string) (r : bool * error) :
  Limit l userId c log = Returned (r, l', c', log') ->
  r = (true, None) \/ exists e, r = (false, Some e).
Proof.
  unfold Limit.
  destruct (getUserPlan l c userId log) as [[[[[n [e|]] l1] c1] log1]|]; [| |discriminate].
  - intros [= <- _ _ _]. eauto.
  - destruct (allow c1 userId n) as [[b [e|]] c2].
    + intros [= <- _ _ _]. eauto.
    + destruct b; cbn [negb]; intros [= <- _ _ _]; eauto.
Qed.

(** X2. A plan that is in the store is read from the store: [getUserPlan]
    sends one [Get], leaves the store as it is, does not use the plan
    proxy, and returns the stored text converted by [Atoi]; a stored text
    that is not a number is the parse error, and stays in the store. *)
Theorem plan_read_from_store (l : limiter) (c : Client) (userId : string)
    (log : list string) (e : entry) :
  faults c = [] ->
  find userId c = Some e ->
  value e <> "" ->
  getUserPlan l c userId log =
    Returned (parse_plan (value e), l,
              MkClient (store c) (now c) [] (issued c ++ [CGet userId]), log).
Proof.
  intros Hf Hfind Hne. unfold getUserPlan.
  rewrite (Get_answers userId c Hf), Hfind.
  apply String.eqb_neq in Hne. now rewrite Hne.
Qed.

(** X3. A plan is fetched once.  When the store has no plan for the tenant
    and the plan service answers 200 with a body that decodes to the limit
    [n], [getUserPlan] returns [n] and leaves its decimal text in the store
    under the tenant's identity, without a deadline.  Every later call, at
    any time and with any proxy, returns [n] from the store with one [Get]. *)
Theorem plan_fetched_once (l : limiter) (c : Client) (userId : string)
    (log : list string) (answer : http.Response) (response : PlanProxyResponse) :
  faults c = [] ->
  find userId c = None ->
  (url.Parse (plan_url (planProxy l) userId)).2 = None ->
  (forall req, http.Do (httpClient (planProxy l)) req = (Some answer, None)) ->
  http.StatusCode answer = http.StatusOK ->
  Decode (http.RespBody answer) = (response, None) ->
  in_int_range (RequestLimit (Data response)) = true ->
  exists l1 c1,
    getUserPlan l c userId log =
      Returned ((RequestLimit (Data response), None), l1, c1, log) /\
    store c1 !! userId =
      Some (Entry (strconv.Itoa (RequestLimit (Data response))) None) /\
    faults c1 = [] /\
    forall (l2 : limiter) (t : Z) (log2 : list string),
      getUserPlan l2 (at_time t c1) userId log2 =
        Returned ((RequestLimit (Data response), None), l2,
                  MkClient (store c1) t [] (issued c1 ++ [CGet userId]), log2).
Proof.
  intros Hf Hfind HP HDo Hs HD Hr.
  assert (exists l1 c1,
             getUserPlan l c userId log =
               Returned ((RequestLimit (Data response), None), l1, c1, log) /\
             store c1 !! userId =
               Some (Entry (strconv.Itoa (RequestLimit (Data response))) None) /\
             faults c1 = []) as (l1 & c1 & Hget & Hstore & Hf1).
  { unfold getUserPlan. rewrite (Get_answers userId c Hf), Hfind. cbn [String.eqb].
    unfold fetch, http.NewRequest. rewrite validMethod_GET. cbn [negb].
    unfold plan_url in HP. cbn [requestUrl].
    destruct (url.Parse _) as [u [e'|]]; [discriminate|].
    cbn [httpClient]. rewrite HDo, Hs. cbn [negb Z.eqb Pos.eqb http.StatusOK].
    rewrite HD. unfold Set_, issue. cbn [faults store now issued with_store].
    unfold parse_plan. rewrite (Atoi_Itoa _ Hr).
    eexists _, _. split; [reflexivity|]. cbn [store faults].
    split; [apply lookup_insert_eq|reflexivity]. }
  exists l1, c1. repeat split; try assumption.
  intros l2 t log2.
  rewrite (plan_read_from_store l2 (at_time t c1) userId log2
             (Entry (strconv.Itoa (RequestLimit (Data response))) None)).
  - cbn [value store now issued at_time]. unfold parse_plan.
    rewrite (Atoi_Itoa _ Hr). reflexivity.
  - exact Hf1.
  - unfold find. cbn [store now at_time]. rewrite Hstore. reflexivity.
  - apply Itoa_nonempty.
Qed.

End plan_resolution.

Lemma Limit_verdict_witness :
  (true, @None string) = (true, None) \/
  exists e, (true, @None string) = (false, Some e).
Proof.
  eapply (Limit_verdict {| limiter.planProxy := sample.granting_proxy 2 |} _
            "a1b2c3d4-0000-4000-8000-000000000000" sample.empty_store _ [] _).
  vm_compute. reflexivity.
Defined.

Lemma plan_read_from_store_witness :
  limiter.getUserPlan {| limiter.planProxy := sample.cut_off_proxy |}
    (resp.MkClient {[ "tenant" := resp.Entry "25" None ]} 0 [] []) "tenant" [] =
  Returned ((25, None), {| limiter.planProxy := sample.cut_off_proxy |},
            resp.MkClient {[ "tenant" := resp.Entry "25" None ]} 0 [] [resp.CGet "tenant"],
            []).
Proof.
  rewrite (plan_read_from_store {| limiter.planProxy := sample.cut_off_proxy |}
             (resp.MkClient {[ "tenant" := resp.Entry "25" None ]} 0 [] []) "tenant" []
             (resp.Entry "25" None)).
  - reflexivity.
  - reflexivity.
  - reflexivity.
  - discriminate.
Defined.

Lemma plan_fetched_once_witness :
  exists l1 c1,
    limiter.getUserPlan {| limiter.planProxy := sample.granting_proxy 2 |}
      sample.empty_store "tenant" [] = Returned ((2, None), l1, c1, []) /\
    resp.store c1 !! "tenant" = Some (resp.Entry "2" None).
Proof.
  destruct (plan_fetched_once {| limiter.planProxy := sample.granting_proxy 2 |}
              sample.empty_store "tenant" []
              {| http.StatusCode := 200;
                 http.RespBody := sample.plan_prefix +:+ "2}}" |}
              (limiter.MkPlanProxyResponse (limiter.MkPlanData 2)))
    as (l1 & c1 & Hget & Hstore & _).
  - reflexivity.
  - reflexivity.
  - reflexivity.
  - intros req. reflexivity.
  - reflexivity.
  - reflexivity.
  - reflexivity.
  - exists l1, c1. split; [exact Hget | exact Hstore].
Defined.

Section windows.

Import resp limiter.

(** X5. The quota comes back when the window closes.  From the store of a
    running window, a request that arrives one second or more after the
    window opened finds no live counter: it is counted as the first of a
    new window, is allowed exactly when the limit is at least 1, and sets
    the expiry anew, one second after its own arrival. *)
Theorem window_reopens (userId : string) (limit t0 n t : Z) (c : Client) :
  counting userId t0 n c ->
  t0 + 1000 <= t ->
  exists c',
    allow (at_time t c) userId limit = ((bool_decide (1 <= limit), None), c') /\
    counting userId t 1 c' /\
    issued c' =
      (issued c ++ [CIncr (rate_key userId); CExpire (rate_key userId) 1])%list.
Proof.
  intros [Hf Hst] Ht.
  destruct (allow_opens_window userId limit (at_time t c)) as (c' & Ha & Hc & _ & Hi).
  - exact Hf.
  - unfold find, live. cbn [store now at_time]. rewrite Hst. cbn [deadline].
    unfold UserRateLimitingWindow.
    replace (t <? t0 + 1000 * 1) with false by (symmetry; apply Z.ltb_ge; lia).
    reflexivity.
  - exists c'. auto.
Qed.

(** One more request on a counter without deadline. *)
Lemma allow_stuck (userId : string) (limit n : Z) (c : Client) :
  stuck userId n c -> 1 <= n < max_int ->
  exists c',
    allow c userId limit = ((bool_decide (n + 1 <= limit), None), c') /\
    stuck userId (n + 1) c' /\ now c' = now c /\
    issued c' = (issued c ++ [CIncr (rate_key userId)])%list.
Proof.
  destruct c as [st t fl iss]. unfold stuck. cbn [faults store].
  intros [-> Hst] Hn.
  unfold allow, Incr, issue, find. cbn [faults store now issued]. rewrite Hst.
  unfold live. cbn [value deadline]. rewrite parse_int_Itoa
    by (unfold in_int_range, min_int, max_int in *; apply andb_true_iff;
        rewrite !Z.leb_le; lia).
  replace (n <? max_int) with true by (symmetry; apply Z.ltb_lt; lia).
  replace (n + 1 =? 1) with false by (symmetry; apply Z.eqb_neq; lia).
  eexists. split; [reflexivity|]. split; [|split]; [|reflexivity..].
  split; [reflexivity|]. cbn [store with_store]. now rewrite lookup_insert_eq.
Qed.

Lemma requests_stuck (userId : string) (limit : Z) (ts : list Z) :
  forall (n : Z) (c : Client),
    stuck userId n c -> 1 <= n ->
    n + Z.of_nat (length ts) <= max_int ->
    exists c',
      requests userId limit ts c =
        ((fun i => (bool_decide (n + Z.of_nat i <= limit), None)) <$>
           seq 1 (length ts), c') /\
      stuck userId (n + Z.of_nat (length ts)) c' /\
      issued c' = (issued c ++ repeat (CIncr (rate_key userId)) (length ts))%list.
Proof.
  induction ts as [|t ts IH]; intros n c Hc Hn Hmax.
  - exists c. cbn [requests length seq fmap list_fmap repeat].
    rewrite Z.add_0_r, app_nil_r. auto.
  - cbn [length] in Hmax.
    destruct (allow_stuck userId limit n (at_time t c)) as (c1 & Hal & Hc1 & _ & Hiss);
      [exact Hc | lia |].
    destruct (IH (n + 1) c1) as (c2 & Hrun & Hc2 & Hiss2); [exact Hc1 | lia | lia |].
    exists c2. cbn [requests]. rewrite Hal, Hrun. split; [|split].
    + cbn [length seq fmap list_fmap]. f_equal. f_equal.
      rewrite <- (fmap_S_seq 1), <- list_fmap_compose.
      apply list_fmap_ext. intros _ i _. cbn.
      replace (n + 1 + Z.of_nat i) with (n + Z.of_nat (S i)) by lia.
      reflexivity.
    + replace (n + Z.of_nat (length (t :: ts)))
        with (n + 1 + Z.of_nat (length ts)) by (cbn [length]; lia).
      exact Hc2.
    + rewrite Hiss2, Hiss. cbn [issued at_time repeat length]. now rewrite <- app_assoc.
Qed.

(** X6. When the store refuses the [Expire] of the request that opens a
    window, that request ends in the backend error and the counter is left
    at 1 without a deadline.  On a store that answers from then on, every
    later request, whenever it arrives, is counted on that same counter:
    request number [i] after the failed one is allowed exactly when
    [1 + i <= limit], no [Expire] is sent again, and the counter still has
    no deadline at the end. *)
Theorem counter_stuck_after_failed_expire (userId : string) (limit : Z)
    (c : Client) (t0 : Z) (ts : list Z) :
  faults c = [false; true] ->
  find (rate_key userId) (at_time t0 c) = None ->
  Z.of_nat (length ts) < max_int - 1 ->
  exists c',
    requests userId limit (t0 :: ts) c =
      ((false, Some backend_error) ::
       ((fun i => (bool_decide (1 + Z.of_nat i <= limit), None)) <$>
          seq 1 (length ts)), c') /\
    store c' !! rate_key userId =
      Some (Entry (strconv.Itoa (1 + Z.of_nat (length ts))) None) /\
    issued c' =
      (issued c ++
         CIncr (rate_key userId) :: CExpire (rate_key userId) 1 ::
         repeat (CIncr (rate_key userId)) (length ts))%list.
Proof.
  intros Hf Hfind Hlen.
  assert (exists c1,
             allow (at_time t0 c) userId limit = ((false, Some backend_error), c1) /\
             stuck userId 1 c1 /\
             issued c1 =
               (issued c ++ [CIncr (rate_key userId); CExpire (rate_key userId) 1])%list)
    as (c1 & Hal & Hc1 & Hiss).
  { destruct c as [st t fl iss]. cbn [faults] in Hf. subst fl.
    unfold find in Hfind. cbn [store now at_time] in Hfind.
    unfold allow, Incr, issue, find. cbn [faults store now issued at_time].
    rewrite Hfind. cbn [Z.eqb Pos.eqb].
    unfold Expire, issue. cbn [faults store now issued with_store].
    eexists. split; [reflexivity|]. split.
    - split; [reflexivity|]. cbn [store]. apply lookup_insert_eq.
    - cbn [issued]. now rewrite <- app_assoc. }
  destruct (requests_stuck userId limit ts 1 c1) as (c2 & Hrun & [_ Hst] & Hiss2);
    [exact Hc1 | lia | lia |].
  exists c2. cbn [requests]. rewrite Hal, Hrun. repeat split.
  - exact Hst.
  - rewrite Hiss2, Hiss. now rewrite <- app_assoc.
Qed.

(** X7. [allow] changes the store at the tenant's rate key only; the key
    that holds the tenant's plan is another key and keeps its entry. *)
Theorem allow_touches_only_rate_key (c : Client) (userId : string) (limit : Z) :
  rate_key userId <> userId /\
  store (allow c userId limit).2 !! userId = store c !! userId /\
  forall key : string,
    key <> rate_key userId ->
    store (allow c userId limit).2 !! key = store c !! key.
Proof.
  assert (forall key : string,
             key <> rate_key userId ->
             store (allow c userId limit).2 !! key = store c !! key) as Hother.
  { intros key Hne. unfold allow, Incr, Expire, issue.
    destruct c as [st t fl iss]. cbn [faults store now issued].
    repeat
      (match goal with
       | |- context [match ?x with _ => _ end] =>
           match type of x with
           | list bool => destruct x as [|[] ?]
           | option _ => destruct x eqn:?
           | bool => destruct x eqn:?
           end
       | |- context [if ?x then _ else _] => destruct x eqn:?
       end; cbn [fst snd faults store now issued with_store]);
      rewrite ?lookup_insert_ne by congruence; reflexivity. }
  split; [apply rate_key_differs|]. split; [|exact Hother].
  apply Hother. intros E. symmetry in E. exact (rate_key_differs userId E).
Qed.

End windows.

Lemma window_reopens_witness :
  exists c',
    limiter.allow
      (resp.at_time 1500
         (resp.MkClient {[ "tenant-rate" := resp.Entry "3" (Some 1005) ]} 900 [] []))
      "tenant" 2 = ((true, None), c') /\
    resp.store c' !! "tenant-rate" = Some (resp.Entry "1" (Some 2500)).
Proof.
  destruct (window_reopens "tenant" 2 5 3 1500
              (resp.MkClient {[ "tenant-rate" := resp.Entry "3" (Some 1005) ]} 900 [] []))
    as (c' & Ha & [_ Hst] & _).
  - split; reflexivity.
  - lia.
  - exists c'. split; [exact Ha | exact Hst].
Defined.

Lemma counter_stuck_after_failed_expire_witness :
  exists c',
    limiter.requests "tenant" 2 [0; 5000; 90000; 86400000]
      (resp.MkClient ∅ 0 [false; true] []) =
      ([(false, Some resp.backend_error); (true, None); (false, None); (false, None)],
       c') /\
    resp.store c' !! "tenant-rate" = Some (resp.Entry "4" None).
Proof.
  destruct (counter_stuck_after_failed_expire "tenant" 2
              (resp.MkClient ∅ 0 [false; true] []) 0 [5000; 90000; 86400000])
    as (c' & Hrun & Hst & _).
  - reflexivity.
  - reflexivity.
  - unfold max_int. cbn. lia.
  - exists c'. split; [exact Hrun | exact Hst].
Defined.

Section plan_proxy_more.

Import resp limiter.

Context `{url.Lib} `{PlanDecoder}.

(** X4. What [fetch] tells and what it keeps to itself.  Whenever it
    returns, the proxy is left with the tenant's escaped identity as the
    query of its URL and is otherwise as it was.  A failure is always the
    same "something went wrong" with an empty plan, and its cause is only
    in the one line appended to the log; a success logs nothing and its
    plan is the decimal text of an integer. *)
Theorem fetch_failure_opaque (proxy proxy' : PlanProxy) (userId quota : string)
    (err : error) (log log' : list string) :
  fetch proxy userId log = Returned ((quota, err), proxy', log') ->
  httpClient proxy' = httpClient proxy /\
  apiKey proxy' = apiKey proxy /\
  requestUrl proxy' =
    url.with_RawQuery ("userId=" +:+ url.QueryEscape userId) (requestUrl proxy) /\
  ((err = Some something_went_wrong /\ quota = "" /\
    exists line, log' = (log ++ [line])%list) \/
   (err = None /\ log' = log /\ exists n, quota = strconv.Itoa n)).
Proof.
  unfold fetch.
  destruct (http.NewRequest _ _ _) as [httpReq [e|]].
  { intros [= <- <- <- <-]. repeat split. left. eauto. }
  cbn [httpClient].
  match goal with
  | |- context [http.Do ?c ?r] => destruct (http.Do c r) as [[httpRes|] err0]
  end; [|discriminate].
  destruct err0 as [e|].
  { intros [= <- <- <- <-]. repeat split. left. eauto. }
  destruct (http.StatusCode httpRes =? http.StatusOK); cbn [negb].
  2:{ intros [= <- <- <- <-]. repeat split. left. eauto. }
  destruct (Decode (http.RespBody httpRes)) as [response [e|]].
  { intros [= <- <- <- <-]. repeat split. left. eauto. }
  intros [= <- <- <- <-]. repeat split. right. eauto.
Qed.

(** X8. A tenant whose plan cannot be resolved is refused, not counted.
    When the store has no plan for the tenant and the plan service answers
    with a status other than 200, [Limit] returns the refusal "something
    went wrong": the store has received the one [Get] and nothing else, so
    that nothing is stored and the tenant's counter is not touched, and the
    status is in the line appended to the log. *)
Theorem unresolved_plan_not_counted (l : limiter) (userId : string) (c : Client)
    (log : list string) (answer : http.Response) :
  faults c = [] ->
  find userId c = None ->
  (url.Parse (plan_url (planProxy l) userId)).2 = None ->
  (forall req, http.Do (httpClient (planProxy l)) req = (Some answer, None)) ->
  http.StatusCode answer <> http.StatusOK ->
  exists l',
    Limit l userId c log =
      Returned ((false, Some something_went_wrong), l',
                MkClient (store c) (now c) [] (issued c ++ [CGet userId]),
                (log ++ ["FetchUserPlan:InvalidStatusCode: " +:+
                         strconv.Itoa (http.StatusCode answer)])%list).
Proof.
  intros Hf Hfind HP HDo Hs.
  unfold Limit, getUserPlan. rewrite (Get_answers userId c Hf), Hfind.
  cbn [String.eqb].
  unfold fetch, http.NewRequest. rewrite validMethod_GET. cbn [negb].
  unfold plan_url in HP. cbn [requestUrl].
  destruct (url.Parse _) as [u [e|]]; [discriminate|].
  cbn [httpClient]. rewrite HDo.
  apply Z.eqb_neq in Hs. rewrite Hs. cbn [negb]. eauto.
Qed.

End plan_proxy_more.

Lemma fetch_failure_opaque_witness :
  exists quota err proxy' log',
    limiter.fetch sample.refused_proxy "tenant" [] =
      Returned ((quota, err), proxy', log') /\
    url.RawQuery (limiter.requestUrl proxy') = "userId=tenant" /\
    ((err = Some limiter.something_went_wrong /\ quota = "" /\
      exists line, log' = ([] ++ [line])%list) \/
     (err = None /\ log' = [] /\ exists n, quota = strconv.Itoa n)).
Proof.
  assert (exists r, limiter.fetch sample.refused_proxy "tenant" [] = Returned r)
    as [[[[quota err] proxy'] log'] Hf] by (eexists; vm_compute; reflexivity).
  destruct (fetch_failure_opaque _ _ _ _ _ _ _ Hf) as (_ & _ & Hu & Hr).
  exists quota, err, proxy', log'. split; [exact Hf|]. split; [|exact Hr].
  rewrite Hu. vm_compute. reflexivity.
Defined.

Lemma unresolved_plan_not_counted_witness :
  exists l',
    limiter.Limit {| limiter.planProxy := sample.refused_proxy |} "tenant"
      sample.empty_store [] =
    Returned ((false, Some "something went wrong"), l',
              resp.MkClient ∅ 0 [] [resp.CGet "tenant"],
              ["FetchUserPlan:InvalidStatusCode: 503"]).
Proof.
  destruct (unresolved_plan_not_counted {| limiter.planProxy := sample.refused_proxy |}
              "tenant" sample.empty_store []
              {| http.StatusCode := 503; http.RespBody := "busy" |})
    as (l' & HL).
  - reflexivity.
  - reflexivity.
  - vm_compute. reflexivity.
  - intros req. reflexivity.
  - discriminate.
  - exists l'. exact HL.
Defined.

(** ** More on the response cache *)

Section cache_paths.

Import cache.

Context `{Codec}.

Lemma add_headers_calls (hs : http.Header) (w : http.ResponseWriter) :
  http.calls (add_headers hs w) = http.calls w.
Proof.
  unfold add_headers.
  apply (map_fold_weak_ind (fun r _ => http.calls r = http.calls w)); [reflexivity|].
  intros key values m r _ Hr. rewrite <- Hr. clear Hr.
  revert r. induction values as [|v values IH]; intros r; [reflexivity|].
  cbn [fold_left]. now rewrite IH.
Qed.

Lemma Get_issued (key : string) (c : resp.Client) :
  resp.issued (resp.Get key c).2 = (resp.issued c ++ [resp.CGet key])%list.
Proof.
  unfold resp.Get, resp.issue. destruct c as [st t [|[] fl] iss]; cbn;
    try reflexivity; destruct (resp.find _ _); reflexivity.
Qed.

Lemma Delete_issued (key : string) (c : resp.Client) :
  resp.issued (resp.Delete key c).2 = (resp.issued c ++ [resp.CDelete key])%list.
Proof.
  unfold resp.Delete, resp.issue. destruct c as [st t [|[] fl] iss]; reflexivity.
Qed.

Lemma ServeHTTP_hit (c : cache) (w : http.ResponseWriter)
    (req : http.Request) (next : http.Handler) (cl c1 : resp.Client)
    (log : list string) (data : string) (cached : CachedResponse) :
  resp.Get (url.Path (http.URL req)) cl = ((data, None), c1) ->
  data <> "" ->
  Decode data = (cached, None) ->
  ServeHTTP c w req next cl log =
    ({| http.header := http.header (add_headers (Headers cached) w);
        http.calls :=
          (http.calls w ++
             [http.WriteHeaderCall (StatusCode cached); http.WriteCall (Body cached)])%list |},
     c1, log).
Proof.
  intros HG Hne HD. unfold ServeHTTP. rewrite HG.
  apply String.eqb_neq in Hne. rewrite Hne. cbn [negb]. rewrite HD.
  cbn [http.Write http.WriteHeader http.ResponseWriter_Writer http.calls http.header].
  rewrite add_headers_calls, <- app_assoc. reflexivity.
Qed.

(** X9. A hit is answered from the store alone.  When the stored value
    decodes, [ServeHTTP] adds the stored headers to the writer, writes the
    stored status and the stored body once each, and stops: the store has
    received the one [Get], the log is untouched, and the result is the
    same whatever the upstream handler is. *)
Theorem hit_replays_stored_response (c : cache) (w : http.ResponseWriter)
    (req : http.Request) (next : http.Handler) (cl c1 : resp.Client)
    (log : list string) (data : string) (cached : CachedResponse) :
  resp.Get (url.Path (http.URL req)) cl = ((data, None), c1) ->
  data <> "" ->
  Decode data = (cached, None) ->
  ServeHTTP c w req next cl log =
    ({| http.header := http.header (add_headers (Headers cached) w);
        http.calls :=
          (http.calls w ++
             [http.WriteHeaderCall (StatusCode cached); http.WriteCall (Body cached)])%list |},
     c1, log) /\
  resp.issued c1 = (resp.issued cl ++ [resp.CGet (url.Path (http.URL req))])%list /\
  forall next' : http.Handler,
    ServeHTTP c w req next' cl log = ServeHTTP c w req next cl log.
Proof.
  intros HG Hne HD.
  pose proof (fun n => ServeHTTP_hit c w req n cl c1 log data cached HG Hne HD) as Hhit.
  split; [apply Hhit|]. split.
  - pose proof (Get_issued (url.Path (http.URL req)) cl) as Hi.
    rewrite HG in Hi. exact Hi.
  - intros next'. now rewrite !Hhit.
Qed.

(** X10. The commands [ServeHTTP] sends to the store: always the [Get] of
    the request path; then a [Delete] of that path exactly when the stored
    value is there and does not decode; then the [SetWithTTL] of the newly
    serialized response exactly when the request is not a hit. *)
Theorem store_traffic (c : cache) (w : http.ResponseWriter)
    (req : http.Request) (next : http.Handler) (cl : resp.Client)
    (log : list string) :
  resp.issued (ServeHTTP c w req next cl log).1.2 =
    (resp.issued cl ++
       resp.CGet (url.Path (http.URL req)) ::
       (if is_corrupted req cl then [resp.CDelete (url.Path (http.URL req))] else []) ++
       (if is_hit req cl then []
        else [resp.CSetWithTTL (url.Path (http.URL req))
                (Encode (envelope (recorded w req next))).1 (cacheExpiry c)]))%list.
Proof.
  unfold ServeHTTP, is_corrupted, is_hit.
  pose proof (Get_issued (url.Path (http.URL req)) cl) as HG.
  destruct (resp.Get _ cl) as [[data [e|]] c1]; cbn [snd] in HG.
  - destruct (serve_miss_store c w req next (url.Path (http.URL req)) c1 log) as [-> _].
    rewrite HG, <- app_assoc. reflexivity.
  - destruct (String.eqb data ""); cbn [negb andb].
    + destruct (serve_miss_store c w req next (url.Path (http.URL req)) c1 log) as [-> _].
      rewrite HG, <- app_assoc. reflexivity.
    + destruct (Decode data) as [r [e|]].
      * pose proof (Delete_issued (url.Path (http.URL req)) c1) as HD.
        destruct (resp.Delete _ c1) as [de c2]. cbn [snd] in HD.
        destruct (serve_miss_store c w req next (url.Path (http.URL req)) c2 log) as [-> _].
        rewrite HD, HG, <- !app_assoc. reflexivity.
      * cbn [fst snd]. rewrite HG, app_nil_r. reflexivity.
Qed.

(** X11. What a miss stores, the next request finds.  On a store that
    answers and has nothing live for the path, with a positive expiry and
    a codec that reads back the envelope it wrote as a non-empty value,
    the request is served from upstream and stored; until the expiry has
    passed every request for the path is a hit that receives the status
    and the body of that first response without the upstream handler, and
    from the expiry on the path is a miss again. *)
Theorem stored_response_served_until_expiry (c : cache) (w : http.ResponseWriter)
    (req : http.Request) (next : http.Handler) (cl : resp.Client)
    (log : list string) :
  resp.faults cl = [] ->
  resp.find (url.Path (http.URL req)) cl = None ->
  0 < cacheExpiry c ->
  (Encode (envelope (recorded w req next))).1 <> "" ->
  Decode (Encode (envelope (recorded w req next))).1 =
    (envelope (recorded w req next), None) ->
  (ServeHTTP c w req next cl log).1.1 = replayed w (recorded w req next) /\
  (forall (t : Z) (w2 : http.ResponseWriter) (next2 : http.Handler) (log2 : list string),
      t < resp.now cl + 1000 * cacheExpiry c ->
      is_hit req (resp.at_time t (ServeHTTP c w req next cl log).1.2) = true /\
      http.calls
        (ServeHTTP c w2 req next2
           (resp.at_time t (ServeHTTP c w req next cl log).1.2) log2).1.1 =
        (http.calls w2 ++
           [http.WriteHeaderCall (status (recorded w req next));
            http.WriteCall (body (recorded w req next))])%list) /\
  (forall t : Z,
      resp.now cl + 1000 * cacheExpiry c <= t ->
      is_hit req (resp.at_time t (ServeHTTP c w req next cl log).1.2) = false).
Proof.
  intros Hf Hfind Httl Hne Hrt.
  set (buffer := (Encode (envelope (recorded w req next))).1) in *.
  set (path := url.Path (http.URL req)) in *.
  assert (exists c3 log3,
             ServeHTTP c w req next cl log = (replayed w (recorded w req next), c3, log3) /\
             resp.faults c3 = [] /\
             resp.store c3 !! path =
               Some (resp.Entry buffer (Some (resp.now cl + 1000 * cacheExpiry c))))
    as (c3 & log3 & Hfirst & Hf3 & Hst3).
  { unfold ServeHTTP. fold path. rewrite (Get_answers path cl Hf), Hfind.
    cbn [String.eqb negb].
    pose proof (serve_miss_writer c w req next path
                  (resp.MkClient (resp.store cl) (resp.now cl) []
                     (resp.issued cl ++ [resp.CGet path])) log) as Hw.
    unfold serve_miss in *. fold buffer in Hw |- *.
    destruct (Encode (envelope (recorded w req next))) as [buf err] eqn:HE.
    cbn [fst] in buffer. subst buffer.
    unfold resp.SetWithTTL, resp.issue in *.
    cbn [resp.faults resp.store resp.now resp.issued resp.with_store] in *.
    replace (cacheExpiry c <=? 0) with false in * by (symmetry; apply Z.leb_gt; lia).
    cbn [fst] in Hw. eexists _, _. split; [rewrite <- Hw; reflexivity|].
    split; [reflexivity|]. cbn [resp.store]. apply lookup_insert_eq. }
  rewrite Hfirst. cbn [fst snd]. split; [reflexivity|]. split.
  - intros t w2 next2 log2 Ht.
    assert (resp.Get path (resp.at_time t c3) =
              ((buffer, None),
               resp.MkClient (resp.store c3) t [] (resp.issued c3 ++ [resp.CGet path])))
      as HG.
    { rewrite Get_answers by exact Hf3. unfold resp.find, resp.live.
      cbn [resp.store resp.now resp.at_time resp.issued]. rewrite Hst3.
      cbn [resp.deadline resp.value].
      replace (t <? resp.now cl + 1000 * cacheExpiry c) with true
        by (symmetry; apply Z.ltb_lt; lia).
      reflexivity. }
    split.
    + unfold is_hit. fold path. rewrite HG.
      apply String.eqb_neq in Hne. rewrite Hne, Hrt. reflexivity.
    + rewrite (ServeHTTP_hit c w2 req next2 (resp.at_time t c3) _ log2
                 buffer (envelope (recorded w req next)) HG Hne Hrt).
      reflexivity.
  - intros t Ht. unfold is_hit. fold path.
    rewrite Get_answers by exact Hf3. unfold resp.find, resp.live.
    cbn [resp.store resp.now resp.at_time]. rewrite Hst3. cbn [resp.deadline].
    replace (t <? resp.now cl + 1000 * cacheExpiry c) with false
      by (symmetry; apply Z.ltb_ge; lia).
    reflexivity.
Qed.

End cache_paths.

Lemma hit_replays_stored_response_witness :
  cache.ServeHTTP (cache.NewCache 60) sample.blank sample.resource_request
    (fun _ => [http.SendStatus 500; http.SendBody "not asked"])
    (resp.MkClient {[ "/resource/7" := resp.Entry "200:seven" None ]} 0 [] []) [] =
  ({| http.header := ∅;
      http.calls := [http.WriteHeaderCall 200; http.WriteCall "seven"] |},
   resp.MkClient {[ "/resource/7" := resp.Entry "200:seven" None ]} 0 []
     [resp.CGet "/resource/7"],
   []).
Proof.
  destruct (hit_replays_stored_response (cache.NewCache 60) sample.blank
              sample.resource_request
              (fun _ => [http.SendStatus 500; http.SendBody "not asked"])
              (resp.MkClient {[ "/resource/7" := resp.Entry "200:seven" None ]} 0 [] [])
              (resp.MkClient {[ "/resource/7" := resp.Entry "200:seven" None ]} 0 []
                 [resp.CGet "/resource/7"])
              [] "200:seven" (cache.MkCachedResponse 200 ∅ "seven"))
    as [Hhit _].
  - reflexivity.
  - discriminate.
  - reflexivity.
  - rewrite Hhit. reflexivity.
Defined.

Lemma stored_response_served_until_expiry_witness :
  cache.is_hit sample.resource_request
    (resp.at_time 59999
       (cache.ServeHTTP (cache.NewCache 60) sample.blank sample.resource_request
          sample.upstream sample.empty_store []).1.2) = true /\
  cache.is_hit sample.resource_request
    (resp.at_time 60000
       (cache.ServeHTTP (cache.NewCache 60) sample.blank sample.resource_request
          sample.upstream sample.empty_store []).1.2) = false.
Proof.
  destruct (stored_response_served_until_expiry (cache.NewCache 60) sample.blank
              sample.resource_request sample.upstream sample.empty_store [])
    as (_ & Hhit & Hmiss).
  - reflexivity.
  - reflexivity.
  - reflexivity.
  - vm_compute. discriminate.
  - reflexivity.
  - split.
    + apply (Hhit 59999 sample.blank sample.upstream []). reflexivity.
    + apply (Hmiss 60000). cbn. lia.
Defined.

Section cache_key.

Import cache.

Context `{Codec}.

(** X25. The cache tells requests apart by their path alone.  When a
    request is a hit, every request with the same path is a hit as well,
    whatever its method, query, headers and body, and receives the same
    stored response, with the same effect on the store. *)
Theorem cache_key_is_path (c : cache) (w : http.ResponseWriter)
    (req req' : http.Request) (next next' : http.Handler) (cl : resp.Client)
    (log : list string) :
  url.Path (http.URL req') = url.Path (http.URL req) ->
  is_hit req cl = true ->
  is_hit req' cl = true /\
  ServeHTTP c w req' next' cl log = ServeHTTP c w req next cl log.
Proof.
  intros Hp Hh. split.
  - unfold is_hit in *. now rewrite Hp.
  - revert Hh. unfold is_hit, ServeHTTP. rewrite Hp.
    destruct (resp.Get _ cl) as [[data [e|]] c1]; [discriminate|].
    destruct (String.eqb data ""); cbn [negb andb]; [discriminate|].
    destruct (Decode data) as [r [e|]]; [discriminate|]. reflexivity.
Qed.

End cache_key.

Lemma cache_key_is_path_witness :
  cache.ServeHTTP (cache.NewCache 60) sample.blank
    {| http.Method := "DELETE";
       http.URL := url.MkURL "http" "api.internal" "/resource/7" "force=1";
       http.Header_ := ∅;
       http.Body := io.of_bytes "" |}
    (fun _ => [http.SendStatus 204]) 
    (resp.MkClient {[ "/resource/7" := resp.Entry "200:seven" None ]} 0 [] []) [] =
  cache.ServeHTTP (cache.NewCache 60) sample.blank sample.resource_request
    sample.upstream
    (resp.MkClient {[ "/resource/7" := resp.Entry "200:seven" None ]} 0 [] []) [].
Proof.
  apply (cache_key_is_path (cache.NewCache 60) sample.blank sample.resource_request).
  - reflexivity.
  - vm_compute. reflexivity.
Defined.

(** ** More on the activity recorder *)

Section offering.

Import activity.

Lemma with_queue_twice (q1 q2 : list activityRequestDto) (a : activity) :
  with_queue q2 (with_queue q1 a) = with_queue q2 a.
Proof. reflexivity. Qed.

Lemma offer_result (records : list activityRequestDto) :
  forall (a : activity) (log : list string),
    Z.of_nat (length (queue (logsChannel a))) <= capacity (logsChannel a) ->
    offer records a log =
      (match take (Z.to_nat (capacity (logsChannel a)) - length (queue (logsChannel a)))
               records with
       | [] => a
       | kept => with_queue (queue (logsChannel a) ++ kept) a
       end,
       (log ++
          repeat dropped_warning
            (length records -
             (Z.to_nat (capacity (logsChannel a)) - length (queue (logsChannel a)))))%list).
Proof.
  induction records as [|r records IH]; intros a log Hle.
  - cbn [offer take length repeat]. rewrite take_nil, app_nil_r. reflexivity.
  - cbn [offer]. unfold LogActivity.
    destruct (Z.ltb_spec (Z.of_nat (length (queue (logsChannel a))))
                (capacity (logsChannel a))) as [Hlt|Hge].
    + destruct r as [rid cnt]. cbn [RequestId Count].
      rewrite IH by (cbn; rewrite length_app; cbn; lia).
      cbn [logsChannel with_queue capacity queue].
      rewrite length_app. cbn [length].
      replace (Z.to_nat (capacity (logsChannel a)) - length (queue (logsChannel a)))%nat
        with (S (Z.to_nat (capacity (logsChannel a)) -
                 (length (queue (logsChannel a)) + 1)))%nat by lia.
      cbn [take].
      replace (S (length records) -
               S (Z.to_nat (capacity (logsChannel a)) -
                  (length (queue (logsChannel a)) + 1)))%nat
        with (length records -
              (Z.to_nat (capacity (logsChannel a)) -
               (length (queue (logsChannel a)) + 1)))%nat by lia.
      f_equal.
      destruct (take _ records) as [|k kept].
      * reflexivity.
      * rewrite with_queue_twice, <- app_assoc. reflexivity.
    + replace (Z.to_nat (capacity (logsChannel a)) - length (queue (logsChannel a)))%nat
        with 0%nat in * by lia.
      specialize (IH a (log ++ [dropped_warning])%list Hle).
      replace (Z.to_nat (capacity (logsChannel a)) - length (queue (logsChannel a)))%nat
        with 0%nat in IH by lia.
      rewrite IH. cbn [take]. rewrite !Nat.sub_0_r. cbn [length repeat].
      rewrite <- app_assoc. reflexivity.
Qed.

(** X12. Records offered in a row to a recorder whose buffer holds
    [length q] of its [capacity] places: the first [capacity - length q]
    of them join the queue in their order, every other one is dropped and
    costs one warning in the log, and the capacity stays what it was. *)
Theorem offer_fills_then_drops (records : list activityRequestDto)
    (a : activity) (log : list string) :
  Z.of_nat (length (queue (logsChannel a))) <= capacity (logsChannel a) ->
  queue (logsChannel (offer records a log).1) =
    (queue (logsChannel a) ++
       take (Z.to_nat (capacity (logsChannel a)) - length (queue (logsChannel a)))
         records)%list /\
  (offer records a log).2 =
    (log ++
       repeat dropped_warning
         (length records -
          (Z.to_nat (capacity (logsChannel a)) - length (queue (logsChannel a)))))%list /\
  capacity (logsChannel (offer records a log).1) = capacity (logsChannel a).
Proof.
  intros Hle. rewrite (offer_result records a log Hle). cbn [fst snd].
  destruct (take _ records) as [|k kept]; cbn; rewrite ?app_nil_r; auto.
Qed.

End offering.

Lemma offer_fills_then_drops_witness :
  activity.queue
    (activity.logsChannel
       (activity.offer
          [activity.MkActivityRequestDto "a" 1; activity.MkActivityRequestDto "b" 2;
           activity.MkActivityRequestDto "c" 3]
          (activity.with_queue (repeat (activity.MkActivityRequestDto "x" 1) 6)
             sample.recorder) []).1) =
    (repeat (activity.MkActivityRequestDto "x" 1) 6 ++
       [activity.MkActivityRequestDto "a" 1; activity.MkActivityRequestDto "b" 2])%list /\
  (activity.offer
     [activity.MkActivityRequestDto "a" 1; activity.MkActivityRequestDto "b" 2;
      activity.MkActivityRequestDto "c" 3]
     (activity.with_queue (repeat (activity.MkActivityRequestDto "x" 1) 6)
        sample.recorder) []).2 = [activity.dropped_warning].
Proof.
  destruct (offer_fills_then_drops
              [activity.MkActivityRequestDto "a" 1; activity.MkActivityRequestDto "b" 2;
               activity.MkActivityRequestDto "c" 3]
              (activity.with_queue (repeat (activity.MkActivityRequestDto "x" 1) 6)
                 sample.recorder) [])
    as (Hq & Hlog & _).
  - cbn. lia.
  - split; [exact Hq | exact Hlog].
Defined.

Section batching.

Import activity.

Context `{url.Lib} `{BatchEncoder}.

Lemma handle_batchSize (e : event) (s s' : processor) :
  handle e s = Some (Returned s') -> batchSize (self s') = batchSize (self s).
Proof.
  destruct e as [requestId count|t|[|]]; cbn [handle].
  - unfold LogActivity. destruct (_ <? _); now intros [= <-].
  - now intros [= <-].
  - unfold iteration.
    destruct (queue (logsChannel (self s))) as [|x rest]; [discriminate|].
    destruct (_ <=? _); [destruct (FlushLogs _ _ _); [|discriminate]|];
      now intros [= <-].
  - unfold iteration. destruct (_ && _); [|discriminate].
    destruct (_ <? _); [destruct (FlushLogs _ _ _); [|discriminate]|];
      now intros [= <-].
Qed.

(** One event keeps the records the batcher holds in their order; only a
    producer adds one, at the end. *)
Lemma handle_backlog (e : event) (s s' : processor) :
  handle e s = Some (Returned s') ->
  backlog s' = backlog s \/
  exists requestId count,
    e = Record_ requestId count /\
    backlog s' = (backlog s ++ [MkActivityRequestDto requestId count])%list.
Proof.
  destruct e as [requestId count|t|[|]]; cbn [handle].
  - unfold LogActivity, backlog. destruct (_ <? _); intros [= <-]; cbn.
    + right. exists requestId, count. split; [reflexivity|]. now rewrite !app_assoc.
    + now left.
  - intros [= <-]. now left.
  - unfold iteration, backlog.
    destruct (queue (logsChannel (self s))) as [|x rest] eqn:Hq; [discriminate|].
    destruct (_ <=? _).
    + destruct (FlushLogs _ _ _) as [log1|]; [|discriminate].
      intros [= <-]. left. cbn. rewrite map_app, concat_app. cbn.
      rewrite app_nil_r, <- !app_assoc. reflexivity.
    + intros [= <-]. left. cbn. now rewrite <- !app_assoc.
  - unfold iteration, backlog. destruct (_ && _); [|discriminate].
    destruct (_ <? _).
    + destruct (FlushLogs _ _ _) as [log1|]; [|discriminate].
      intros [= <-]. left. cbn. rewrite map_app, concat_app. cbn.
      rewrite app_nil_r, <- !app_assoc. reflexivity.
    + intros [= <-]. now left.
Qed.

(** One event hands at most one batch to [FlushLogs], never an empty one,
    and keeps the batch below a batch size of 1 or more. *)
Lemma handle_flushed (e : event) (s s' : processor) :
  handle e s = Some (Returned s') ->
  1 <= batchSize (self s) ->
  Z.of_nat (length (batch s)) < batchSize (self s) ->
  Z.of_nat (length (batch s')) < batchSize (self s) /\
  (flushed s' = flushed s \/
   exists b, flushed s' = (flushed s ++ [(now s, b)])%list /\
             1 <= Z.of_nat (length b) <= batchSize (self s)).
Proof.
  intros Hh Hsize Hlt. revert Hh.
  destruct e as [requestId count|t|[|]]; cbn [handle].
  - unfold LogActivity. destruct (_ <? _); intros [= <-]; cbn; auto.
  - intros [= <-]; cbn; auto.
  - unfold iteration.
    destruct (queue (logsChannel (self s))) as [|x rest] eqn:Hq; [discriminate|].
    cbn [batchSize with_queue].
    destruct (Z.leb_spec (batchSize (self s)) (Z.of_nat (length (batch s ++ [x]))))
      as [Hfull|Hroom].
    + destruct (FlushLogs _ _ _) as [log1|]; [|discriminate].
      intros [= <-]. cbn [batch flushed length]. split; [lia|].
      right. eexists. split; [reflexivity|].
      rewrite length_app in *. cbn [length] in *. lia.
    + intros [= <-]. cbn [batch flushed]. split; [lia|now left].
  - unfold iteration. destruct (_ && _); [|discriminate].
    destruct (Z.ltb_spec 0 (Z.of_nat (length (batch s)))) as [Hsome|Hnone].
    + destruct (FlushLogs _ _ _) as [log1|]; [|discriminate].
      intros [= <-]. cbn [batch flushed length]. split; [lia|].
      right. eexists. split; [reflexivity|]. lia.
    + intros [= <-]. cbn [batch flushed]. split; [lia|now left].
Qed.

(** X13. The batcher neither invents, nor repeats, nor reorders a record.
    After any run that does not end in a panic, the records handed to
    [FlushLogs], followed by the batch and by the queue of the channel, are
    those there were before the run followed by some of the records the
    producers offered during the run, all in their order; a record is in
    one flushed batch at most. *)
Theorem records_kept_in_order (es : list event) :
  forall s s' : processor,
    run es s = Some (Returned s') ->
    exists kept,
      backlog s' = (backlog s ++ kept)%list /\ kept `sublist_of` offered es.
Proof.
  induction es as [|e es IH]; intros s s'; cbn [run].
  - intros [= <-]. exists []. rewrite app_nil_r. split; [reflexivity|constructor].
  - destruct (handle e s) as [[s1|]|] eqn:Hh; [|discriminate..].
    intros Hrun. destruct (IH s1 s' Hrun) as (kept & Hb & Hsub).
    destruct (handle_backlog e s s1 Hh) as [Hsame | (rid & cnt & -> & Hadd)].
    + exists kept. rewrite Hb, Hsame. split; [reflexivity|].
      destruct e as [? ?|?|?]; cbn [offered]; [apply sublist_cons|..]; exact Hsub.
    + exists (MkActivityRequestDto rid cnt :: kept).
      rewrite Hb, Hadd, <- app_assoc. split; [reflexivity|].
      cbn [offered]. now apply sublist_skip.
Qed.

(** X14. With a batch size of at least 1 and a batch that starts below it,
    every batch handed to [FlushLogs] during a run holds at least one
    record and at most [batchSize], and the batch kept between two turns
    stays below [batchSize]. *)
Theorem flushed_batches_sized (es : list event) :
  forall s s' : processor,
    run es s = Some (Returned s') ->
    1 <= batchSize (self s) ->
    Z.of_nat (length (batch s)) < batchSize (self s) ->
    exists new,
      flushed s' = (flushed s ++ new)%list /\
      Forall (fun tb => 1 <= Z.of_nat (length tb.2) <= batchSize (self s)) new /\
      Z.of_nat (length (batch s')) < batchSize (self s).
Proof.
  induction es as [|e es IH]; intros s s'; cbn [run].
  - intros [= <-] _ Hlt. exists []. rewrite app_nil_r. auto.
  - destruct (handle e s) as [[s1|]|] eqn:Hh; [|discriminate..].
    intros Hrun Hsize Hlt.
    pose proof (handle_batchSize e s s1 Hh) as Hbs.
    destruct (handle_flushed e s s1 Hh Hsize Hlt) as [Hlt1 Hflush].
    destruct (IH s1 s' Hrun) as (new & Hf & Hall & Hb); [lia|lia|].
    rewrite Hbs in *.
    destruct Hflush as [Hsame | (b & Hnew & Hsized)].
    + exists new. rewrite Hf, Hsame. auto.
    + exists ((now s, b) :: new). rewrite Hf, Hnew, <- app_assoc.
      split; [reflexivity|]. split; [|exact Hb].
      constructor; [exact Hsized|exact Hall].
Qed.

(** [FlushLogs] when the collector's side of the network hands back a
    response without an error: a line in the log unless the status is 200. *)
Lemma FlushLogs_answered (a : activity) (b : list activityRequestDto)
    (log : list string) (answer : http.Response) :
  (url.Parse (remoteAddress a)).2 = None ->
  (Encode b).2 = None ->
  (forall req, http.Do (client a) req = (Some answer, None)) ->
  FlushLogs a b log =
    Returned
      (if http.StatusCode answer =? http.StatusOK then log
       else (log ++ ["unexpected status code: " +:+
                     strconv.Itoa (http.StatusCode answer) +:+
                     ", body: " +:+ http.RespBody answer])%list).
Proof.
  intros HP HE HDo. unfold FlushLogs, http.NewRequest.
  destruct (Encode b) as [buffer [e|]]; [discriminate|].
  rewrite validMethod_POST. cbn [negb].
  destruct (url.Parse _) as [u [e|]]; [discriminate|].
  rewrite HDo. destruct (_ =? _); reflexivity.
Qed.

(** [FlushLogs] when the transport fails. *)
Lemma FlushLogs_unreachable (a : activity) (b : list activityRequestDto)
    (log : list string) (e : string) :
  (url.Parse (remoteAddress a)).2 = None ->
  (Encode b).2 = None ->
  (forall req, http.Do (client a) req = (None, Some e)) ->
  FlushLogs a b log = Panicked nil_dereference.
Proof.
  intros HP HE HDo. unfold FlushLogs, http.NewRequest.
  destruct (Encode b) as [buffer [e'|]]; [discriminate|].
  rewrite validMethod_POST. cbn [negb].
  destruct (url.Parse _) as [u [e'|]]; [discriminate|].
  rewrite HDo. reflexivity.
Qed.

(** X15. A batch the collector refuses is not sent again.  When the
    collector answers a flush with a status other than 200, the turn that
    flushed returns, the answer is logged in one line, and the batch is
    empty afterwards: the records of the refused batch are in the record
    of flushes and nowhere in the batcher. *)
Theorem refused_batch_is_dropped (s : processor) (k : select_case)
    (answer : http.Response) :
  flushes k s = true ->
  (url.Parse (remoteAddress (self s))).2 = None ->
  (forall b, (Encode b).2 = None) ->
  (forall req, http.Do (client (self s)) req = (Some answer, None)) ->
  http.StatusCode answer <> http.StatusOK ->
  exists s' b,
    iteration k s = Some (Returned s') /\
    batch s' = [] /\
    flushed s' = (flushed s ++ [(now s, b)])%list /\
    (b ++ queue (logsChannel (self s')) =
       batch s ++ queue (logsChannel (self s)))%list /\
    log s' =
      (log s ++ ["unexpected status code: " +:+
                 strconv.Itoa (http.StatusCode answer) +:+
                 ", body: " +:+ http.RespBody answer])%list.
Proof.
  intros Hfl HP HE HDo Hs. apply Z.eqb_neq in Hs.
  destruct k; cbn [flushes] in Hfl; unfold iteration.
  - destruct (queue (logsChannel (self s))) as [|x rest] eqn:Hq; [discriminate|].
    cbn [batchSize with_queue]. rewrite length_app. cbn [length].
    replace (Z.of_nat (length (batch s) + 1)) with (Z.of_nat (length (batch s)) + 1)
      by lia.
    rewrite Hfl, (FlushLogs_answered _ _ _ answer) by (cbn; auto). rewrite Hs.
    eexists _, _. split; [reflexivity|]. cbn. repeat split.
    now rewrite <- app_assoc.
  - apply andb_true_iff in Hfl as [Hready Hsome]. cbn [ready] in Hready.
    rewrite Hready, Hsome, (FlushLogs_answered _ _ _ answer) by auto. rewrite Hs.
    eexists _, _. split; [reflexivity|]. cbn. repeat split.
Qed.

(** X16. With the collector out of reach the batcher does not survive its
    first flush: the turn that calls [FlushLogs], by size or on the timer,
    ends in the panic of the nil response. *)
Theorem batcher_panics_when_collector_is_down (s : processor) (k : select_case)
    (e : string) :
  flushes k s = true ->
  (url.Parse (remoteAddress (self s))).2 = None ->
  (forall b, (Encode b).2 = None) ->
  (forall req, http.Do (client (self s)) req = (None, Some e)) ->
  iteration k s = Some (Panicked nil_dereference).
Proof.
  intros Hfl HP HE HDo.
  destruct k; cbn [flushes] in Hfl; unfold iteration.
  - destruct (queue (logsChannel (self s))) as [|x rest] eqn:Hq; [discriminate|].
    cbn [batchSize with_queue]. rewrite length_app. cbn [length].
    replace (Z.of_nat (length (batch s) + 1)) with (Z.of_nat (length (batch s)) + 1)
      by lia.
    rewrite Hfl, (FlushLogs_unreachable _ _ _ e) by (cbn; auto). reflexivity.
  - apply andb_true_iff in Hfl as [Hready Hsome]. cbn [ready] in Hready.
    rewrite Hready, Hsome, (FlushLogs_unreachable _ _ _ e) by auto. reflexivity.
Qed.

Lemma handle_keeps_timer (ev : event) (s s' : processor) :
  handle ev s = Some (Returned s') ->
  is_tick ev = false ->
  flushTimer s' = flushTimer s /\ flushInterval (self s') = flushInterval (self s).
Proof.
  destruct ev as [requestId count|t|[|]]; cbn [handle is_tick]; try discriminate.
  - unfold LogActivity. destruct (_ <? _); now intros [= <-].
  - now intros [= <-].
  - unfold iteration.
    destruct (queue (logsChannel (self s))) as [|x rest]; [discriminate|].
    destruct (_ <=? _); [destruct (FlushLogs _ _ _); [|discriminate]|];
      now intros [= <-].
Qed.

Lemma run_keeps_timer (es : list event) :
  forall s s' : processor,
    run es s = Some (Returned s') ->
    forallb (fun ev => negb (is_tick ev)) es = true ->
    flushTimer s' = flushTimer s.
Proof.
  induction es as [|ev es IH]; intros s s'; cbn [run forallb].
  - now intros [= <-].
  - destruct (handle ev s) as [[s1|]|] eqn:Hh; [|discriminate..].
    intros Hrun Hno. apply andb_true_iff in Hno as [Hev Hes].
    apply negb_true_iff in Hev.
    rewrite (IH s1 s' Hrun Hes). now apply (handle_keeps_timer ev s s1).
Qed.

(** X17. Two turns on the timer are at least one interval apart.  After a
    turn taken on the timer at time [now s], whatever producers and
    receive turns follow and however the clock moves, the timer case is
    ready again only once the clock has reached [now s] plus the flush
    interval. *)
Theorem timer_turns_an_interval_apart (s s1 s2 : processor) (es : list event) :
  iteration Tick s = Some (Returned s1) ->
  forallb (fun ev => negb (is_tick ev)) es = true ->
  run es s1 = Some (Returned s2) ->
  ready Tick s2 = true ->
  now s + flushInterval (self s) * Second <= now s2.
Proof.
  intros Htick Hno Hrun Hready.
  assert (flushTimer s1 = NewTimer (now s) (flushInterval (self s) * Second)) as Ht.
  { revert Htick. unfold iteration. destruct (_ && _); [|discriminate].
    destruct (_ <? _); [destruct (FlushLogs _ _ _); [|discriminate]|];
      now intros [= <-]. }
  rewrite <- (run_keeps_timer es s1 s2 Hrun Hno) in Ht.
  cbn [ready] in Hready. rewrite Ht in Hready. cbn in Hready.
  now apply Z.leb_le in Hready.
Qed.

End batching.

Lemma records_kept_in_order_witness :
  exists s' kept,
    activity.run (sample.ninth_second ++ sample.tenth_second)
      (activity.start sample.recorder 0 []) = Some (Returned s') /\
    activity.backlog s' = kept /\
    kept `sublist_of`
      [activity.MkActivityRequestDto "a" 1; activity.MkActivityRequestDto "b" 1;
       activity.MkActivityRequestDto "c" 1].
Proof.
  assert (exists s', activity.run (sample.ninth_second ++ sample.tenth_second)
                       (activity.start sample.recorder 0 []) = Some (Returned s'))
    as [s' Hrun] by (eexists; vm_compute; reflexivity).
  destruct (records_kept_in_order _ _ _ Hrun) as (kept & Hb & Hsub).
  exists s', kept. split; [exact Hrun|]. split; [exact Hb | exact Hsub].
Defined.

Lemma flushed_batches_sized_witness :
  exists s' new,
    activity.run (sample.ninth_second ++ sample.tenth_second)
      (activity.start sample.recorder 0 []) = Some (Returned s') /\
    activity.flushed s' = new /\
    Forall (fun tb => 1 <= Z.of_nat (length tb.2) <= 2) new.
Proof.
  assert (exists s', activity.run (sample.ninth_second ++ sample.tenth_second)
                       (activity.start sample.recorder 0 []) = Some (Returned s'))
    as [s' Hrun] by (eexists; vm_compute; reflexivity).
  destruct (flushed_batches_sized _ _ _ Hrun) as (new & Hf & Hall & _).
  - cbn. lia.
  - cbn. lia.
  - exists s', new. split; [exact Hrun|]. split; [exact Hf | exact Hall].
Defined.

Lemma refused_batch_is_dropped_witness :
  exists s' b,
    activity.iteration activity.Receive (sample.about_to_flush sample.refusing) =
      Some (Returned s') /\
    activity.batch s' = [] /\
    activity.flushed s' = [(9000, b)] /\
    activity.log s' = ["unexpected status code: 503, body: busy"].
Proof.
  destruct (refused_batch_is_dropped (sample.about_to_flush sample.refusing)
              activity.Receive {| http.StatusCode := 503; http.RespBody := "busy" |})
    as (s' & b & Hit & Hbatch & Hfl & _ & Hlog).
  - reflexivity.
  - reflexivity.
  - intros b. reflexivity.
  - intros req. reflexivity.
  - discriminate.
  - exists s', b. repeat split; assumption.
Defined.

Lemma batcher_panics_when_collector_is_down_witness :
  activity.iteration activity.Receive (sample.about_to_flush sample.unreachable) =
    Some (Panicked activity.nil_dereference).
Proof.
  apply (batcher_panics_when_collector_is_down
           (sample.about_to_flush sample.unreachable) activity.Receive
           "dial tcp: connection refused").
  - reflexivity.
  - reflexivity.
  - intros b. reflexivity.
  - intros req. reflexivity.
Defined.

Lemma timer_turns_an_interval_apart_witness : 10000 + 10 * activity.Second <= 20000.
Proof.
  apply (timer_turns_an_interval_apart
           {| activity.self := sample.recorder;
              activity.batch := [];
              activity.flushTimer := activity.NewTimer 0 10000;
              activity.now := 10000;
              activity.log := [];
              activity.flushed := [] |}
           {| activity.self := sample.recorder;
              activity.batch := [];
              activity.flushTimer := activity.NewTimer 10000 10000;
              activity.now := 10000;
              activity.log := [];
              activity.flushed := [] |}
           {| activity.self :=
                activity.with_queue [activity.MkActivityRequestDto "a" 1] sample.recorder;
              activity.batch := [];
              activity.flushTimer := activity.NewTimer 10000 10000;
              activity.now := 20000;
              activity.log := [];
              activity.flushed := [] |}
           [activity.Record_ "a" 1; activity.Clock 20000]).
  - reflexivity.
  - reflexivity.
  - reflexivity.
  - reflexivity.
Defined.

(** ** More on the gatekeeper *)

Section construction_more.

Import crossover.

Context `{regexp.Lib} `{url.Lib}.

Lemma New_checks_passed (next : http.Handler) (config : Config) (name : string)
    (network : http.Request -> option http.Response * error) :
  ~ missing_checked config ->
  New next config name network =
    match regexp.MustCompile (Pattern config) with
    | Panicked r => Panicked r
    | Returned compiledPattern =>
        match activity.NewActivity (ActivityAddress config) (APIKey config)
                (BufferSize config) (BatchSize config) (FlushInterval config)
                network with
        | Panicked r => Panicked r
        | Returned newActivity =>
            match limiter.NewLimiter (APIKey config) (PlanAddress config) network with
            | Panicked r => Panicked r
            | Returned newLimiterService =>
                Returned
                  (Some {| next := next;
                           name := name;
                           compiledPattern := compiledPattern;
                           apiKey := APIKey config;
                           planAddress := PlanAddress config;
                           redisAddress := RedisAddress config;
                           redisAuth := "";
                           cacheExpiry := CacheExpiry config;
                           activityService := newActivity;
                           cacheService := cache.NewCache (CacheExpiry config);
                           limiterService := newLimiterService |},
                   None)
            end
        end
    end.
Proof.
  unfold missing_checked, New. intros Hok.
  destruct (io.len (Pattern config) =? 0) eqn:E1; [apply len_zero in E1; tauto|].
  destruct (io.len (APIKey config) =? 0) eqn:E2; [apply len_zero in E2; tauto|].
  destruct (io.len (ActivityAddress config) =? 0) eqn:E3; [apply len_zero in E3; tauto|].
  destruct (io.len (PlanAddress config) =? 0) eqn:E4; [apply len_zero in E4; tauto|].
  destruct (io.len (RedisAddress config) =? 0) eqn:E5; [apply len_zero in E5; tauto|].
  destruct (Z.eqb_spec (CacheExpiry config) 0); [tauto|].
  destruct (Z.eqb_spec (BufferSize config) 0); [tauto|].
  destruct (Z.eqb_spec (BatchSize config) 0); [tauto|].
  destruct (Z.eqb_spec (FlushInterval config) 0); [tauto|].
  reflexivity.
Qed.

(** X18. What a handler built by [New] carries.  Its pattern is the
    compiled pattern of the configuration, its recorder has an empty queue
    of a positive capacity equal to the configured buffer size and the
    configured batch size and flush interval, its cache the configured
    expiry, its plan proxy the configured API key, and its store address
    is the configured one; but its store credentials are empty whatever
    the configuration gives. *)
Theorem New_handler (next : http.Handler) (config : Config) (name : string)
    (network : http.Request -> option http.Response * error) (h : Crossover) :
  New next config name network = Returned (Some h, None) ->
  redisAuth h = "" /\
  redisAddress h = RedisAddress config /\
  regexp.Compile (Pattern config) = Some (compiledPattern h) /\
  activity.queue (activity.logsChannel (activityService h)) = [] /\
  activity.capacity (activity.logsChannel (activityService h)) = BufferSize config /\
  0 < BufferSize config /\
  activity.batchSize (activityService h) = BatchSize config /\
  activity.flushInterval (activityService h) = FlushInterval config /\
  cache.cacheExpiry (cacheService h) = CacheExpiry config /\
  limiter.apiKey (limiter.planProxy (limiterService h)) = APIKey config /\
  (url.Parse (PlanAddress config)).2 = None.
Proof.
  intros HN.
  assert (~ missing_checked config) as Hok.
  { intros Hm.
    revert HN. unfold missing_checked, New in *.
    destruct (io.len (Pattern config) =? 0) eqn:E1; [discriminate|apply len_nonzero in E1].
    destruct (io.len (APIKey config) =? 0) eqn:E2; [discriminate|apply len_nonzero in E2].
    destruct (io.len (ActivityAddress config) =? 0) eqn:E3;
      [discriminate|apply len_nonzero in E3].
    destruct (io.len (PlanAddress config) =? 0) eqn:E4;
      [discriminate|apply len_nonzero in E4].
    destruct (io.len (RedisAddress config) =? 0) eqn:E5;
      [discriminate|apply len_nonzero in E5].
    destruct (Z.eqb_spec (CacheExpiry config) 0); [discriminate|].
    destruct (Z.eqb_spec (BufferSize config) 0); [discriminate|].
    destruct (Z.eqb_spec (BatchSize config) 0); [discriminate|].
    destruct (Z.eqb_spec (FlushInterval config) 0); [discriminate|].
    tauto. }
  rewrite (New_checks_passed next config name network Hok) in HN.
  assert (BufferSize config <> 0) as Hnz by (unfold missing_checked in Hok; tauto).
  unfold regexp.MustCompile, activity.NewActivity, limiter.NewLimiter,
    limiter.NewPlanProxy in HN.
  destruct (regexp.Compile (Pattern config)) as [re|]; [|discriminate].
  destruct (Z.ltb_spec (BufferSize config) 0); [discriminate|].
  destruct (url.Parse (PlanAddress config)) as [u [e|]]; [discriminate|].
  injection HN as <-. cbn. repeat split; try reflexivity. lia.
Qed.

(** X19. Once its nine checks have passed, [New] has no error left to
    return: it panics when the pattern does not compile, when the buffer
    size is negative or when the plan address does not parse, and in every
    other case returns a handler. *)
Theorem New_panics_or_builds (next : http.Handler) (config : Config) (name : string)
    (network : http.Request -> option http.Response * error) :
  ~ missing_checked config ->
  ((regexp.Compile (Pattern config) = None \/ BufferSize config < 0 \/
    (url.Parse (PlanAddress config)).2 <> None) ->
   exists r, New next config name network = Panicked r) /\
  (~ (regexp.Compile (Pattern config) = None \/ BufferSize config < 0 \/
      (url.Parse (PlanAddress config)).2 <> None) ->
   exists h, New next config name network = Returned (Some h, None)).
Proof.
  intros Hok. rewrite (New_checks_passed next config name network Hok).
  unfold regexp.MustCompile, activity.NewActivity, limiter.NewLimiter,
    limiter.NewPlanProxy.
  destruct (regexp.Compile (Pattern config)) as [re|].
  2:{ split; [eauto|]. intros Hn. exfalso. apply Hn. now left. }
  destruct (Z.ltb_spec (BufferSize config) 0).
  { split; [eauto|]. intros Hn. exfalso. apply Hn. right. now left. }
  destruct (url.Parse (PlanAddress config)) as [u [e|]]; cbn [snd].
  { split; [eauto|]. intros Hn. exfalso. apply Hn. right. right. discriminate. }
  split; [|eauto].
  intros [Hc | [Hb | Hp]]; [discriminate | lia | congruence].
Qed.

End construction_more.

Lemma New_handler_witness :
  exists h,
    crossover.New sample.upstream
      (crossover.with_RedisAuth "s3cret" sample.open_store_config)
      "crossover" sample.unreachable = Returned (Some h, None) /\
    crossover.redisAuth h = "".
Proof.
  assert (exists h,
             crossover.New sample.upstream
               (crossover.with_RedisAuth "s3cret" sample.open_store_config)
               "crossover" sample.unreachable = Returned (Some h, None))
    as [h Hh] by (eexists; vm_compute; reflexivity).
  exists h. split; [exact Hh|].
  apply (New_handler _ _ _ _ _ Hh).
Defined.

Lemma New_panics_or_builds_witness :
  exists r,
    crossover.New sample.upstream
      {| crossover.Pattern := "/v1/accounts/";
         crossover.APIKey := "secret";
         crossover.ActivityAddress := "http://collector.internal/activity";
         crossover.PlanAddress := "http://plans.internal/v1/plan";
         crossover.RedisAddress := "redis.internal:6379";
         crossover.RedisAuth := "";
         crossover.CacheExpiry := 60;
         crossover.BufferSize := -1;
         crossover.BatchSize := 2;
         crossover.FlushInterval := 10 |}
      "crossover" sample.unreachable = Panicked r.
Proof.
  apply (New_panics_or_builds sample.upstream
           {| crossover.Pattern := "/v1/accounts/";
              crossover.APIKey := "secret";
              crossover.ActivityAddress := "http://collector.internal/activity";
              crossover.PlanAddress := "http://plans.internal/v1/plan";
              crossover.RedisAddress := "redis.internal:6379";
              crossover.RedisAuth := "";
              crossover.CacheExpiry := 60;
              crossover.BufferSize := -1;
              crossover.BatchSize := 2;
              crossover.FlushInterval := 10 |}
           "crossover" sample.unreachable).
  - unfold crossover.missing_checked. cbn.
    intros [E|[E|[E|[E|[E|[E|[E|[E|E]]]]]]]]; discriminate E.
  - right. left. cbn. lia.
Defined.

Section serving.

Import crossover.

Context `{uuid.Lib} `{url.Lib} `{limiter.PlanDecoder} `{ArrayDecoder} `{cache.Codec}.

Lemma Limit_refuses_with_error (l l' : limiter.limiter) (userId : string)
    (c c' : resp.Client) (log log' : list string) :
  limiter.Limit l userId c log <> Returned ((false, None), l', c', log').
Proof.
  unfold limiter.Limit.
  destruct (limiter.getUserPlan l c userId log) as [[[[[n [e|]] l1] c1] log1]|];
    [discriminate| |discriminate].
  destruct (limiter.allow c1 userId n) as [[b [e|]] c2]; [discriminate|].
  destruct b; discriminate.
Qed.

(** What [cloneRequest] hands on when it returns no error. *)
Lemma cloneRequest_onward (req req1 : http.Request) (log log1 : list string)
    (cl : option http.Request) :
  cloneRequest req log = ((cl, None), req1, log1) ->
  req1 = http.with_Body
           (io.of_bytes (io.take MaxRequestBodySize (io.pending (http.Body req)))) req /\
  cl = Some req1 /\ log1 = log.
Proof.
  unfold cloneRequest, io.CopyN.
  destruct (Z.leb_spec MaxRequestBodySize (io.len (io.pending (http.Body req)))).
  - intros [= <- <- <-]. auto.
  - destruct (io.failure (http.Body req)); [discriminate|].
    intros [= <- <- <-]. rewrite take_all by lia. auto.
Qed.

Lemma cloneRequest_error (req req1 : http.Request) (log log1 : list string)
    (cl : option http.Request) (e : string) :
  cloneRequest req log = ((cl, Some e), req1, log1) ->
  e = "error reading request body".
Proof.
  unfold cloneRequest, io.CopyN.
  destruct (_ <=? _); [discriminate|].
  destruct (io.failure (http.Body req)); [|discriminate].
  now intros [= _ <- _ _].
Qed.

(** X20. The answers of the gatekeeper.  Whenever [ServeHTTP] returns,
    either it has answered itself, with status 400 and "invalid requestId",
    with status 429 and "Too Many Requests", or with status 500 and the
    text of an error, and then the recorder is as it was and the upstream
    handler and the cache have not been used; or it has offered one record
    to the recorder, under the first match of the pattern, and handed the
    request, its body cut at 2 MiB, to the cache.  The answer "too many
    requests" of the source is never given. *)
Theorem gatekeeper_answers (dial : string -> string -> resp.Client * error)
    (crossover crossover' : Crossover) (rw rw' : http.ResponseWriter)
    (req : http.Request) (c' : resp.Client) (log log' : list string) :
  ServeHTTP dial crossover rw req log = Returned (rw', crossover', c', log') ->
  (activityService crossover' = activityService crossover /\
   (rw' = respond 400 "invalid requestId" rw \/
    rw' = respond 429 "Too Many Requests" rw \/
    exists e, e <> "Too Many Requests" /\ rw' = respond 500 e rw)) \/
  (exists (count : Z) (c1 : resp.Client) (logs : list string),
      (rw', c', log') =
        cache.ServeHTTP (cacheService crossover) rw
          (http.with_Body
             (io.of_bytes (io.take MaxRequestBodySize (io.pending (http.Body req)))) req)
          (next crossover) c1
          (activity.LogActivity (activityService crossover)
             (requestKey crossover (url.Path (http.URL req))) count logs).2 /\
      activityService crossover' =
        (activity.LogActivity (activityService crossover)
           (requestKey crossover (url.Path (http.URL req))) count logs).1).
Proof.
  unfold ServeHTTP.
  destruct (dial _ _) as [c0 [e|]].
  { intros [= <- <- _ _]. left. split; [reflexivity|]. right. right.
    eexists. split; [|reflexivity]. discriminate. }
  destruct (extractUserID crossover _) as [userId|]; [|discriminate].
  destruct (String.eqb userId "").
  { intros [= <- <- _ _]. left. split; [reflexivity|]. now left. }
  destruct (limiter.Limit _ _ _ _) as [[[[[allow [e|]] l1] c1] log1]|] eqn:HL;
    [| |discriminate].
  { destruct (String.eqb_spec e (http.StatusText http.StatusTooManyRequests)) as [->|Hne].
    - intros [= <- <- _ _]. left. split; [reflexivity|]. right. now left.
    - intros [= <- <- _ _]. left. split; [reflexivity|]. right. right.
      exists e. split; [exact Hne|reflexivity]. }
  destruct allow; cbn [negb].
  2:{ exfalso. exact (Limit_refuses_with_error _ _ _ _ _ _ _ HL). }
  destruct (cloneRequest req log1) as [[[cl [e|]] req1] log2] eqn:HC.
  { apply cloneRequest_error in HC as ->.
    intros [= <- <- _ _]. left. split; [reflexivity|]. right. right.
    eexists. split; [|reflexivity]. discriminate. }
  apply cloneRequest_onward in HC as (-> & -> & ->).
  destruct (requestCount _) as [count req2].
  destruct (activity.LogActivity _ _ _ _) as [a1 log3] eqn:HA.
  cbn [activityService with_limiterService cacheService next] in *.
  destruct (cache.ServeHTTP _ _ _ _ _ _) as [[rw1 c2] log4] eqn:HS.
  intros [= <- <- <- <-]. right. exists count, c1, log1.
  rewrite HA. cbn [fst snd]. rewrite HS. auto.
Qed.

End serving.

Section admission.

Import crossover.

Context `{uuid.Lib} `{url.Lib} `{limiter.PlanDecoder} `{ArrayDecoder} `{cache.Codec}.

(** The limiter on a tenant whose plan is in the store and whose window is
    running, on a store that answers. *)
Lemma Limit_in_window (l : limiter.limiter) (userId : string) (c : resp.Client)
    (log : list string) (e : resp.entry) (Q t0 n : Z) :
  resp.faults c = [] ->
  resp.find userId c = Some e ->
  strconv.Atoi (resp.value e) = (Q, None) ->
  limiter.counting userId t0 n c ->
  resp.now c < t0 + 1000 ->
  1 <= n < max_int ->
  exists c1,
    limiter.Limit l userId c log =
      Returned ((if bool_decide (n + 1 <= Q) then (true, None)
                 else (false, Some "Too Many Requests")), l, c1, log) /\
    limiter.counting userId t0 (n + 1) c1 /\
    resp.issued c1 =
      (resp.issued c ++ [resp.CGet userId; resp.CIncr (limiter.rate_key userId)])%list.
Proof.
  intros Hf Hfind HQ [_ Hst] Ht Hn.
  assert (resp.value e <> "") as Hne by (intros E; rewrite E in HQ; discriminate).
  unfold limiter.Limit, limiter.getUserPlan.
  rewrite (Get_answers userId c Hf), Hfind.
  apply String.eqb_neq in Hne. rewrite Hne.
  unfold limiter.parse_plan. rewrite HQ.
  destruct (allow_in_window userId Q t0 n
              (resp.MkClient (resp.store c) (resp.now c) []
                 (resp.issued c ++ [resp.CGet userId])))
    as (c1 & Ha & Hc1 & _ & Hi); [split; [reflexivity|exact Hst] | exact Ht | exact Hn |].
  rewrite Ha. exists c1. split; [|split; [exact Hc1|]].
  - destruct (bool_decide (n + 1 <= Q)); reflexivity.
  - rewrite Hi. cbn [resp.issued]. now rewrite <- app_assoc.
Qed.

(** X21. A path without identity is turned away at the door.  When the
    pattern finds nothing in the path, or finds a match of ten bytes or
    more whose rest is not an identifier, [ServeHTTP] answers 400 "invalid
    requestId" and does nothing else: no command goes to the store, the
    gatekeeper and its recorder are as they were, nothing is logged, the
    upstream handler is not called. *)
Theorem invalid_identity_rejected (dial : string -> string -> resp.Client * error)
    (crossover : Crossover) (rw : http.ResponseWriter) (req : http.Request)
    (log : list string) (c : resp.Client) :
  dial (redisAddress crossover) (redisAuth crossover) = (c, None) ->
  (regexp.FindStringSubmatch (compiledPattern crossover) (url.Path (http.URL req)) = [] \/
   exists m0 rest,
     regexp.FindStringSubmatch (compiledPattern crossover) (url.Path (http.URL req)) =
       m0 :: rest /\
     (10 <= String.length m0)%nat /\
     uuid.Parse (String.substring 10 (String.length m0 - 10) m0) = None) ->
  ServeHTTP dial crossover rw req log =
    Returned (respond 400 "invalid requestId" rw, crossover, c, log).
Proof.
  intros Hd Hm. unfold ServeHTTP. rewrite Hd.
  assert (extractUserID crossover (url.Path (http.URL req)) = Returned "") as ->.
  { destruct Hm as [Hm | (m0 & rest & Hm & Hlen & Hp)].
    - now apply extractUserID_no_match.
    - rewrite (extractUserID_long_match _ _ _ _ Hm Hlen), Hp. reflexivity. }
  reflexivity.
Qed.

(** X22. A tenant over quota is answered 429 and costs nothing but the
    count.  With the tenant's plan [Q] in the store and [n >= Q] requests
    already counted in the running window, [ServeHTTP] answers 429 "Too
    Many Requests"; the store has received the read of the plan and the
    increment, which is counted; the recorder is untouched, nothing is
    logged, the cache and the upstream handler are not used. *)
Theorem over_quota_rejected (dial : string -> string -> resp.Client * error)
    (crossover : Crossover) (rw : http.ResponseWriter) (req : http.Request)
    (log : list string) (c : resp.Client) (userId : string) (e : resp.entry)
    (Q t0 n : Z) :
  dial (redisAddress crossover) (redisAuth crossover) = (c, None) ->
  extractUserID crossover (url.Path (http.URL req)) = Returned userId ->
  userId <> "" ->
  resp.faults c = [] ->
  resp.find userId c = Some e ->
  strconv.Atoi (resp.value e) = (Q, None) ->
  limiter.counting userId t0 n c ->
  resp.now c < t0 + 1000 ->
  1 <= n < max_int ->
  Q <= n ->
  exists c1,
    ServeHTTP dial crossover rw req log =
      Returned (respond 429 "Too Many Requests" rw,
                with_limiterService (limiterService crossover) crossover, c1, log) /\
    limiter.counting userId t0 (n + 1) c1 /\
    resp.issued c1 =
      (resp.issued c ++ [resp.CGet userId; resp.CIncr (limiter.rate_key userId)])%list.
Proof.
  intros Hd Hid Hne Hf Hfind HQ Hcount Ht Hn Hover.
  destruct (Limit_in_window (limiterService crossover) userId c log e Q t0 n
              Hf Hfind HQ Hcount Ht Hn) as (c1 & HL & Hc1 & Hi).
  exists c1. split; [|split; assumption].
  unfold ServeHTTP. rewrite Hd, Hid.
  apply String.eqb_neq in Hne. rewrite Hne, HL.
  rewrite bool_decide_eq_false_2 by lia. reflexivity.
Qed.

(** X23. An admitted request is recorded once and served by the cache.
    With the tenant's plan [Q] in the store, [n < Q] requests counted in
    the running window and a body that can be read, [ServeHTTP] counts the
    request, offers the recorder one record, under the first match of the
    pattern and with the count that [requestCount] takes from the snapshot
    of the body, and then returns what the cache returns for the request
    with its body cut at 2 MiB. *)
Theorem admitted_request_served (dial : string -> string -> resp.Client * error)
    (crossover : Crossover) (rw : http.ResponseWriter) (req : http.Request)
    (log : list string) (c : resp.Client) (userId : string) (e : resp.entry)
    (Q t0 n : Z) :
  dial (redisAddress crossover) (redisAuth crossover) = (c, None) ->
  extractUserID crossover (url.Path (http.URL req)) = Returned userId ->
  userId <> "" ->
  resp.faults c = [] ->
  resp.find userId c = Some e ->
  strconv.Atoi (resp.value e) = (Q, None) ->
  limiter.counting userId t0 n c ->
  resp.now c < t0 + 1000 ->
  1 <= n < max_int ->
  n + 1 <= Q ->
  io.failure (http.Body req) = None ->
  exists c1,
    limiter.counting userId t0 (n + 1) c1 /\
    resp.issued c1 =
      (resp.issued c ++ [resp.CGet userId; resp.CIncr (limiter.rate_key userId)])%list /\
    let onward :=
      http.with_Body
        (io.of_bytes (io.take MaxRequestBodySize (io.pending (http.Body req)))) req in
    let offered :=
      activity.LogActivity (activityService crossover)
        (requestKey crossover (url.Path (http.URL req))) (requestCount onward).1 log in
    let served :=
      cache.ServeHTTP (cacheService crossover) rw onward (next crossover) c1 offered.2 in
    ServeHTTP dial crossover rw req log =
      Returned (served.1.1,
                with_activityService offered.1
                  (with_limiterService (limiterService crossover) crossover),
                served.1.2, served.2).
Proof.
  intros Hd Hid Hne Hf Hfind HQ Hcount Ht Hn Hunder Hbody.
  destruct (Limit_in_window (limiterService crossover) userId c log e Q t0 n
              Hf Hfind HQ Hcount Ht Hn) as (c1 & HL & Hc1 & Hi).
  exists c1. split; [exact Hc1|]. split; [exact Hi|]. cbv zeta.
  unfold ServeHTTP. rewrite Hd, Hid.
  apply String.eqb_neq in Hne. rewrite Hne, HL.
  rewrite bool_decide_eq_true_2 by lia. cbn [negb].
  destruct (cloneRequest req log) as [[[cl [e'|]] req1] log2] eqn:HC.
  { exfalso. revert HC. unfold cloneRequest, io.CopyN. rewrite Hbody.
    destruct (_ <=? _); discriminate. }
  apply cloneRequest_onward in HC as (-> & -> & ->).
  destruct (requestCount _) as [count req2].
  cbn [activityService with_limiterService cacheService next fst].
  destruct (activity.LogActivity _ _ _ _) as [a1 log3].
  cbn [fst snd].
  destruct (cache.ServeHTTP _ _ _ _ _ _) as [[rw1 c2] log4]. reflexivity.
Qed.

(** X24. What the store says reaches the caller.  When the store fails
    on the read of the plan, [ServeHTTP] answers 500 with the text of the
    store's error as the body; the counter has not been touched and
    nothing has been recorded. *)
Theorem store_error_reaches_caller (dial : string -> string -> resp.Client * error)
    (crossover : Crossover) (rw : http.ResponseWriter) (req : http.Request)
    (log : list string) (c : resp.Client) (userId : string) (rest : list bool) :
  dial (redisAddress crossover) (redisAuth crossover) = (c, None) ->
  extractUserID crossover (url.Path (http.URL req)) = Returned userId ->
  userId <> "" ->
  resp.faults c = true :: rest ->
  ServeHTTP dial crossover rw req log =
    Returned (respond 500 resp.backend_error rw,
              with_limiterService (limiterService crossover) crossover,
              resp.MkClient (resp.store c) (resp.now c) rest
                (resp.issued c ++ [resp.CGet userId]),
              log).
Proof.
  intros Hd Hid Hne Hf. unfold ServeHTTP. rewrite Hd, Hid.
  apply String.eqb_neq in Hne. rewrite Hne.
  unfold limiter.Limit, limiter.getUserPlan, resp.Get, resp.issue. rewrite Hf.
  reflexivity.
Qed.

End admission.

Lemma gatekeeper_answers_witness :
  exists rw' crossover' c' log',
    crossover.ServeHTTP (fun _ _ => (sample.window_store 1 [], None))
      sample.accounts_gatekeeper sample.blank sample.items_request [] =
    Returned (rw', crossover', c', log') /\
    ((crossover.activityService crossover' =
        crossover.activityService sample.accounts_gatekeeper /\
      (rw' = crossover.respond 400 "invalid requestId" sample.blank \/
       rw' = crossover.respond 429 "Too Many Requests" sample.blank \/
       exists e, e <> "Too Many Requests" /\ rw' = crossover.respond 500 e sample.blank)) \/
     (exists (count : Z) (c1 : resp.Client) (logs : list string),
         (rw', c', log') =
           cache.ServeHTTP (crossover.cacheService sample.accounts_gatekeeper)
             sample.blank
             (http.with_Body
                (io.of_bytes
                   (io.take crossover.MaxRequestBodySize
                      (io.pending (http.Body sample.items_request))))
                sample.items_request)
             (crossover.next sample.accounts_gatekeeper) c1
             (activity.LogActivity
                (crossover.activityService sample.accounts_gatekeeper)
                (crossover.requestKey sample.accounts_gatekeeper
                   (url.Path (http.URL sample.items_request))) count logs).2 /\
         crossover.activityService crossover' =
           (activity.LogActivity
              (crossover.activityService sample.accounts_gatekeeper)
              (crossover.requestKey sample.accounts_gatekeeper
                 (url.Path (http.URL sample.items_request))) count logs).1)).
Proof.
  assert (exists r,
             crossover.ServeHTTP (fun _ _ => (sample.window_store 1 [], None))
               sample.accounts_gatekeeper sample.blank sample.items_request [] =
             Returned r) as [[[[rw' crossover'] c'] log'] Hs]
    by (eexists; vm_compute; reflexivity).
  exists rw', crossover', c', log'. split; [exact Hs|].
  exact (gatekeeper_answers _ _ _ _ _ _ _ _ _ Hs).
Defined.

Lemma invalid_identity_rejected_witness :
  crossover.ServeHTTP (fun _ _ => (sample.empty_store, None)) sample.accounts_gatekeeper
    sample.blank sample.resource_request [] =
  Returned (crossover.respond 400 "invalid requestId" sample.blank,
            sample.accounts_gatekeeper, sample.empty_store, []).
Proof.
  apply (invalid_identity_rejected
           (fun _ _ => (sample.empty_store, None)) sample.accounts_gatekeeper
           sample.blank sample.resource_request [] sample.empty_store).
  - reflexivity.
  - left. vm_compute. reflexivity.
Defined.

Lemma over_quota_rejected_witness :
  exists c1,
    crossover.ServeHTTP (fun _ _ => (sample.window_store 2 [], None))
      sample.accounts_gatekeeper sample.blank sample.items_request [] =
    Returned (crossover.respond 429 "Too Many Requests" sample.blank,
              crossover.with_limiterService
                (crossover.limiterService sample.accounts_gatekeeper)
                sample.accounts_gatekeeper,
              c1, []) /\
    limiter.counting sample.tenant 0 3 c1.
Proof.
  destruct (over_quota_rejected
              (fun _ _ => (sample.window_store 2 [], None)) sample.accounts_gatekeeper
              sample.blank sample.items_request [] (sample.window_store 2 [])
              sample.tenant (resp.Entry "2" None) 2 0 2)
    as (c1 & Hs & Hc & _).
  - reflexivity.
  - vm_compute. reflexivity.
  - discriminate.
  - reflexivity.
  - vm_compute. reflexivity.
  - reflexivity.
  - split; vm_compute; reflexivity.
  - reflexivity.
  - split; [discriminate | reflexivity].
  - discriminate.
  - exists c1. split; [exact Hs | exact Hc].
Defined.

Lemma admitted_request_served_witness :
  exists c1 rw' crossover' c' log',
    limiter.counting sample.tenant 0 2 c1 /\
    crossover.ServeHTTP (fun _ _ => (sample.window_store 1 [], None))
      sample.accounts_gatekeeper sample.blank sample.items_request [] =
    Returned (rw', crossover', c', log') /\
    activity.queue (activity.logsChannel (crossover.activityService crossover')) =
      [activity.MkActivityRequestDto ("/accounts/" +:+ sample.tenant) 3].
Proof.
  destruct (admitted_request_served
              (fun _ _ => (sample.window_store 1 [], None)) sample.accounts_gatekeeper
              sample.blank sample.items_request [] (sample.window_store 1 [])
              sample.tenant (resp.Entry "2" None) 2 0 1)
    as (c1 & Hc & _ & Hs).
  - reflexivity.
  - vm_compute. reflexivity.
  - discriminate.
  - reflexivity.
  - vm_compute. reflexivity.
  - reflexivity.
  - split; vm_compute; reflexivity.
  - reflexivity.
  - split; [discriminate | reflexivity].
  - discriminate.
  - reflexivity.
  - exists c1. do 4 eexists. split; [exact Hc|]. split; [exact Hs|].
    vm_compute. reflexivity.
Defined.

Lemma store_error_reaches_caller_witness :
  crossover.ServeHTTP (fun _ _ => (sample.window_store 1 [true], None))
    sample.accounts_gatekeeper sample.blank sample.items_request [] =
  Returned (crossover.respond 500 "resp: backend error" sample.blank,
            crossover.with_limiterService
              (crossover.limiterService sample.accounts_gatekeeper)
              sample.accounts_gatekeeper,
            resp.MkClient (resp.store (sample.window_store 1 [true])) 500 []
              [resp.CGet sample.tenant],
            []).
Proof.
  apply (store_error_reaches_caller
           (fun _ _ => (sample.window_store 1 [true], None)) sample.accounts_gatekeeper
           sample.blank sample.items_request [] (sample.window_store 1 [true])
           sample.tenant []).
  - reflexivity.
  - vm_compute. reflexivity.
  - discriminate.
  - reflexivity.
Defined.
